(** * FarmGuru: the query submission and resilience pipeline

    A shallow embedding of the client logic of the FarmGuru web application:
    the query input component ([QueryInput.tsx]), the result card
    ([ResultCard]), the treatment recommender ([ChemRecommender]) and the
    query handlers of the home page ([Index], in its two versions) and of
    the routed query page ([QueryPage.tsx]), with what the result card, the
    home page and the recommender render of a result.

    Conventions of the embedding.
    - A JavaScript number that carries a confidence is an IEEE 754 binary64
      value: it is a primitive [float], compared with the primitive
      comparisons, so a literal such as [0.7] denotes the same double as in
      the source.  Sizes and clock readings are naturals ([N]).
    - A JavaScript string is the sequence of bytes of its UTF-8 encoding
      ([string]); equality of well-formed strings is equality of these byte
      sequences, and an ASCII needle occurs in a string exactly when its
      bytes occur in the encoding.
    - A parsed JSON body is a value of [Json]: [null], a primitive or an
      object.  An object is taken to have the shape that the component
      declares for it; arrays and objects of another shape are not
      modelled.
    - An [async] handler is a function from the answers of its environment
      (storage upload, remote endpoint, record store, clock) to the final
      component state together with the trace of effects it performed, in
      program order. *)

From Stdlib Require Import Bool List NArith ZArith PArith Lia.
From Stdlib Require Import Ascii String DecimalString.
From Stdlib Require Import Floats.
Import ListNotations.

Set Warnings "-inexact-float".
Set Warnings "-register-all".

Open Scope list_scope.
Open Scope string_scope.

(** ** JavaScript values *)

Module JS.

(** [String.prototype.toLowerCase], on the ASCII range: the bytes of
    [A]..[Z] are moved to [a]..[z]; every other byte, in particular every
    byte of a multi-byte UTF-8 sequence, is kept.  The Unicode mapping
    yields an ASCII letter from a character outside ASCII in two cases
    only (U+212A gives [k]; U+0130 gives [i] followed by U+0307), and
    neither can complete one of the needles searched below, so the
    containment tests of the handlers are those of the source. *)
Definition lowerAscii (c : ascii) : ascii :=
  let n := N_of_ascii c in
  if ((65 <=? n) && (n <=? 90))%N then ascii_of_N (n + 32) else c.

Fixpoint toLowerCase (s : string) : string :=
  match s with
  | EmptyString => EmptyString
  | String c s' => String (lowerAscii c) (toLowerCase s')
  end.

(** [String.prototype.startsWith]. *)
Fixpoint startsWith (s p : string) {struct p} : bool :=
  match p, s with
  | EmptyString, _ => true
  | String _ _, EmptyString => false
  | String a p', String b s' => Ascii.eqb a b && startsWith s' p'
  end.

(** [String.prototype.includes]: the needle starts at some position. *)
Fixpoint includes (s needle : string) : bool :=
  startsWith s needle
  || match s with
     | EmptyString => false
     | String _ s' => includes s' needle
     end.

(** Truthiness of a string: only the empty string is falsy. *)
Definition truthy (s : string) : bool :=
  match s with EmptyString => false | String _ _ => true end.

(** Truthiness of an optional string ([undefined] is falsy). *)
Definition truthy_opt (o : option string) : bool :=
  match o with None => false | Some s => truthy s end.

(** Template interpolation of a non-negative integer: its decimal digits. *)
Definition showN (n : N) : string :=
  NilZero.string_of_uint (N.to_uint n).

(** Property access [o[k]] on an object literal used as a table: the
    value of the first entry under the key, [undefined] when absent. *)
Fixpoint get {A : Type} (k : string) (o : list (string * A)) : option A :=
  match o with
  | [] => None
  | (k', v) :: o' => if String.eqb k k' then Some v else get k o'
  end.

(** Comparisons of doubles, as propositions. *)
Definition fle (x y : float) : Prop := PrimFloat.leb x y = true.
Definition flt (x y : float) : Prop := PrimFloat.ltb x y = true.

(** A confidence score is a double in the closed unit interval. *)
Definition unit_interval (c : float) : Prop :=
  fle 0%float c /\ fle c 1%float.

End JS.

(** ** JSON values *)

Inductive Json (A : Type) :=
| JNull
| JBool (b : bool)
| JNumber (x : float)
| JString (s : string)
| JObject (a : A).
Arguments JNull {A}.
Arguments JBool {A} b.
Arguments JNumber {A} x.
Arguments JString {A} s.
Arguments JObject {A} a.

(** Truthiness of a value: [null], [false], the zeros, [NaN] and the empty
    string are falsy. *)
Definition truthy_value {A : Type} (v : Json A) : bool :=
  match v with
  | JNull => false
  | JBool b => b
  | JNumber x => negb (x =? 0)%float && (x =? x)%float
  | JString s => JS.truthy s
  | JObject _ => true
  end.

(** ** The data model shared by the components *)

Record Source := mkSource {
  title : string;
  url : string;
  snippet : string
}.

Record QueryResult := mkQueryResult {
  answer : string;
  confidence : float;
  actions : list string;
  sources : list Source
}.

(** A browser [File]: its name, MIME type and size in bytes. *)
Record File := mkFile {
  name : string;
  type : string;
  size : N
}.

(** The third argument that [QueryInput] passes to [onQuery]; its [result]
    is the parsed body of the response, whatever value that is. *)
Module Options.
Record t := mk {
  showHelpCard : option bool;
  result : option (Json QueryResult)
}.
End Options.

(** One record of the [queries] object store; its [response] is the parsed
    body of the response, whatever value that is. *)
Record LogEntry := mkLogEntry {
  query : string;
  response : Json QueryResult;
  timestamp : string;
  lang : string
}.

(** A JSON request body: its fields in order; [JSON.stringify] drops the
    fields whose value is [undefined] ([None]). *)
Definition Body := list (string * option string).

(** The effects a handler performs, in program order. *)
Inductive Effect :=
| Toast (title description : string) (destructive : bool)
| ConsoleError (label : string)
| StorageUpload (bucket path : string) (file : File)
| Fetch (endpoint : string) (body : Body)
| DbAdd (store : string) (key : N) (entry : LogEntry)
| Sleep (ms : N).

Definition is_toast (e : Effect) : bool :=
  match e with Toast _ _ _ => true | _ => false end.

(** Storage uploads and HTTP requests: the effects that reach the network. *)
Definition is_network (e : Effect) : bool :=
  match e with StorageUpload _ _ _ | Fetch _ _ => true | _ => false end.

(** The outcome of a [fetch] followed by [response.json()]: the request
    fails, or a response arrives with its [ok] flag and a body that parses
    ([Some], with the parsed body) or does not ([None]). *)
Inductive Response (A : Type) :=
| NetworkError
| Http (ok : bool) (body : option A).
Arguments NetworkError {A}.
Arguments Http {A} ok body.

(** What a caller obtains from the remote call: the parsed body of an [ok]
    response; a network error, a status that is not [ok] and a body that
    does not parse all leave nothing. *)
Definition delivered {A : Type} (r : Response A) : option A :=
  match r with
  | Http true (Some a) => Some a
  | _ => None
  end.

(** ** The record store (IndexedDB, through [idb]) *)

Module IDB.

Record ObjectStore := mkStore {
  keyPath : string;
  autoIncrement : bool;
  indexes : list (string * string);   (* index name, indexed property *)
  nextKey : N;                        (* the key generator *)
  records : list (N * LogEntry)       (* in key order *)
}.

(** The object stores of one database, by name. *)
Definition Database := list (string * ObjectStore).

(** [db.createObjectStore(name, { keyPath, autoIncrement })]: an empty
    store whose key generator starts at 1. *)
Definition createObjectStore (kp : string) (auto : bool) : ObjectStore :=
  mkStore kp auto [] 1 [].

Definition createIndex (ix prop : string) (s : ObjectStore) : ObjectStore :=
  mkStore (keyPath s) (autoIncrement s) (indexes s ++ [(ix, prop)])%list
          (nextKey s) (records s).

Fixpoint put (n : string) (s : ObjectStore) (d : Database) : Database :=
  match d with
  | [] => [(n, s)]
  | (n', s') :: d' =>
      if String.eqb n n' then (n, s) :: d' else (n', s') :: put n s d'
  end.

(** [db.add(store, value)] on a store with a key generator and a value
    that carries no key: the record is stored under the generator's
    current number, which then advances.  A missing store is an error. *)
Definition add (n : string) (e : LogEntry) (d : Database)
  : option (N * Database) :=
  match JS.get n d with
  | None => None
  | Some s =>
      let k := nextKey s in
      Some (k, put n (mkStore (keyPath s) (autoIncrement s) (indexes s)
                              (k + 1) (records s ++ [(k, e)])%list) d)
  end.

(** The records of the [queries] store of the browser's storage, which
    holds no database before the first [openDB]. *)
Definition entries (st : option Database) : list (N * LogEntry) :=
  match st with
  | Some d =>
      match JS.get "queries" d with Some s => records s | None => [] end
  | None => []
  end.

(** The number the key generator of the [queries] store gives next; a
    store that does not exist yet will start at 1. *)
Definition generator (st : option Database) : N :=
  match st with
  | Some d =>
      match JS.get "queries" d with Some s => nextKey s | None => 1 end
  | None => 1
  end.

(** The shape of the storage that the application itself produces: no
    database yet, or the single store [queries] with key path [id], a key
    generator and the index [timestamp] on the property [timestamp], whose
    records carry keys below the generator. *)
Definition well_formed (st : option Database) : Prop :=
  match st with
  | None => True
  | Some d =>
      exists s, d = [("queries", s)]
        /\ keyPath s = "id" /\ autoIncrement s = true
        /\ indexes s = [("timestamp", "timestamp")]
        /\ Forall (fun r => (fst r < nextKey s)%N) (records s)
  end.

End IDB.

(** ** What a component renders *)

Module View.

(** The rendered elements that carry text or a meaning of their own.
    Layout containers are left out: their children stand in their place.  A
    button rendered [asChild] around a link is the link.  Of the class
    names, those of badges and alerts are kept: they carry the colour. *)
Inductive Element :=
| Text (s : string)
| Numeral (x : float)               (* a number rendered as text *)
| Rounded (x : float)               (* the digits of [Math.round(x)] *)
| Icon (name : string)
| Bar (width : float)               (* a bar filled to [width] percent *)
| Badge (className : string) (children : list Element)
| Alert (className : string) (children : list Element)
| Button (children : list Element)
| Anchor (href : string) (children : list Element)
| Item (children : list Element).   (* one entry of a list *)

(** The class names of the alerts of an element, in document order. *)
Fixpoint alerts (e : Element) : list string :=
  match e with
  | Alert className children => className :: flat_map alerts children
  | Badge _ children | Button children | Anchor _ children | Item children =>
      flat_map alerts children
  | _ => []
  end.

(** The targets of the links of an element, in document order. *)
Fixpoint anchors (e : Element) : list string :=
  match e with
  | Anchor href children => href :: flat_map anchors children
  | Badge _ children | Alert _ children | Button children | Item children =>
      flat_map anchors children
  | _ => []
  end.

(** The same over what a component renders. *)
Definition allAlerts (view : list Element) : list string :=
  flat_map alerts view.

Definition allAnchors (view : list Element) : list string :=
  flat_map anchors view.

(** The entries of an array with their index. *)
Fixpoint indexed {A : Type} (index : N) (l : list A) : list (N * A) :=
  match l with
  | [] => []
  | a :: l' => (index, a) :: indexed (index + 1) l'
  end.

(** [{v && children}]: React renders nothing for [null], [false] and the
    empty string, the number for a falsy number, and the children for a
    truthy value.  The children are [None] when their evaluation throws. *)
Definition guarded {A : Type} (v : Json A) (children : option (list Element))
  : option (list Element) :=
  if truthy_value v then children
  else match v with
       | JNumber x => Some [ Numeral x ]
       | _ => Some []
       end.

(** The colour of the warning and of the help card. *)
Definition amber : string := "border-amber-200 bg-amber-50".

(** The helpline of the expert call-to-action. *)
Definition helpline : string := "tel:1800-180-1551".

End View.

(** ** Translation resources ([i18n.ts]) *)

Module I18n.

(** The entries of [resources] that the modelled components look up,
    addressed by their dotted key. *)
Definition en : list (string * string) :=
  [ ("image.analyzing", "Analyzing crop image for diseases and issues...");
    ("image.error", "Image upload error");
    ("image.invalidType", "Please upload a valid image file");
    ("image.tooLarge", "Image file too large (max 5MB)");
    ("confidence.label", "Confidence");
    ("confidence.high", "High");
    ("confidence.medium", "Medium");
    ("confidence.low", "Low") ].

Definition hi : list (string * string) :=
  [ ("image.analyzing", "बीमारियों और समस्याओं के लिए फसल की तस्वीर का विश्लेषण कर रहे हैं...");
    ("image.error", "तस्वीर अपलोड त्रुटि");
    ("image.invalidType", "कृपया वैध तस्वीर फ़ाइल अपलोड करें");
    ("image.tooLarge", "तस्वीर फ़ाइल बहुत बड़ी है (अधिकतम 5MB)");
    ("confidence.label", "विश्वास");
    ("confidence.high", "उच्च");
    ("confidence.medium", "मध्यम");
    ("confidence.low", "कम") ].

Definition resources : list (string * list (string * string)) :=
  [ ("en", en); ("hi", hi) ].

Definition fallbackLng : string := "en".

(** [t(key)] under the language [lng]: the entry of the language, else the
    entry of the fallback language, else the key itself.  The application
    sets no language but [en] and [hi]; the step by which a code with a
    region is first resolved to its language is not modelled. *)
Definition t (lng key : string) : string :=
  let in_lang (l : string) : option string :=
    match JS.get l resources with
    | Some table => JS.get key table
    | None => None
    end in
  match in_lang lng with
  | Some v => v
  | None =>
      match in_lang fallbackLng with
      | Some v => v
      | None => key
      end
  end.

End I18n.

(** ** The result card ([ResultCard]) *)

Module ResultCard.

Inductive Icon := CheckCircle | AlertTriangle | XCircle.

Definition getConfidenceColor (confidence : float) : string :=
  if (0.7 <=? confidence)%float then "bg-gradient-confidence-high"
  else if (0.4 <=? confidence)%float then "bg-gradient-confidence-medium"
  else "bg-gradient-confidence-low".

Definition getConfidenceIcon (confidence : float) : Icon :=
  if (0.7 <=? confidence)%float then CheckCircle
  else if (0.4 <=? confidence)%float then AlertTriangle
  else XCircle.

Definition getConfidenceText (t : string -> string) (confidence : float)
  : string :=
  if (0.7 <=? confidence)%float then t "confidence.high"
  else if (0.4 <=? confidence)%float then t "confidence.medium"
  else t "confidence.low".

Definition iconName (i : Icon) : string :=
  match i with
  | CheckCircle => "CheckCircle"
  | AlertTriangle => "AlertTriangle"
  | XCircle => "XCircle"
  end.

(** What the card renders for a result: the answer, the confidence
    indicator, the actions and the sources, whose entries are rendered
    while the collapsible is open. *)
Definition render (t : string -> string) (isSourcesOpen : bool)
    (result : QueryResult) : list View.Element :=
  ([ View.Text (answer result);
     View.Icon (iconName (getConfidenceIcon (confidence result)));
     View.Text (t "confidence.label");
     View.Text ": ";
     View.Text (getConfidenceText t (confidence result));
     View.Badge
       ("inline-flex items-center px-3 py-1 rounded-full text-sm font-semibold "
        ++ getConfidenceColor (confidence result))
       [ View.Rounded (confidence result * 100)%float; View.Text "%" ];
     View.Bar (confidence result * 100)%float;
     View.Icon "Lightbulb";
     View.Text (t "actions.title") ]
   ++ map (fun entry : N * string =>
             View.Item [ View.Text (JS.showN (fst entry + 1));
                         View.Text (snd entry) ])
        (View.indexed 0 (actions result))
   ++ [ View.Button
          [ View.Text (t "sources.title");
            View.Text " (";
            View.Text (JS.showN (N.of_nat (List.length (sources result))));
            View.Text ")";
            View.Icon (if isSourcesOpen then "ChevronUp" else "ChevronDown") ] ]
   ++ (if isSourcesOpen then
         map (fun source : Source =>
                View.Item
                  [ View.Text (title source);
                    View.Anchor (url source)
                      [ View.Icon "ExternalLink";
                        View.Text (t "sources.visit") ];
                    View.Text (snippet source) ])
           (sources result)
       else []))%list.

(** The card for the value in the state of a page.  On a value that is not
    an object, [result.actions] is [undefined] and the call of [map]
    throws. *)
Definition renderValue (t : string -> string) (isSourcesOpen : bool)
    (result : Json QueryResult) : option (list View.Element) :=
  match result with
  | JObject r => Some (render t isSourcesOpen r)
  | _ => None
  end.

End ResultCard.

(** ** The query input component ([QueryInput.tsx]) *)

Module QueryInput.

(** What the browser and the remote services answer during one run of a
    handler. *)
Record Env := mkEnv {
  now : N;                                  (* [Date.now()] *)
  isoNow : string;                          (* [new Date().toISOString()] *)
  language : string;                        (* [i18n.language] *)
  VITE_API_URL : option string;
  upload : string -> string -> File -> option string;
                   (* bucket, path, file: [data.path], or the upload error *)
  getPublicUrl : string -> string -> string;
  queryEndpoint : Response (Json QueryResult);
                                            (* answer of [POST /api/query] *)
  idbOpens : bool;                          (* [openDB] resolves *)
  idbAccepts : bool                         (* [db.add] is not refused *)
}.

(** The same environment with other answers of the record store. *)
Definition withStore (opens accepts : bool) (e : Env) : Env :=
  mkEnv (now e) (isoNow e) (language e) (VITE_API_URL e) (upload e)
        (getPublicUrl e) (queryEndpoint e) opens accepts.

(** The literal that [handleRealQuery] compares the answer with.  Between
    "know" and "please" the source file holds the eight bytes
    C3 A2, E2 82 AC, E2 80 9D (the characters U+00E2, U+20AC, U+201D). *)
Definition sentinel : string :=
  "I don't know â€” please consult a local expert.".

Section Component.

(** The page that hosts the component: its state and the handler it
    passes as [onQuery]. *)
Context {P : Type}.
Variable onQuery :
  string -> option File -> option Options.t -> P -> P * list Effect.
Variable env : Env.

(** The component state ([text], [uploadingImage]), the browser storage,
    the state of the hosting page and the effects performed so far. *)
Record World := mkWorld {
  text : string;
  uploadingImage : bool;
  storage : option IDB.Database;
  page : P;
  trace : list Effect
}.

Definition emit (e : Effect) (w : World) : World :=
  mkWorld (text w) (uploadingImage w) (storage w) (page w) (trace w ++ [e])%list.

Definition setText (s : string) (w : World) : World :=
  mkWorld s (uploadingImage w) (storage w) (page w) (trace w).

Definition setUploadingImage (b : bool) (w : World) : World :=
  mkWorld (text w) b (storage w) (page w) (trace w).

Definition setStorage (d : IDB.Database) (w : World) : World :=
  mkWorld (text w) (uploadingImage w) (Some d) (page w) (trace w).

(** A call of the [onQuery] prop: the page handler runs on the page
    state and its effects are appended.  The handler is asynchronous and
    is not awaited; it changes the state of the page only, so running it
    to its end at the call gives the final state of both components. *)
Definition callOnQuery (queryText : string) (imageFile : option File)
    (options : option Options.t) (w : World) : World :=
  let (p', es) := onQuery queryText imageFile options (page w) in
  mkWorld (text w) (uploadingImage w) (storage w) p' (trace w ++ es)%list.

Definition t (key : string) : string := I18n.t (language env) key.

Definition apiUrl : string :=
  match VITE_API_URL env with
  | Some s => if JS.truthy s then s else ""
  | None => ""
  end.

(** The [upgrade] callback of [openDB]. *)
Definition upgrade (d : IDB.Database) : IDB.Database :=
  match JS.get "queries" d with
  | Some _ => d
  | None =>
      let store := IDB.createObjectStore "id" true in
      IDB.put "queries" (IDB.createIndex "timestamp" "timestamp" store) d
  end.

(** [openDB('FarmGuruQueries', 1, { upgrade })]: the callback runs when
    the browser holds no database of that name yet. *)
Definition openDB (st : option IDB.Database) : IDB.Database :=
  match st with
  | None => upgrade []
  | Some d => d
  end.

Definition logQueryToIndexedDB (query : string)
    (response : Json QueryResult) (w : World) : World :=
  let failed := emit (ConsoleError "IndexedDB logging error:") in
  if negb (idbOpens env) then failed w
  else
    let d := openDB (storage w) in
    let entry := mkLogEntry query response (isoNow env) (language env) in
    if negb (idbAccepts env) then failed (setStorage d w)
    else
      match IDB.add "queries" entry d with
      | Some (k, d') => emit (DbAdd "queries" k entry) (setStorage d' w)
      | None => failed (setStorage d w)
      end.

(** The request of [handleRealQuery]: a POST of the JSON body to
    [`${apiUrl}/api/query`]. *)
Definition request (queryText : string) (imageId : option string)
  : Effect :=
  Fetch (apiUrl ++ "/api/query")
    [ ("user_id", Some "anonymous");
      ("text", Some queryText);
      ("lang", Some (language env));
      ("image_id", imageId) ].

(** The [catch] block of [handleRealQuery]. *)
Definition queryFailed (queryText : string) (imageId : option string)
    (w : World) : World :=
  let w := emit (ConsoleError "Query error:") w in
  callOnQuery queryText
    (if JS.truthy_opt imageId then Some (mkFile "image" "" 0) else None)
    None w.

(** [handleRealQuery].  The parsed body is logged whatever it is.  Then
    [result.answer] is read: on [null] this throws, and the [catch] block
    runs after the log; on a primitive it is [undefined], which is not the
    literal. *)
Definition handleRealQuery (queryText : string) (imageId : option string)
    (w : World) : World :=
  let w := emit (request queryText imageId) w in
  match queryEndpoint env with
  | Http true (Some result) =>
      let w := logQueryToIndexedDB queryText result w in
      match result with
      | JNull => queryFailed queryText imageId w
      | JObject r =>
          if String.eqb (answer r) sentinel then
            callOnQuery queryText None
              (Some (Options.mk (Some true) (Some result))) w
          else
            callOnQuery queryText None
              (Some (Options.mk None (Some result))) w
      | _ =>
          callOnQuery queryText None
            (Some (Options.mk None (Some result))) w
      end
  | _ => queryFailed queryText imageId w
  end.

Definition uploadImageToSupabase (file : File) (w : World) : World :=
  let w := setUploadingImage true w in
  let fileName := JS.showN (now env) ++ "-" ++ name file in
  let filePath := "uploads/" ++ fileName in
  let w := emit (StorageUpload "farm-images" filePath file) w in
  let w :=
    match upload env "farm-images" filePath file with
    | Some path =>
        let publicUrl := getPublicUrl env "farm-images" path in
        let w := setText (t "image.analyzing") w in
        handleRealQuery (t "image.analyzing") (Some publicUrl) w
    | None =>
        let w := emit (ConsoleError "Image upload error:") w in
        emit (Toast (t "image.error")
                    "Failed to upload image. Please try again." true) w
    end in
  setUploadingImage false w.

(** The change handler of the file input; [files] is
    [event.target.files?.[0]]. *)
Definition handleImageUpload (files : option File) (w : World) : World :=
  match files with
  | None => w
  | Some file =>
      if negb (JS.startsWith (type file) "image/") then
        emit (Toast (t "image.error") (t "image.invalidType") true) w
      else if (5 * 1024 * 1024 <? size file)%N then
        emit (Toast (t "image.error") (t "image.tooLarge") true) w
      else uploadImageToSupabase file w
  end.

End Component.

Arguments World P : clear implicits.
Arguments mkWorld {P} _ _ _ _ _.
Arguments text {P} _.
Arguments uploadingImage {P} _.
Arguments storage {P} _.
Arguments page {P} _.
Arguments trace {P} _.

End QueryInput.

(** ** The canned results of the home page *)

Module Mock.

Definition irrigation : QueryResult :=
  mkQueryResult
    "For wheat crops in winter, irrigate every 15-20 days based on soil moisture at 2-3 inch depth."
    0.85
    [ "Check soil moisture"; "Water early morning"; "Monitor weather forecast" ]
    [ mkSource "IMD Weather Forecast" "https://mausam.imd.gov.in"
        "Minimal rainfall expected this week. Soil moisture levels dropping in Northern Plains.";
      mkSource "Agricultural Guidelines - Wheat" "https://farmer.gov.in/wheat"
        "Wheat requires 4-6 irrigations during its growth cycle, with critical stages being crown root initiation and grain filling." ].

Definition fertilizer : QueryResult :=
  mkQueryResult
    "Apply NPK 12:32:16 at 100kg/acre during tillering stage with organic compost."
    0.78
    [ "Soil test first"; "Apply in morning"; "Water after application" ]
    [ mkSource "Soil Health Card" "https://soilhealth.dac.gov.in"
        "Current soil analysis shows nitrogen deficiency in your region. Phosphorus levels adequate.";
      mkSource "PM-KISAN Fertilizer Subsidy" "https://pmkisan.gov.in"
        "Eligible farmers can get subsidized fertilizer through registered dealers. Apply with Aadhaar." ].

Definition pest : QueryResult :=
  mkQueryResult
    "Likely aphid infestation detected. Apply neem oil spray in evening for 3 days."
    0.65
    [ "Apply neem oil"; "Remove affected leaves"; "Consult KVK expert" ]
    [ mkSource "Pest Management Guide" "https://agricoop.nic.in/pest"
        "Aphids are common in post-winter crops. Early detection and organic treatment prevent yield loss.";
      mkSource "PMFBY Crop Insurance" "https://pmfby.gov.in"
        "Pest damage covered under crop insurance. Report to local agriculture officer within 72 hours." ].

(** The object literal [mockResults] of [handleQuery]. *)
Definition mockResults : list (string * QueryResult) :=
  [ ("irrigation", irrigation); ("fertilizer", fertilizer); ("pest", pest) ].

(** "Determine response based on query content": the selection that both
    versions of the home page make; [imageFile] is tested for truthiness,
    and a [File] object is always truthy. *)
Definition select (text : string) (imageFile : option File)
  : option QueryResult :=
  let selectedResult := JS.get "irrigation" mockResults in
  let lowerText := JS.toLowerCase text in
  if JS.includes lowerText "pest" || JS.includes lowerText "insect"
     || JS.includes lowerText "bug"
     || match imageFile with Some _ => true | None => false end
  then JS.get "pest" mockResults
  else if JS.includes lowerText "fertilizer"
          || JS.includes lowerText "nutrient"
          || JS.includes lowerText "nitrogen"
  then JS.get "fertilizer" mockResults
  else selectedResult.

End Mock.

(** [options?.result]. *)
Definition options_result (options : option Options.t)
  : option (Json QueryResult) :=
  match options with
  | Some o => Options.result o
  | None => None
  end.

(** ** The home page with the help card ([Index], the version whose handler
    takes options) *)

Module Index.

Inductive Tab := tab_query | tab_policy | tab_chem | tab_community.

(** The state [result] holds [null] ([None]) or a value: a canned result
    or whatever truthy value came as [options.result]. *)
Record State := mkState {
  result : option (Json QueryResult);
  isLoading : bool;
  showHelpCard : bool;
  activeTab : Tab
}.

Definition initial : State := mkState None false false tab_query.

(** The [else] branch of [handleQuery]: the simulated call, then the canned
    result; the help card flag is not assigned on this branch. *)
Definition simulated (text : string) (imageFile : option File) (st : State)
  : State * list Effect :=
  (mkState (option_map JObject (Mock.select text imageFile)) false
           (showHelpCard st) (activeTab st),
   [Sleep 1500]).

Definition handleQuery (text : string) (imageFile : option File)
    (options : option Options.t) (st : State) : State * list Effect :=
  match options, options_result options with
  | Some o, Some r =>
      if truthy_value r then
        (* setResult(options.result);
           setShowHelpCard(options.showHelpCard || false) *)
        let flag :=
          match Options.showHelpCard o with Some b => b | None => false end in
        (mkState (Some r) false flag (activeTab st), [])
      else simulated text imageFile st
  | _, _ => simulated text imageFile st
  end.

(** The help card is rendered when the flag is set. *)
Definition helpCardVisible (st : State) : bool := showHelpCard st.

(** The help card. *)
Definition helpCard : View.Element :=
  View.Alert View.amber
    [ View.Icon "HelpCircle";
      View.Text "I couldn't find specific information for your query. Here are expert resources:";
      View.Anchor View.helpline
        [ View.Icon "Phone"; View.Text "Call KVK Helpline" ];
      View.Anchor "https://farmer.gov.in/kvk" [ View.Text "Find Local KVK" ] ].

(** What the page renders of a result: the help card and the result card
    ([None] when the rendering throws).  The tabs under the card, which
    host other components, are left out. *)
Definition resultView (t : string -> string) (isSourcesOpen : bool)
    (st : State) : option (list View.Element) :=
  let help := if showHelpCard st then [ helpCard ] else [] in
  match result st with
  | None => Some help
  | Some v =>
      option_map (app help)
        (View.guarded v (ResultCard.renderValue t isSourcesOpen v))
  end.

End Index.

(** ** The home page without the help card ([src/pages/Index.tsx]) *)

Module IndexSimple.

Record State := mkState {
  result : option QueryResult;
  isLoading : bool
}.

Definition handleQuery (text : string) (imageFile : option File)
    (st : State) : State * list Effect :=
  (mkState (Mock.select text imageFile) false, [Sleep 1500]).

(** As the [onQuery] prop, the handler is called with three arguments and
    takes two. *)
Definition onQuery (text : string) (imageFile : option File)
    (_ : option Options.t) : State -> State * list Effect :=
  handleQuery text imageFile.

End IndexSimple.

(** ** The routed query page ([QueryPage.tsx]) *)

Module QueryPage.

Record State := mkState {
  result : option (Json QueryResult);
  isLoading : bool
}.

(** The [else] branch of [handleQuery]: the simple deterministic mock. *)
Definition simulated (text : string) : State * list Effect :=
  (mkState
     (Some (JObject
              (mkQueryResult
                 ("Answer for: " ++ text)
                 0.7
                 [ "Check soil moisture"; "Review weather"; "Plan irrigation" ]
                 [ mkSource "IMD" "https://mausam.imd.gov.in"
                     "Official weather service" ])))
     false,
   [Sleep 600]).

(** The declared type of [options] is [{ result?: QueryResult }]: the
    handler reads [options.result] and nothing else of the object. *)
Definition handleQuery (text : string) (_imageFile : option File)
    (options : option Options.t) (st : State) : State * list Effect :=
  match options_result options with
  | Some r =>
      if truthy_value r then (mkState (Some r) false, [])
      else simulated text
  | None => simulated text
  end.

End QueryPage.

(** ** The treatment recommender ([ChemRecommender]) *)

Module ChemRecommender.

Record Meta := mkMeta {
  crop : string;
  symptom_category : string;
  image_id : option string
}.

Record ChemRecommendation := mkReco {
  recommendation_text : string;          (* the field [recommendation] *)
  confidence : float;
  sources : list Source;
  next_steps : list string;
  safety_notice : string;
  meta : Meta
}.

Record Env := mkEnv {
  now : N;
  VITE_API_URL : option string;
  upload : string -> string -> File -> option string;
  getPublicUrl : string -> string -> string;
  chemEndpoint : Response (Json ChemRecommendation)
                                            (* [POST /api/chem-reco] *)
}.

Section Component.

(** The props: [crop] (default [""]) and the optional [userId]. *)
Variable crop_prop : string.
Variable userId : option string.
Variable env : Env.

(** The state [recommendation] holds [null] or whatever value the endpoint
    sent. *)
Record State := mkState {
  symptom : string;
  recommendation : Json ChemRecommendation;
  loading : bool;
  uploadProgress : N;
  imageUrl : option string;
  trace : list Effect
}.

Definition emit (e : Effect) (s : State) : State :=
  mkState (symptom s) (recommendation s) (loading s) (uploadProgress s)
          (imageUrl s) (trace s ++ [e])%list.

Definition setRecommendation (r : Json ChemRecommendation) (s : State)
  : State :=
  mkState (symptom s) r (loading s) (uploadProgress s) (imageUrl s)
          (trace s).

Definition setLoading (b : bool) (s : State) : State :=
  mkState (symptom s) (recommendation s) b (uploadProgress s)
          (imageUrl s) (trace s).

Definition setUploadProgress (n : N) (s : State) : State :=
  mkState (symptom s) (recommendation s) (loading s) n (imageUrl s)
          (trace s).

Definition setImageUrl (u : option string) (s : State) : State :=
  mkState (symptom s) (recommendation s) (loading s) (uploadProgress s)
          u (trace s).

Definition apiUrl : string :=
  match VITE_API_URL env with
  | Some s => if JS.truthy s then s else ""
  | None => ""
  end.

(** [crop || 'general']. *)
Definition crop_or_general : string :=
  if JS.truthy crop_prop then crop_prop else "general".

Definition mockRecommendation (imageId : option string)
  : ChemRecommendation :=
  mkReco
    "Suspected foliar fungal infection. Follow IPM: remove severely affected leaves, use neem-based biopesticide or consult KVK for certified fungicide. Do not apply chemicals without expert verification."
    0.45
    [ mkSource "IPM Guidelines for Crop Diseases" "https://farmer.gov.in/ipm"
        "Integrated Pest Management emphasizes biological and cultural controls before chemical intervention." ]
    [ "Remove affected plant parts"; "Use neem oil spray";
      "Consult local KVK expert" ]
    "IMPORTANT: This is general guidance only. Always consult local agricultural experts before applying any treatments."
    (mkMeta crop_or_general "leaf_spots" imageId).

Definition getRecommendation (symptomText : string)
    (imageId : option string) (s : State) : State :=
  let s := setLoading true s in
  let s := emit (Fetch (apiUrl ++ "/api/chem-reco")
                   [ ("crop", Some crop_or_general);
                     ("symptom", Some symptomText);
                     ("image_id", imageId);
                     ("user_id", userId) ]) s in
  let s :=
    match chemEndpoint env with
    | Http true (Some data) => setRecommendation data s
    | _ =>
        let s := emit (ConsoleError "Recommendation error:") s in
        setRecommendation (JObject (mockRecommendation imageId)) s
    end in
  setLoading false s.

(** The upload progress callback is not modelled: the progress is reset
    before the upload and after it. *)
Definition handleImageUpload (file : File) (s : State) : State :=
  if negb (JS.startsWith (type file) "image/") then
    emit (Toast "Invalid file" "Please upload an image file" true) s
  else if (5 * 1024 * 1024 <? size file)%N then
    emit (Toast "File too large"
                "Please upload an image smaller than 5MB" true) s
  else
    let s := setUploadProgress 0 (setLoading true s) in
    let fileName := JS.showN (now env) ++ "-" ++ name file in
    let filePath :=
      match userId with
      | Some u => if JS.truthy u then u ++ "/" ++ fileName
                  else "anonymous/" ++ fileName
      | None => "anonymous/" ++ fileName
      end in
    let s := emit (StorageUpload "farm-images" filePath file) s in
    let s :=
      match upload env "farm-images" filePath file with
      | Some path =>
          let publicUrl := getPublicUrl env "farm-images" path in
          let s := setImageUrl (Some publicUrl) s in
          getRecommendation "Image analysis for crop disease detection"
                            (Some publicUrl) s
      | None =>
          let s := emit (ConsoleError "Upload error:") s in
          emit (Toast "Upload failed"
                      "Failed to upload image. Please try again." true) s
      end in
    setUploadProgress 0 (setLoading false s).

(** [recommendation && recommendation.confidence < 0.6], as the
    condition under which the warning and the expert button render.  On a
    primitive the property [confidence] is [undefined], and the comparison
    is false. *)
Definition showWarning (s : State) : bool :=
  match recommendation s with
  | JObject r => (confidence r <? 0.6)%float
  | _ => false
  end.

End Component.

End ChemRecommender.

(** ** A page that records the calls of its [onQuery] prop *)

Module Recorder.

Definition Call : Type := string * option File * option Options.t.

Definition onQuery (text : string) (imageFile : option File)
    (options : option Options.t) (calls : list Call)
  : list Call * list Effect :=
  ((calls ++ [(text, imageFile, options)])%list, []).

End Recorder.

(** ** Doubles, decoded

    The primitive comparisons are specified by [SFcompare] on the decoded
    value.  A comparison with NaN is undefined; the other doubles are ordered
    as their ranks are, lexicographically: sign class, then exponent, then
    mantissa (both negated below zero). *)

Module Double.

Definition rank (x : spec_float) : Z * (Z * Z) :=
  match x with
  | S754_nan => (0, (0, 0))
  | S754_infinity true => (-2, (0, 0))
  | S754_infinity false => (2, (0, 0))
  | S754_zero _ => (0, (0, 0))
  | S754_finite true m e => (-1, (- e, - Zpos m))
  | S754_finite false m e => (1, (e, Zpos m))
  end%Z.

Definition below (p q : Z * (Z * Z)) : Prop :=
  (fst p < fst q
   \/ (fst p = fst q
       /\ (fst (snd p) < fst (snd q)
           \/ (fst (snd p) = fst (snd q) /\ snd (snd p) < snd (snd q)))))%Z.

(** A double is a number when it is not NaN. *)
Definition is_number (x : float) : Prop := Prim2SF x <> S754_nan.

Ltac split_compare :=
  repeat match goal with
    | |- context [Pos.compare_cont Eq ?p ?q] =>
        change (Pos.compare_cont Eq p q) with (Pos.compare p q);
        destruct (Pos.compare_spec p q)
    | |- context [Z.compare ?a ?b] => destruct (Z.compare_spec a b)
    end.

Ltac order_cases x y :=
  destruct x as [[ | ] | [ | ] | | [ | ] ? ?],
           y as [[ | ] | [ | ] | | [ | ] ? ?];
  unfold below; simpl; split_compare; simpl.

(** A literal is a number: its decoding is computed. *)
Ltac literal := unfold is_number; vm_compute; discriminate.

End Double.

(** * The rest of the components

    The handlers below complete the components above and add the ones they
    render or import: the submit and key handlers and the voice input of
    the query input, the storage client, the submit handler and the badge
    colour of the treatment recommender, the badge colour of the scheme
    card, the post form of the community feed and the language toggle. *)

(** The simulated delays among the effects. *)
Definition is_sleep (e : Effect) : bool :=
  match e with Sleep _ => true | _ => false end.

(** ** More of the JavaScript string library *)

Module Text.

(** [String.prototype.trim] removes the white space and line terminator
    characters of the language from both ends.  They are given by the bytes
    of their encoding.  One byte: U+0009 to U+000D and U+0020. *)
Definition white1 (a : ascii) : bool :=
  let n := N_of_ascii a in
  ((n =? 32) || ((9 <=? n) && (n <=? 13)))%N.

(** Two bytes: U+00A0 (C2 A0). *)
Definition white2 (a b : ascii) : bool :=
  ((N_of_ascii a =? 194) && (N_of_ascii b =? 160))%N.

(** Three bytes: U+1680 (E1 9A 80); U+2000 to U+200A (E2 80 80 to 8A),
    U+2028 and U+2029 (E2 80 A8 and A9), U+202F (E2 80 AF); U+205F
    (E2 81 9F); U+3000 (E3 80 80); U+FEFF (EF BB BF). *)
Definition white3 (a b c : ascii) : bool :=
  let x := N_of_ascii a in
  let y := N_of_ascii b in
  let z := N_of_ascii c in
  (((x =? 225) && (y =? 154) && (z =? 128))
   || ((x =? 226) && (y =? 128)
       && (((128 <=? z) && (z <=? 138)) || (z =? 168) || (z =? 169)
           || (z =? 175)))
   || ((x =? 226) && (y =? 129) && (z =? 159))
   || ((x =? 227) && (y =? 128) && (z =? 128))
   || ((x =? 239) && (y =? 187) && (z =? 191)))%N.

(** Removal of the characters at the start that the three tests accept. *)
Fixpoint strip (w1 : ascii -> bool) (w2 : ascii -> ascii -> bool)
    (w3 : ascii -> ascii -> ascii -> bool) (s : string) : string :=
  match s with
  | EmptyString => s
  | String a s1 =>
      if w1 a then strip w1 w2 w3 s1
      else
        match s1 with
        | EmptyString => s
        | String b s2 =>
            if w2 a b then strip w1 w2 w3 s2
            else
              match s2 with
              | EmptyString => s
              | String c s3 => if w3 a b c then strip w1 w2 w3 s3 else s
              end
        end
  end.

Fixpoint reverse_onto (s acc : string) : string :=
  match s with
  | EmptyString => acc
  | String c s' => reverse_onto s' (String c acc)
  end.

(** The bytes of a string in the opposite order. *)
Definition reverse (s : string) : string := reverse_onto s "".

Definition trimStart (s : string) : string := strip white1 white2 white3 s.

(** At the end the encodings are read backwards. *)
Definition trimEnd (s : string) : string :=
  reverse
    (strip white1 (fun a b => white2 b a) (fun a b c => white3 c b a)
       (reverse s)).

Definition trim (s : string) : string := trimEnd (trimStart s).

(** [s.split(sep)] for a separator of one byte: the pieces between the
    separators, of which there is always at least one. *)
Fixpoint split (sep : ascii) (s : string) : list string :=
  match s with
  | EmptyString => [ EmptyString ]
  | String c s' =>
      if Ascii.eqb c sep then EmptyString :: split sep s'
      else
        match split sep s' with
        | piece :: pieces => String c piece :: pieces
        | [] => [ String c EmptyString ]
        end
  end.

(** Whether a string starts with a character that the three tests accept. *)
Definition leading (w1 : ascii -> bool) (w2 : ascii -> ascii -> bool)
    (w3 : ascii -> ascii -> ascii -> bool) (s : string) : bool :=
  match s with
  | EmptyString => false
  | String a s1 =>
      w1 a
      || match s1 with
         | EmptyString => false
         | String b s2 =>
             w2 a b
             || match s2 with
                | EmptyString => false
                | String c _ => w3 a b c
                end
         end
  end.

(** A string made of white space only. *)
Inductive blank : string -> Prop :=
| blank_empty : blank EmptyString
| blank_one a s : white1 a = true -> blank s -> blank (String a s)
| blank_two a b s :
    white2 a b = true -> blank s -> blank (String a (String b s))
| blank_three a b c s :
    white3 a b c = true -> blank s ->
    blank (String a (String b (String c s))).

End Text.

(** ** The submit and key handlers of the query input *)

Module QueryForm.

Section Component.

Context {P : Type}.
(** The [isLoading] prop, read from the state of the hosting page. *)
Variable isLoading : P -> bool.
Variable onQuery :
  string -> option File -> option Options.t -> P -> P * list Effect.
Variable env : QueryInput.Env.

Definition handleSubmit (w : QueryInput.World P) : QueryInput.World P :=
  if JS.truthy (Text.trim (QueryInput.text w))
     && negb (isLoading (QueryInput.page w))
     && negb (QueryInput.uploadingImage w)
  then QueryInput.handleRealQuery onQuery env
         (Text.trim (QueryInput.text w)) None w
  else w.

(** [handleKeyPress]: [key] and [shiftKey] are the fields of the event. *)
Definition handleKeyPress (key : string) (shiftKey : bool)
    (w : QueryInput.World P) : QueryInput.World P :=
  if String.eqb key "Enter" && negb shiftKey then handleSubmit w else w.

(** One submission: what the environment answers during it, the text and
    the image reference. *)
Definition Submission : Type := QueryInput.Env * string * option string.

(** Submissions one after the other. *)
Fixpoint session (l : list Submission) (w : QueryInput.World P)
  : QueryInput.World P :=
  match l with
  | [] => w
  | (e, queryText, imageId) :: l' =>
      session l' (QueryInput.handleRealQuery onQuery e queryText imageId w)
  end.

End Component.

End QueryForm.

(** ** The storage client ([supabaseClient.ts]) *)

Module SupabaseClient.

(** The two operations of [supabase.storage.from(bucket)] that the
    components use. *)
Record Client := mkClient {
  upload : string -> string -> File -> option string;
  getPublicUrl : string -> string -> string
}.

(** The stub that stands in when the environment variables are missing:
    every upload throws, every public URL is empty. *)
Definition stub : Client :=
  mkClient (fun _ _ _ => None) (fun _ _ => "").

(** [supabase]: the client that [createClient] returns when both variables
    are set (and not empty), else the stub. *)
Definition supabase (VITE_SUPABASE_URL VITE_SUPABASE_ANON_KEY : option string)
    (created : Client) : Client :=
  if JS.truthy_opt VITE_SUPABASE_URL && JS.truthy_opt VITE_SUPABASE_ANON_KEY
  then created
  else stub.

(** The environment of the query input whose storage answers are those of
    the client. *)
Definition withClient (c : Client) (e : QueryInput.Env) : QueryInput.Env :=
  QueryInput.mkEnv (QueryInput.now e) (QueryInput.isoNow e)
    (QueryInput.language e) (QueryInput.VITE_API_URL e)
    (upload c) (getPublicUrl c) (QueryInput.queryEndpoint e)
    (QueryInput.idbOpens e) (QueryInput.idbAccepts e).

End SupabaseClient.

(** ** The language toggle ([LanguageToggle]) *)

Module LanguageToggle.

(** [toggleLanguage]: the argument is [i18n.language], the result is the
    language passed to [i18n.changeLanguage]. *)
Definition toggleLanguage (language : string) : string :=
  if String.eqb language "en" then "hi" else "en".

(** The label of the button names the language the toggle leads to. *)
Definition label (language : string) : string :=
  if String.eqb language "en" then "हिंदी" else "English".

Fixpoint toggles (n : nat) (language : string) : string :=
  match n with
  | O => language
  | S n' => toggles n' (toggleLanguage language)
  end.

End LanguageToggle.

(** ** The voice input of the query input *)

Module Voice.

(** The [voice] entries of [resources]. *)
Definition en : list (string * string) :=
  [ ("voice.start", "Start voice input");
    ("voice.stop", "Stop recording");
    ("voice.recognized", "Voice recognized");
    ("voice.error", "Voice input error");
    ("voice.notSupported", "Voice input not supported in this browser");
    ("voice.tryAgain", "Please try again");
    ("voice.lang", "en-IN") ].

Definition hi : list (string * string) :=
  [ ("voice.start", "आवाज़ इनपुट शुरू करें");
    ("voice.stop", "रिकॉर्डिंग बंद करें");
    ("voice.recognized", "आवाज़ पहचानी गई");
    ("voice.error", "आवाज़ इनपुट त्रुटि");
    ("voice.notSupported", "इस ब्राउज़र में आवाज़ इनपुट समर्थित नहीं है");
    ("voice.tryAgain", "कृपया फिर से कोशिश करें");
    ("voice.lang", "hi-IN") ].

Definition resources : list (string * list (string * string)) :=
  [ ("en", en); ("hi", hi) ].

(** [t(key)] on these entries, with the fallback language of [i18n.ts]. *)
Definition t (lng key : string) : string :=
  let in_lang (l : string) : option string :=
    match JS.get l resources with
    | Some table => JS.get key table
    | None => None
    end in
  match in_lang lng with
  | Some v => v
  | None =>
      match in_lang I18n.fallbackLng with
      | Some v => v
      | None => key
      end
  end.

(** The settings of a recognizer. *)
Record Recognizer := mkRecognizer {
  continuous : bool;
  interimResults : bool;
  lang : string
}.

(** The calls made on recognizers. *)
Inductive Call :=
| Start (r : Recognizer)
| Stop.

Section Component.

Context {P : Type}.

(** The state of the query input with the two state variables of the voice
    input, and the calls made on recognizers so far. *)
Record State := mkState {
  world : QueryInput.World P;
  isRecording : bool;
  recognition : option Recognizer;
  calls : list Call
}.

(** [startRecording]: [supported] tells whether the window has a speech
    recognition constructor, [lng] is the language of [t]. *)
Definition startRecording (supported : bool) (lng : string) (st : State)
  : State :=
  if negb supported then
    mkState
      (QueryInput.emit
         (Toast (t lng "voice.error") (t lng "voice.notSupported") true)
         (world st))
      (isRecording st) (recognition st) (calls st)
  else
    let recognizer := mkRecognizer false false (t lng "voice.lang") in
    mkState (world st) (isRecording st) (Some recognizer)
            (calls st ++ [Start recognizer])%list.

Definition stopRecording (st : State) : State :=
  mkState (world st) false (recognition st)
          (match recognition st with
           | Some _ => (calls st ++ [Stop])%list
           | None => calls st
           end).

(** The click on the microphone button. *)
Definition click (supported : bool) (lng : string) (st : State) : State :=
  if isRecording st then stopRecording st else startRecording supported lng st.

(** The handlers installed on the recognizer. *)
Definition onstart (st : State) : State :=
  mkState (world st) true (recognition st) (calls st).

Definition onresult (lng transcript : string) (st : State) : State :=
  mkState
    (QueryInput.emit (Toast (t lng "voice.recognized") transcript false)
       (QueryInput.setText transcript (world st)))
    (isRecording st) (recognition st) (calls st).

Definition onerror (lng : string) (st : State) : State :=
  mkState
    (QueryInput.emit (Toast (t lng "voice.error") (t lng "voice.tryAgain") true)
       (QueryInput.emit (ConsoleError "Speech recognition error:") (world st)))
    false (recognition st) (calls st).

Definition onend (st : State) : State :=
  mkState (world st) false (recognition st) (calls st).

(** What can happen to the voice input: a click on the button, or one of
    the events of the recognizer. *)
Inductive Event :=
| Click (supported : bool)
| Started
| Result (transcript : string)
| Failed
| Ended.

Definition step (lng : string) (ev : Event) (st : State) : State :=
  match ev with
  | Click supported => click supported lng st
  | Started => onstart st
  | Result transcript => onresult lng transcript st
  | Failed => onerror lng st
  | Ended => onend st
  end.

Fixpoint run (lng : string) (evs : list Event) (st : State) : State :=
  match evs with
  | [] => st
  | ev :: evs' => run lng evs' (step lng ev st)
  end.

(** The transcript of the last result among the events, if any. *)
Fixpoint last_transcript (evs : list Event) (before : option string)
  : option string :=
  match evs with
  | [] => before
  | Result transcript :: evs' => last_transcript evs' (Some transcript)
  | _ :: evs' => last_transcript evs' before
  end.

End Component.

Arguments State P : clear implicits.

End Voice.

(** ** The submit handler and the badge of the treatment recommender *)

Module ChemForm.

Section Component.

Variable crop_prop : string.
Variable userId : option string.
Variable env : ChemRecommender.Env.

(** [handleSubmit]: the symptom text is tested trimmed and sent as it is. *)
Definition handleSubmit (s : ChemRecommender.State) : ChemRecommender.State :=
  if negb (JS.truthy (Text.trim (ChemRecommender.symptom s)))
     && negb (JS.truthy_opt (ChemRecommender.imageUrl s))
  then
    ChemRecommender.emit
      (Toast "Input required" "Please describe symptoms or upload an image"
             true) s
  else
    ChemRecommender.getRecommendation crop_prop userId env
      (if JS.truthy (ChemRecommender.symptom s)
       then ChemRecommender.symptom s else "Image-based analysis")
      (if JS.truthy_opt (ChemRecommender.imageUrl s)
       then ChemRecommender.imageUrl s else None)
      s.

End Component.

Definition getConfidenceColor (conf : float) : string :=
  if (0.7 <=? conf)%float then "bg-emerald-100 text-emerald-800"
  else if (0.4 <=? conf)%float then "bg-amber-100 text-amber-800"
  else "bg-rose-100 text-rose-800".

(** The block of a recommendation: the warning, the recommendation with
    its badge, the safety notice, the next steps, the two buttons and the
    sources. *)
Definition block (showWarning : bool)
    (r : ChemRecommender.ChemRecommendation) : list View.Element :=
  ((if showWarning then
      [ View.Alert View.amber
          [ View.Icon "AlertTriangle";
            View.Text "Low confidence recommendation. Please consult an agricultural expert for accurate diagnosis." ] ]
    else [])
   ++ [ View.Text "Treatment Recommendation";
        View.Badge
          ("inline-flex items-center px-3 py-1 rounded-full text-sm font-semibold "
           ++ getConfidenceColor (ChemRecommender.confidence r))
          [ View.Rounded (ChemRecommender.confidence r * 100)%float;
            View.Text "% confidence" ];
        View.Text (ChemRecommender.recommendation_text r);
        View.Alert "border-blue-200 bg-blue-50"
          [ View.Text (ChemRecommender.safety_notice r) ] ]
   ++ (if (0 <? List.length (ChemRecommender.next_steps r))%nat then
         View.Text "Next Steps:"
         :: map (fun entry : N * string =>
                   View.Item [ View.Text (JS.showN (fst entry + 1));
                               View.Text (snd entry) ])
              (View.indexed 0 (ChemRecommender.next_steps r))
       else [])
   ++ [ View.Button [ View.Icon "RefreshCw"; View.Text "New Analysis" ] ]
   ++ (if showWarning then
         [ View.Anchor View.helpline
             [ View.Icon "Phone"; View.Text "Consult KVK Expert" ] ]
       else [])
   ++ (if (0 <? List.length (ChemRecommender.sources r))%nat then
         View.Text "Sources:"
         :: map (fun source : Source =>
                   View.Item
                     [ View.Text (title source);
                       View.Text (snippet source);
                       View.Anchor (url source) [ View.Icon "Upload" ] ])
              (ChemRecommender.sources r)
       else []))%list.

(** What the recommender renders of its recommendation ([None] when the
    rendering throws: on a truthy value that is not an object,
    [recommendation.next_steps] is [undefined] and reading its [length]
    throws). *)
Definition results (s : ChemRecommender.State)
  : option (list View.Element) :=
  View.guarded (ChemRecommender.recommendation s)
    (match ChemRecommender.recommendation s with
     | JObject r => Some (block (ChemRecommender.showWarning s) r)
     | _ => None
     end).

End ChemForm.

(** ** The badge of the scheme card ([PolicyCard.tsx]) *)

Module PolicyCard.

Definition getConfidenceColor (conf : float) : string :=
  if (0.7 <=? conf)%float then "bg-emerald-100 text-emerald-800"
  else if (0.4 <=? conf)%float then "bg-amber-100 text-amber-800"
  else "bg-rose-100 text-rose-800".

End PolicyCard.

(** ** The post form of the community feed ([CommunityFeed]) *)

Module CommunityFeed.

Record Author := mkAuthor {
  name : string;
  state : option string;
  village : option string
}.

Record CommunityPost := mkPost {
  id : string;
  title : string;
  body : string;
  tags : list string;
  created_at : string;
  author : Author
}.

(** The fields of the form (the state [newPost]). *)
Module NewPost.
Record t := mk {
  title : string;
  body : string;
  tags : string
}.
End NewPost.

(** The body of an [ok] answer of [POST /api/community/post]. *)
Record Reply := mkReply {
  success : bool;
  post_id : string;
  moderated : bool
}.

(** The effects of the form, in program order. *)
Inductive Effect :=
| Toast (title description : string) (destructive : bool)
| ConsoleError (label : string)
| Post (endpoint user_id title body : string) (tags : list string).

Record Env := mkEnv {
  now : N;
  isoNow : string;
  VITE_API_URL : option string;
  postEndpoint : Response Reply
}.

(** The state that [createPost] reads and writes (the state [loading]
    belongs to [fetchPosts]). *)
Record State := mkState {
  posts : list CommunityPost;
  showCreateForm : bool;
  newPost : NewPost.t;
  submitting : bool;
  trace : list Effect
}.

(** [tags.split(',').map(t => t.trim()).filter(Boolean)]. *)
Definition parseTags (s : string) : list string :=
  filter JS.truthy (map Text.trim (Text.split "," s)).

Definition withId (i : string) (p : CommunityPost) : CommunityPost :=
  mkPost i (title p) (body p) (tags p) (created_at p) (author p).

Section Component.

Variable userId : option string.
Variable userState : option string.
Variable env : Env.

Definition apiUrl : string :=
  match VITE_API_URL env with
  | Some s => if JS.truthy s then s else ""
  | None => ""
  end.

Definition emit (e : Effect) (s : State) : State :=
  mkState (posts s) (showCreateForm s) (newPost s) (submitting s)
          (trace s ++ [e])%list.

Definition setPosts (f : list CommunityPost -> list CommunityPost)
    (s : State) : State :=
  mkState (f (posts s)) (showCreateForm s) (newPost s) (submitting s)
          (trace s).

Definition setSubmitting (b : bool) (s : State) : State :=
  mkState (posts s) (showCreateForm s) (newPost s) b (trace s).

(** [createPost].  The request is built from the form as it was when the
    handler started. *)
Definition createPost (s : State) : State :=
  let form := newPost s in
  if negb (JS.truthy (Text.trim (NewPost.title form)))
     || negb (JS.truthy (Text.trim (NewPost.body form)))
  then
    emit (Toast "Missing information"
                "Please fill in both title and description" true) s
  else
    match userId with
    | None =>
        emit (Toast "Login required" "Please log in to create posts" true) s
    | Some user =>
        if negb (JS.truthy user) then
          emit (Toast "Login required" "Please log in to create posts" true) s
        else
          let s := setSubmitting true s in
          let optimisticPost :=
            mkPost ("temp-" ++ JS.showN (now env))
                   (NewPost.title form) (NewPost.body form)
                   (parseTags (NewPost.tags form)) (isoNow env)
                   (mkAuthor "You" userState None) in
          let s := setPosts (fun prev => optimisticPost :: prev) s in
          let s := mkState (posts s) false (NewPost.mk "" "" "")
                           (submitting s) (trace s) in
          let s := emit (Post (apiUrl ++ "/api/community/post") user
                           (NewPost.title form) (NewPost.body form)
                           (parseTags (NewPost.tags form))) s in
          let s :=
            match delivered (postEndpoint env) with
            | Some data =>
                if success data then
                  let s :=
                    setPosts
                      (map (fun p =>
                              if String.eqb (id p) (id optimisticPost)
                              then withId (post_id data) optimisticPost
                              else p)) s in
                  emit (Toast "Post created!"
                              (if moderated data then "Your post is now live"
                               else "Your post is under review") false) s
                else s
            | None =>
                let s := emit (ConsoleError "Post creation error:") s in
                let s :=
                  setPosts
                    (filter (fun p =>
                               negb (String.eqb (id p) (id optimisticPost)))) s in
                emit (Toast "Failed to create post" "Please try again later"
                            true) s
            end in
          setSubmitting false s
    end.

End Component.

End CommunityFeed.

(** ** The service worker: the [fetch] and [activate] listeners

    A cache is the list of its entries in the order of their insertion; an
    entry is a response with the request it was stored for.  The cache
    storage lists the caches in the order of their creation, which is the
    order in which [caches.match] searches them.  The listener starts the
    storing of a response and does not wait for it: a started put is
    pending until it settles, at any later moment, accepted or refused.
    The [install] listener, which fills the cache before the worker
    handles its first request, is not modelled: the caches at the start
    are arbitrary. *)

Module ServiceWorker.

Definition CACHE_NAME : string := "farmguru-v1".

(** A request: its URL, its method and its header list (the names in lower
    case, as the [Headers] object keeps them). *)
Record Request := mkRequest {
  url : string;
  method : string;
  headers : list (string * string)
}.

(** A response: its status, its type, the field names of its [Vary]
    header (in lower case) and its body. *)
Record Response := mkResponse {
  status : N;
  kind : string;                     (* the field [type] *)
  vary : list string;
  content : string
}.

Definition Cache : Type := list (Request * Response).

Definition CacheStorage : Type := list (string * Cache).

(** The worker: the cache storage of the origin, the module variable
    [responseCache] (a map from URLs to values) and the puts that were
    started and have not settled. *)
Record Worker := mkWorker {
  caches : CacheStorage;
  responseCache : list (string * string);
  pending : list (Request * Response)
}.

(** The worker at its start: [responseCache] is a new map. *)
Definition start (cs : CacheStorage) : Worker := mkWorker cs [] [].

Inductive Effect :=
| Network (request : Request).

Definition isGet (request : Request) : bool := String.eqb (method request) "GET".

(** The URL without its fragment, which the cache does not compare. *)
Fixpoint noFragment (u : string) : string :=
  match u with
  | EmptyString => EmptyString
  | String c u' => if Ascii.eqb c "#" then EmptyString
                   else String c (noFragment u')
  end.

Definition header (field : string) (request : Request) : option string :=
  JS.get field (headers request).

Definition sameValue (a b : option string) : bool :=
  match a, b with
  | Some x, Some y => String.eqb x y
  | None, None => true
  | _, _ => false
  end.

(** Whether a request matches an entry of a cache: it is a GET, the URLs
    are equal up to the fragment, and the two requests agree on every
    header that the stored response names in [Vary] (a [*] there matches
    nothing). *)
Definition matches (query : Request) (entry : Request * Response) : bool :=
  isGet query
  && String.eqb (noFragment (url query)) (noFragment (url (fst entry)))
  && forallb (fun field =>
                negb (String.eqb field "*")
                && sameValue (header field query) (header field (fst entry)))
       (vary (snd entry)).

(** [cache.match(request)]: the response of the first entry that the
    request matches. *)
Definition cacheMatch (c : Cache) (request : Request) : option Response :=
  option_map snd (find (matches request) c).

(** [caches.match(request)]: the first match, cache by cache. *)
Fixpoint cachesMatch (cs : CacheStorage) (request : Request)
  : option Response :=
  match cs with
  | [] => None
  | (_, c) :: cs' =>
      match cacheMatch c request with
      | Some response => Some response
      | None => cachesMatch cs' request
      end
  end.

Fixpoint store {A : Type} (k : string) (v : A) (l : list (string * A))
  : list (string * A) :=
  match l with
  | [] => [ (k, v) ]
  | (k', v') :: l' =>
      if String.eqb k k' then (k, v) :: l' else (k', v') :: store k v l'
  end.

(** [cache.put(request, response)]: a request that is not a GET and a
    response whose [Vary] header holds [*] are refused; otherwise the
    entries that the request matches are removed and the new entry is
    added. *)
Definition cachePut (request : Request) (response : Response) (c : Cache)
  : option Cache :=
  if isGet request && negb (existsb (String.eqb "*") (vary response))
  then Some (filter (fun entry => negb (matches request entry)) c
             ++ [ (request, response) ])%list
  else None.

(** The chain [caches.open(name).then(cache => cache.put(request,
    response))] when it settles: the cache is created when it does not
    exist; the put stores the response unless it is refused, by the rules
    of [cache.put] or by the browser ([accepted] is false: no quota left,
    a URL that is not of the web).  The rejection is not handled: nothing
    else happens. *)
Definition openAndPut (name : string) (request : Request)
    (response : Response) (accepted : bool) (cs : CacheStorage)
  : CacheStorage :=
  let c := match JS.get name cs with Some c => c | None => [] end in
  store name
    (match (if accepted then cachePut request response c else None) with
     | Some c' => c'
     | None => c
     end) cs.

(** The [fetch] listener: [network] is what [fetch(event.request)] gives,
    a response or a failure.  The result is the worker afterwards, what
    [event.respondWith] receives ([None] for [undefined]) and the requests
    sent to the network.  A response of status 200 and type [basic] is
    handed back while its put is started. *)
Definition onFetch (request : Request) (network : option Response)
    (w : Worker) : Worker * option Response * list Effect :=
  match cachesMatch (caches w) request with
  | Some response => (w, Some response, [])
  | None =>
      match network with
      | Some response =>
          if negb (status response =? 200)%N
             || negb (String.eqb (kind response) "basic")
          then (w, Some response, [ Network request ])
          else
            (mkWorker (caches w) (responseCache w)
                      (pending w ++ [ (request, response) ])%list,
             Some response, [ Network request ])
      | None =>
          (w,
           (if JS.includes (url request) "/api/" then
              match JS.get (url request) (responseCache w) with
              | Some cachedApiResponse =>
                  if JS.truthy cachedApiResponse
                  then Some (mkResponse 200 "default" [] cachedApiResponse)
                  else None
              | None => None
              end
            else None),
           [ Network request ])
      end
  end.

(** A list without its entry of a position. *)
Fixpoint without {A : Type} (n : nat) (l : list A) : list A :=
  match l, n with
  | [], _ => []
  | _ :: l', O => l'
  | a :: l', S n' => a :: without n' l'
  end.

(** The pending put of a position settles. *)
Definition onSettled (n : nat) (accepted : bool) (w : Worker) : Worker :=
  match nth_error (pending w) n with
  | Some (request, response) =>
      mkWorker (openAndPut CACHE_NAME request response accepted (caches w))
               (responseCache w) (without n (pending w))
  | None => w
  end.

(** The [activate] listener: every cache whose name is not in the white
    list is deleted. *)
Definition onActivate (w : Worker) : Worker :=
  let cacheWhitelist := [ CACHE_NAME ] in
  mkWorker
    (filter (fun entry => existsb (String.eqb (fst entry)) cacheWhitelist)
       (caches w))
    (responseCache w) (pending w).

Inductive Event :=
| Fetched (request : Request) (network : option Response)
| Settled (n : nat) (accepted : bool)
| Activated.

Definition step (ev : Event) (w : Worker) : Worker :=
  match ev with
  | Fetched request network => fst (fst (onFetch request network w))
  | Settled n accepted => onSettled n accepted w
  | Activated => onActivate w
  end.

Fixpoint run (evs : list Event) (w : Worker) : Worker :=
  match evs with
  | [] => w
  | ev :: evs' => run evs' (step ev w)
  end.



End ServiceWorker.

(** ** The order of doubles *)

Module FloatOrder.

Import Double.
Local Open Scope Z_scope.

Lemma SFcompare_Lt (x y : spec_float) :
  SFcompare x y = Some Lt
  <-> x <> S754_nan /\ y <> S754_nan /\ below (rank x) (rank y).
Proof.
  order_cases x y;
    (split; [ intros C; try discriminate C; repeat split; try congruence; lia
            | intros (Hx & Hy & C); try congruence;
              try reflexivity; exfalso; lia ]).
Qed.

Lemma SFcompare_Gt (x y : spec_float) :
  SFcompare x y = Some Gt
  <-> x <> S754_nan /\ y <> S754_nan /\ below (rank y) (rank x).
Proof.
  order_cases x y;
    (split; [ intros C; try discriminate C; repeat split; try congruence; lia
            | intros (Hx & Hy & C); try congruence;
              try reflexivity; exfalso; lia ]).
Qed.

Lemma SFcompare_Some (x y : spec_float) (c : comparison) :
  SFcompare x y = Some c -> x <> S754_nan /\ y <> S754_nan.
Proof.
  destruct x, y; simpl; intros C; try discriminate C; split; congruence.
Qed.

Lemma SFcompare_None (x y : spec_float) :
  x <> S754_nan -> y <> S754_nan -> SFcompare x y <> None.
Proof.
  destruct x as [ | [ | ] | | [ | ] ? ?], y as [ | [ | ] | | [ | ] ? ?];
    simpl; congruence.
Qed.

Lemma ltb_iff (x y : float) :
  (x <? y)%float = true
  <-> is_number x /\ is_number y
      /\ below (rank (Prim2SF x)) (rank (Prim2SF y)).
Proof.
  rewrite ltb_spec. unfold SFltb, is_number.
  rewrite <- SFcompare_Lt.
  destruct (SFcompare (Prim2SF x) (Prim2SF y)) as [[ | | ] | ];
    split; congruence.
Qed.

Lemma leb_iff (x y : float) :
  (x <=? y)%float = true
  <-> is_number x /\ is_number y
      /\ ~ below (rank (Prim2SF y)) (rank (Prim2SF x)).
Proof.
  rewrite leb_spec. unfold SFleb, is_number.
  pose proof (SFcompare_Gt (Prim2SF x) (Prim2SF y)) as G.
  pose proof (SFcompare_Some (Prim2SF x) (Prim2SF y)) as S.
  pose proof (SFcompare_None (Prim2SF x) (Prim2SF y)) as N.
  destruct (SFcompare (Prim2SF x) (Prim2SF y)) as [[ | | ] | ].
  - split; [ intros _ | reflexivity ].
    destruct (S Eq eq_refl) as [Hx Hy]. repeat split; trivial.
    intros B. destruct G as [_ G]. discriminate (G (conj Hx (conj Hy B))).
  - split; [ intros _ | reflexivity ].
    destruct (S Lt eq_refl) as [Hx Hy]. repeat split; trivial.
    intros B. destruct G as [_ G]. discriminate (G (conj Hx (conj Hy B))).
  - split; [ discriminate | ].
    intros (Hx & Hy & B). exfalso. apply B.
    destruct G as [G _]. exact (proj2 (proj2 (G eq_refl))).
  - split; [ discriminate | ].
    intros (Hx & Hy & _). exfalso. exact (N Hx Hy eq_refl).
Qed.

Lemma below_trans (p q r : Z * (Z * Z)) : below p q -> below q r -> below p r.
Proof.
  destruct p as [a [b c]], q as [a' [b' c']], r as [a'' [b'' c'']].
  unfold below; simpl; lia.
Qed.

Lemma below_total (p q : Z * (Z * Z)) : ~ below p q -> ~ below q p -> p = q.
Proof.
  destruct p as [a [b c]], q as [a' [b' c']].
  unfold below; simpl. intros H1 H2.
  assert (a = a' /\ b = b' /\ c = c') as (-> & -> & ->) by lia.
  reflexivity.
Qed.

Lemma below_dec (p q : Z * (Z * Z)) : below p q \/ ~ below p q.
Proof.
  destruct p as [a [b c]], q as [a' [b' c']]. unfold below; simpl; lia.
Qed.

(** On numbers, [x < y] is the negation of [y <= x]. *)
Lemma ltb_negb_leb (x y : float) :
  is_number x -> is_number y -> (x <? y)%float = negb (y <=? x)%float.
Proof.
  intros Hx Hy.
  pose proof (ltb_iff x y) as L. pose proof (leb_iff y x) as E.
  destruct (x <? y)%float, (y <=? x)%float; simpl; trivial.
  - destruct L as [L _]. destruct (L eq_refl) as (_ & _ & B).
    destruct E as [E _]. destruct (E eq_refl) as (_ & _ & NB).
    contradiction.
  - destruct (below_dec (rank (Prim2SF x)) (rank (Prim2SF y))) as [B | NB].
    + destruct L as [_ L]. apply L. auto.
    + destruct E as [_ E]. apply E. auto.
Qed.

Lemma ltb_trans (x y z : float) :
  (x <? y)%float = true -> (y <? z)%float = true -> (x <? z)%float = true.
Proof.
  rewrite !ltb_iff. intros (Hx & _ & B1) (_ & Hz & B2).
  repeat split; trivial. exact (below_trans _ _ _ B1 B2).
Qed.

Lemma ltb_excludes_leb (x y : float) :
  (x <? y)%float = true -> (y <=? x)%float = false.
Proof.
  intros L. pose proof L as L'. apply ltb_iff in L' as (Hx & Hy & _).
  rewrite (ltb_negb_leb x y Hx Hy) in L.
  destruct (y <=? x)%float; [ discriminate L | reflexivity ].
Qed.

Lemma leb_is_number_r (x y : float) : (x <=? y)%float = true -> is_number y.
Proof. rewrite leb_iff. tauto. Qed.

Lemma unit_interval_is_number (c : float) :
  JS.unit_interval c -> is_number c.
Proof. intros [H _]. exact (leb_is_number_r _ _ H). Qed.

End FloatOrder.

(** ** Facts about strings *)

Module StringFacts.

Lemma startsWith_spec (s p : string) :
  JS.startsWith s p = true <-> exists post, s = p ++ post.
Proof.
  revert s. induction p as [ | a p IH]; intros s; simpl.
  - split; [ intros _; exists s; reflexivity | reflexivity ].
  - destruct s as [ | b s].
    + split; [ discriminate | intros [post E]; discriminate E ].
    + rewrite andb_true_iff, Ascii.eqb_eq, IH. split.
      * intros [-> [post ->]]. exists post. reflexivity.
      * intros [post E]. injection E as -> ->. split; eauto.
Qed.

(** [includes] finds exactly the occurrences of the needle. *)
Lemma includes_spec (s needle : string) :
  JS.includes s needle = true <-> exists pre post, s = pre ++ needle ++ post.
Proof.
  induction s as [ | c s IH]; simpl; rewrite orb_true_iff, startsWith_spec.
  - split.
    + intros [[post E] | F]; [ | discriminate F ].
      exists "", post. exact E.
    + intros [pre [post E]]. left.
      destruct pre; [ exists post; exact E | discriminate E ].
  - rewrite IH. split.
    + intros [[post E] | [pre [post E]]].
      * exists "", post. exact E.
      * exists (String c pre), post. simpl. rewrite E. reflexivity.
    + intros [pre [post E]]. destruct pre as [ | d pre]; simpl in E.
      * left. exists post. exact E.
      * right. injection E as _ E. exists pre, post. exact E.
Qed.

Lemma toLowerCase_app (s1 s2 : string) :
  JS.toLowerCase (s1 ++ s2) = JS.toLowerCase s1 ++ JS.toLowerCase s2.
Proof.
  induction s1 as [ | c s1 IH]; simpl; [ | rewrite IH ]; reflexivity.
Qed.

(** The labels of the three bands differ, whatever the language. *)
Lemma confidence_labels_distinct (lng : string) :
  I18n.t lng "confidence.high" <> I18n.t lng "confidence.medium"
  /\ I18n.t lng "confidence.high" <> I18n.t lng "confidence.low"
  /\ I18n.t lng "confidence.medium" <> I18n.t lng "confidence.low".
Proof.
  unfold I18n.t, I18n.resources; simpl.
  destruct (String.eqb lng "en"); [ vm_compute; repeat split; discriminate | ].
  destruct (String.eqb lng "hi"); vm_compute; repeat split; discriminate.
Qed.

(** The two messages of the image validation differ, whatever the
    language. *)
Lemma image_messages_distinct (lng : string) :
  I18n.t lng "image.invalidType" <> I18n.t lng "image.tooLarge".
Proof.
  unfold I18n.t, I18n.resources; simpl.
  destruct (String.eqb lng "en"); [ vm_compute; discriminate | ].
  destruct (String.eqb lng "hi"); vm_compute; discriminate.
Qed.

End StringFacts.

(** ** The confidence bands of the result card *)

Section Banding.

Variable lng : string.

Lemma text_high (c : float) :
  ResultCard.getConfidenceText (I18n.t lng) c = I18n.t lng "confidence.high"
  <-> (0.7 <=? c)%float = true.
Proof.
  destruct (StringFacts.confidence_labels_distinct lng) as (HM & HL & ML).
  unfold ResultCard.getConfidenceText.
  destruct (0.7 <=? c)%float; [ tauto | ].
  destruct (0.4 <=? c)%float; split; congruence.
Qed.

Lemma text_medium (c : float) :
  ResultCard.getConfidenceText (I18n.t lng) c = I18n.t lng "confidence.medium"
  <-> (0.7 <=? c)%float = false /\ (0.4 <=? c)%float = true.
Proof.
  destruct (StringFacts.confidence_labels_distinct lng) as (HM & HL & ML).
  unfold ResultCard.getConfidenceText.
  destruct (0.7 <=? c)%float; [ split; [ congruence | intros [F _]; discriminate F ] | ].
  destruct (0.4 <=? c)%float; split; try tauto; try congruence.
  intros [_ F]; discriminate F.
Qed.

Lemma text_low (c : float) :
  ResultCard.getConfidenceText (I18n.t lng) c = I18n.t lng "confidence.low"
  <-> (0.7 <=? c)%float = false /\ (0.4 <=? c)%float = false.
Proof.
  destruct (StringFacts.confidence_labels_distinct lng) as (HM & HL & ML).
  unfold ResultCard.getConfidenceText.
  destruct (0.7 <=? c)%float; [ split; [ congruence | intros [F _]; discriminate F ] | ].
  destruct (0.4 <=? c)%float; split; try tauto; try congruence.
  intros [_ F]; discriminate F.
Qed.

(** The colour class and the icon are functions of the band that tell the
    bands apart. *)
Lemma treatment_follows_band (c c' : float) :
  ResultCard.getConfidenceText (I18n.t lng) c = ResultCard.getConfidenceText (I18n.t lng) c'
  <-> ResultCard.getConfidenceColor c = ResultCard.getConfidenceColor c'
      /\ ResultCard.getConfidenceIcon c = ResultCard.getConfidenceIcon c'.
Proof.
  destruct (StringFacts.confidence_labels_distinct lng) as (HM & HL & ML).
 
  unfold ResultCard.getConfidenceText, ResultCard.getConfidenceColor,
    ResultCard.getConfidenceIcon.
  destruct (0.7 <=? c)%float, (0.4 <=? c)%float,
           (0.7 <=? c')%float, (0.4 <=? c')%float;
    split; try (intros [E1 E2]; discriminate E1);
    try (intros E; congruence); try (intros _; split; reflexivity);
    try (intros _; reflexivity).
Qed.

End Banding.

(** C5.  For a confidence [c] in the unit interval the label of the result
    card is the "high" label exactly when [c >= 0.7], the "medium" label
    exactly when [0.4 <= c < 0.7] and the "low" label exactly when
    [c < 0.4], in every language; two confidences get the same colour class
    and icon exactly when they get the same label, so the three bands have
    three different visual treatments. *)
Theorem confidence_banding (lng : string) (c : float) :
  JS.unit_interval c ->
  let label := ResultCard.getConfidenceText (I18n.t lng) in
  (label c = I18n.t lng "confidence.high" <-> JS.fle 0.7 c)
  /\ (label c = I18n.t lng "confidence.medium"
      <-> JS.fle 0.4 c /\ JS.flt c 0.7)
  /\ (label c = I18n.t lng "confidence.low" <-> JS.flt c 0.4)
  /\ (forall c' : float,
        label c = label c'
        <-> ResultCard.getConfidenceColor c = ResultCard.getConfidenceColor c'
            /\ ResultCard.getConfidenceIcon c = ResultCard.getConfidenceIcon c').
Proof.
  intros U label. unfold label, JS.fle, JS.flt.
  pose proof (FloatOrder.unit_interval_is_number c U) as Nc.
  assert (Double.is_number 0.7) as N7 by Double.literal.
  assert (Double.is_number 0.4) as N4 by Double.literal.
  rewrite (FloatOrder.ltb_negb_leb c 0.7 Nc N7).
  split; [ apply text_high | ].
  split; [ | split; [ | intros c'; apply treatment_follows_band ] ].
  - rewrite text_medium. split.
    + intros [-> H4]. split; trivial.
    + intros [H4 H7]. split; trivial.
      destruct (0.7 <=? c)%float; [ discriminate H7 | reflexivity ].
  - rewrite text_low. split.
    + intros [_ H4].
      rewrite (FloatOrder.ltb_negb_leb c 0.4 Nc N4), H4. reflexivity.
    + intros H. split.
      * apply FloatOrder.ltb_excludes_leb.
        apply (FloatOrder.ltb_trans c 0.4 0.7 H). reflexivity.
      * exact (FloatOrder.ltb_excludes_leb _ _ H).
Qed.

Lemma confidence_banding_witness :
  JS.unit_interval 0.85
  /\ (ResultCard.getConfidenceText (I18n.t "en") 0.85 = "High"
      <-> JS.fle 0.7 0.85).
Proof.
  assert (JS.unit_interval 0.85) as U by (split; reflexivity).
  split; [ exact U | ].
  exact (proj1 (confidence_banding "en" 0.85 U)).
Defined.

Example band_of_0_85 : ResultCard.getConfidenceText (I18n.t "en") 0.85 = "High".
Proof. reflexivity. Qed.

Example band_of_0_5 : ResultCard.getConfidenceText (I18n.t "en") 0.5 = "Medium".
Proof. reflexivity. Qed.

Example band_of_0_3 : ResultCard.getConfidenceText (I18n.t "en") 0.3 = "Low".
Proof. reflexivity. Qed.

Example band_boundaries :
  ResultCard.getConfidenceText (I18n.t "en") 0.7 = "High"
  /\ ResultCard.getConfidenceText (I18n.t "en") 0.4 = "Medium".
Proof. split; reflexivity. Qed.

(** Outside the unit interval the hypothesis of the banding cannot be
    dropped: NaN gets the "low" label and is not below [0.4]. *)
Example band_of_nan :
  ResultCard.getConfidenceText (I18n.t "en") nan = "Low"
  /\ (nan <? 0.4)%float = false.
Proof. split; reflexivity. Qed.

(** ** The two paths of [handleRealQuery] *)

Section RealQuery.

Context {P : Type}.
Variable onQuery :
  string -> option File -> option Options.t -> P -> P * list Effect.
Variable env : QueryInput.Env.

(** A failed remote call: the error is logged to the console and the page
    handler is called without options, with a placeholder file exactly
    when a non-empty image reference was passed. *)
Lemma handleRealQuery_failure queryText imageId (w : QueryInput.World P) :
  delivered (QueryInput.queryEndpoint env) = None ->
  QueryInput.handleRealQuery onQuery env queryText imageId w
  = QueryInput.callOnQuery onQuery queryText
      (if JS.truthy_opt imageId then Some (mkFile "image" "" 0) else None)
      None
      (QueryInput.emit (ConsoleError "Query error:")
         (QueryInput.emit (QueryInput.request env queryText imageId) w)).
Proof.
  unfold QueryInput.handleRealQuery, QueryInput.queryFailed.
  destruct (QueryInput.queryEndpoint env) as [ | [ | ] [r | ]];
    simpl; intros D; try discriminate D; reflexivity.
Qed.

(** A delivered result: it is logged, then handed to the page handler
    with the help card option set exactly when the answer is the literal
    of the source. *)
Lemma handleRealQuery_success queryText imageId r (w : QueryInput.World P) :
  delivered (QueryInput.queryEndpoint env) = Some (JObject r) ->
  QueryInput.handleRealQuery onQuery env queryText imageId w
  = QueryInput.callOnQuery onQuery queryText None
      (Some (Options.mk
               (if String.eqb (answer r) QueryInput.sentinel
                then Some true else None)
               (Some (JObject r))))
      (QueryInput.logQueryToIndexedDB env queryText (JObject r)
         (QueryInput.emit (QueryInput.request env queryText imageId) w)).
Proof.
  unfold QueryInput.handleRealQuery.
  destruct (QueryInput.queryEndpoint env) as [ | [ | ] [r' | ]];
    simpl; intros D; try discriminate D.
  injection D as ->.
  destruct (String.eqb (answer r) QueryInput.sentinel); reflexivity.
Qed.

(** A body [null]: it is logged, then reading its answer throws, and the
    page handler is called as after a failed call. *)
Lemma handleRealQuery_null queryText imageId (w : QueryInput.World P) :
  delivered (QueryInput.queryEndpoint env) = Some JNull ->
  QueryInput.handleRealQuery onQuery env queryText imageId w
  = QueryInput.callOnQuery onQuery queryText
      (if JS.truthy_opt imageId then Some (mkFile "image" "" 0) else None)
      None
      (QueryInput.emit (ConsoleError "Query error:")
         (QueryInput.logQueryToIndexedDB env queryText JNull
            (QueryInput.emit (QueryInput.request env queryText imageId) w))).
Proof.
  unfold QueryInput.handleRealQuery, QueryInput.queryFailed.
  destruct (QueryInput.queryEndpoint env) as [ | [ | ] [r' | ]];
    simpl; intros D; try discriminate D.
  injection D as ->. reflexivity.
Qed.

(** A body that is a primitive: it is logged and handed to the page
    handler as the result, without the help card option. *)
Lemma handleRealQuery_primitive queryText imageId v (w : QueryInput.World P) :
  delivered (QueryInput.queryEndpoint env) = Some v ->
  v <> JNull -> (forall r, v <> JObject r) ->
  QueryInput.handleRealQuery onQuery env queryText imageId w
  = QueryInput.callOnQuery onQuery queryText None
      (Some (Options.mk None (Some v)))
      (QueryInput.logQueryToIndexedDB env queryText v
         (QueryInput.emit (QueryInput.request env queryText imageId) w)).
Proof.
  unfold QueryInput.handleRealQuery.
  destruct (QueryInput.queryEndpoint env) as [ | [ | ] [r' | ]];
    simpl; intros D; try discriminate D.
  injection D as ->. intros NN NO.
  destruct v as [ | b | x | s | r]; try reflexivity;
    [ contradiction | destruct (NO r eq_refl) ].
Qed.

(** Every run ends with one call of the page handler, after the request
    and, for a body that parsed, the log; the error is logged to the
    console before the call exactly when the [catch] block runs.  The
    arguments of the call depend on the answer of the endpoint and on the
    image reference only. *)
Lemma handleRealQuery_call (reply : Response (Json QueryResult))
    queryText imageId :
  exists imageFile options (caught : bool),
    forall (e : QueryInput.Env) (w : QueryInput.World P),
      QueryInput.queryEndpoint e = reply ->
      let w0 := QueryInput.emit (QueryInput.request e queryText imageId) w in
      let w1 :=
        match delivered reply with
        | Some v => QueryInput.logQueryToIndexedDB e queryText v w0
        | None => w0
        end in
      QueryInput.handleRealQuery onQuery e queryText imageId w
      = QueryInput.callOnQuery onQuery queryText imageFile options
          (if caught then QueryInput.emit (ConsoleError "Query error:") w1
           else w1).
Proof.
  destruct reply as [ | [ | ] [[ | b | x | s | r] | ]];
    try (exists (if JS.truthy_opt imageId
                 then Some (mkFile "image" "" 0) else None), None, true;
         intros e w E;
         unfold QueryInput.handleRealQuery, QueryInput.queryFailed;
         rewrite E; reflexivity);
    try (eexists None, (Some (Options.mk None (Some _))), false;
         intros e w E; unfold QueryInput.handleRealQuery;
         rewrite E; reflexivity).
  exists None,
    (Some (Options.mk
             (if String.eqb (answer r) QueryInput.sentinel
              then Some true else None)
             (Some (JObject r)))), false.
  intros e w E. unfold QueryInput.handleRealQuery. rewrite E. simpl.
  destruct (String.eqb (answer r) QueryInput.sentinel); reflexivity.
Qed.

End RealQuery.

(** ** The fallback resolver of the home page *)

Lemma select_cases (text : string) (imageFile : option File) :
  let lowerText := JS.toLowerCase text in
  Mock.select text imageFile
  = Some (if JS.includes lowerText "pest" || JS.includes lowerText "insect"
             || JS.includes lowerText "bug"
             || match imageFile with Some _ => true | None => false end
          then Mock.pest
          else if JS.includes lowerText "fertilizer"
                  || JS.includes lowerText "nutrient"
                  || JS.includes lowerText "nitrogen"
          then Mock.fertilizer
          else Mock.irrigation).
Proof.
  intros lowerText. unfold Mock.select. fold lowerText.
  destruct (JS.includes lowerText "pest" || JS.includes lowerText "insect"
            || JS.includes lowerText "bug"
            || match imageFile with Some _ => true | None => false end);
    [ reflexivity | ].
  destruct (JS.includes lowerText "fertilizer"
            || JS.includes lowerText "nutrient"
            || JS.includes lowerText "nitrogen"); reflexivity.
Qed.

(** The resolver is a function of the text and of the presence of an image:
    neither the attached file itself nor the state of the page matters. *)
Lemma select_depends_on_presence (text : string) (f g : File) :
  Mock.select text (Some f) = Mock.select text (Some g).
Proof. reflexivity. Qed.

(** C1.  When the remote call of a submission fails, the home page (in
    either of its two versions) shows the canned result chosen from
    the lowercased query text: the "pest" result, of confidence 0.65, if the
    text contains "pest", "insect" or "bug" or an image reference accompanies
    the submission; otherwise the "fertilizer" result, of confidence 0.78, if
    the text contains "fertilizer", "nutrient" or "nitrogen"; otherwise the
    "irrigation" result, of confidence 0.85. *)
Theorem fallback_resolver_selection
    (env : QueryInput.Env) (queryText : string) (imageId : option string)
    (w : QueryInput.World Index.State)
    (w0 : QueryInput.World IndexSimple.State) :
  delivered (QueryInput.queryEndpoint env) = None ->
  let shown :=
    Index.result
      (QueryInput.page
         (QueryInput.handleRealQuery Index.handleQuery env queryText imageId w)) in
  let shown0 :=
    IndexSimple.result
      (QueryInput.page
         (QueryInput.handleRealQuery IndexSimple.onQuery env queryText imageId w0)) in
  let lowerText := JS.toLowerCase queryText in
  let pestRule :=
    JS.includes lowerText "pest" = true \/ JS.includes lowerText "insect" = true
    \/ JS.includes lowerText "bug" = true \/ JS.truthy_opt imageId = true in
  let fertilizerRule :=
    JS.includes lowerText "fertilizer" = true
    \/ JS.includes lowerText "nutrient" = true
    \/ JS.includes lowerText "nitrogen" = true in
  (pestRule ->
     shown = Some (JObject Mock.pest) /\ shown0 = Some Mock.pest
     /\ confidence Mock.pest = 0.65%float)
  /\ (~ pestRule -> fertilizerRule ->
        shown = Some (JObject Mock.fertilizer)
        /\ shown0 = Some Mock.fertilizer
        /\ confidence Mock.fertilizer = 0.78%float)
  /\ (~ pestRule -> ~ fertilizerRule ->
        shown = Some (JObject Mock.irrigation)
        /\ shown0 = Some Mock.irrigation
        /\ confidence Mock.irrigation = 0.85%float).
Proof.
  intros D shown shown0 lowerText pestRule fertilizerRule.
  assert (shown0 = Mock.select queryText
                     (if JS.truthy_opt imageId
                      then Some (mkFile "image" "" 0) else None)) as E0.
  { unfold shown0. rewrite (handleRealQuery_failure _ _ _ _ _ D).
    reflexivity. }
  assert (shown = option_map JObject shown0) as E.
  { rewrite E0. unfold shown.
    rewrite (handleRealQuery_failure _ _ _ _ _ D). reflexivity. }
  rewrite E, E0, select_cases. cbv zeta. fold lowerText.
  unfold pestRule, fertilizerRule.
  destruct (JS.includes lowerText "pest"), (JS.includes lowerText "insect"),
    (JS.includes lowerText "bug"), (JS.truthy_opt imageId),
    (JS.includes lowerText "fertilizer"), (JS.includes lowerText "nutrient"),
    (JS.includes lowerText "nitrogen"); simpl;
    (split; [ | split ]); intros; try (repeat split; reflexivity);
    try (exfalso; tauto); try (exfalso; intuition discriminate).
Qed.

Lemma fallback_resolver_selection_witness :
  let env :=
    QueryInput.mkEnv 1723 "2025-08-17T12:18:06.000Z" "en" None
      (fun _ _ _ => None) (fun _ p => p) NetworkError true true in
  delivered (QueryInput.queryEndpoint env) = None
  /\ Index.result
       (QueryInput.page
          (QueryInput.handleRealQuery Index.handleQuery env
             "Any BUGS on my wheat?" None
             (QueryInput.mkWorld "" false None Index.initial [])))
     = Some (JObject Mock.pest).
Proof.
  intros env. split; [ reflexivity | ].
  refine (proj1 (proj1 (fallback_resolver_selection env
            "Any BUGS on my wheat?" None
            (QueryInput.mkWorld "" false None Index.initial [])
            (QueryInput.mkWorld "" false None (IndexSimple.mkState None false) [])
            eq_refl) _)).
  right. right. left. reflexivity.
Defined.

(** The resolver on some submissions. *)
Example fallback_examples :
  Mock.select "My crop has BUGS" None = Some Mock.pest
  /\ Mock.select "Which Fertilizer for wheat?" None = Some Mock.fertilizer
  /\ Mock.select "When to irrigate?" None = Some Mock.irrigation
  /\ Mock.select "Leaf spots on tomato" None = Some Mock.irrigation
  /\ Mock.select "nitrogen for the insect-damaged plot" None = Some Mock.pest
  /\ Mock.select "Analyzing crop image for diseases and issues..."
       (Some (mkFile "image" "" 0)) = Some Mock.pest.
Proof. repeat split. Qed.

(** ** The durable local log *)

Section Log.

Context {P : Type}.
Variable onQuery :
  string -> option File -> option Options.t -> P -> P * list Effect.
Variable env : QueryInput.Env.

Lemma callOnQuery_storage queryText imageFile options (w : QueryInput.World P) :
  QueryInput.storage (QueryInput.callOnQuery onQuery queryText imageFile options w)
  = QueryInput.storage w.
Proof.
  unfold QueryInput.callOnQuery.
  destruct (onQuery queryText imageFile options (QueryInput.page w)).
  reflexivity.
Qed.

(** The log function touches neither the page nor the component state and
    raises no toast. *)
Lemma log_frame query response (w : QueryInput.World P) :
  let w' := QueryInput.logQueryToIndexedDB env query response w in
  QueryInput.page w' = QueryInput.page w
  /\ QueryInput.text w' = QueryInput.text w
  /\ QueryInput.uploadingImage w' = QueryInput.uploadingImage w
  /\ filter is_toast (QueryInput.trace w')
     = filter is_toast (QueryInput.trace w)
  /\ filter is_network (QueryInput.trace w')
     = filter is_network (QueryInput.trace w).
Proof.
  unfold QueryInput.logQueryToIndexedDB.
  destruct (QueryInput.idbOpens env), (QueryInput.idbAccepts env); simpl;
    try destruct (IDB.add _ _ _) as [[k d'] | ]; simpl;
    rewrite ?filter_app; simpl; rewrite ?app_nil_r; auto.
Qed.

(** The storage after the log function, on a storage of the shape the
    application produces. *)
Lemma log_storage query response (w : QueryInput.World P) :
  IDB.well_formed (QueryInput.storage w) ->
  let w' := QueryInput.logQueryToIndexedDB env query response w in
  IDB.well_formed (QueryInput.storage w')
  /\ (if QueryInput.idbOpens env && QueryInput.idbAccepts env
      then IDB.entries (QueryInput.storage w')
           = (IDB.entries (QueryInput.storage w)
              ++ [(IDB.generator (QueryInput.storage w),
                   mkLogEntry query response (QueryInput.isoNow env)
                              (QueryInput.language env))])%list
           /\ IDB.generator (QueryInput.storage w')
              = (IDB.generator (QueryInput.storage w) + 1)%N
           /\ QueryInput.storage w' <> None
      else IDB.entries (QueryInput.storage w')
           = IDB.entries (QueryInput.storage w)
           /\ IDB.generator (QueryInput.storage w')
              = IDB.generator (QueryInput.storage w)).
Proof.
  intros WF. unfold QueryInput.logQueryToIndexedDB.
  destruct (QueryInput.idbOpens env); simpl; [ | auto ].
  destruct (QueryInput.storage w) as [d | ] eqn:S; simpl in *.
  - destruct WF as (s & -> & KP & AI & IX & KS).
    destruct (QueryInput.idbAccepts env); simpl.
    + split; [ | repeat split; discriminate ].
      eexists. split; [ reflexivity | ]. simpl. repeat split; trivial.
      apply Forall_app. split.
      * eapply Forall_impl; [ | exact KS ]. simpl. intros r Hr. lia.
      * constructor; [ simpl; lia | constructor ].
    + split; [ | auto ]. exists s. auto.
  - destruct (QueryInput.idbAccepts env); simpl.
    + split; [ | repeat split; discriminate ].
      eexists. split; [ reflexivity | ]. simpl. repeat split; trivial.
      constructor; [ simpl; lia | constructor ].
    + split; [ | auto ]. eexists. split; [ reflexivity | ].
      simpl. repeat split; trivial.
Qed.

(** The world in which the page handler is called: the page and the
    component state are as before, no toast was raised, and the request is
    the only one sent. *)
Lemma arrival_frame queryText imageId (caught : bool)
    (w : QueryInput.World P) :
  let w0 := QueryInput.emit (QueryInput.request env queryText imageId) w in
  let w1 :=
    match delivered (QueryInput.queryEndpoint env) with
    | Some v => QueryInput.logQueryToIndexedDB env queryText v w0
    | None => w0
    end in
  let w2 :=
    if caught then QueryInput.emit (ConsoleError "Query error:") w1 else w1 in
  QueryInput.page w2 = QueryInput.page w
  /\ QueryInput.text w2 = QueryInput.text w
  /\ QueryInput.uploadingImage w2 = QueryInput.uploadingImage w
  /\ filter is_toast (QueryInput.trace w2)
     = filter is_toast (QueryInput.trace w)
  /\ filter is_network (QueryInput.trace w2)
     = (filter is_network (QueryInput.trace w)
        ++ [QueryInput.request env queryText imageId])%list
  /\ QueryInput.storage w2 = QueryInput.storage w1.
Proof.
  intros w0 w1 w2.
  assert (QueryInput.page w1 = QueryInput.page w
          /\ QueryInput.text w1 = QueryInput.text w
          /\ QueryInput.uploadingImage w1 = QueryInput.uploadingImage w
          /\ filter is_toast (QueryInput.trace w1)
             = filter is_toast (QueryInput.trace w)
          /\ filter is_network (QueryInput.trace w1)
             = (filter is_network (QueryInput.trace w)
                ++ [QueryInput.request env queryText imageId])%list)
    as (Hp & Hx & Hu & Ht & Hn).
  { unfold w1.
    destruct (delivered (QueryInput.queryEndpoint env)) as [v | ].
    - destruct (log_frame queryText v w0) as (Ep & Ex & Eu & Et & En).
      rewrite Ep, Ex, Eu, Et, En. unfold w0. simpl.
      rewrite !filter_app. simpl. rewrite app_nil_r. auto.
    - unfold w0. simpl. rewrite !filter_app. simpl. rewrite app_nil_r.
      auto. }
  unfold w2. destruct caught; simpl; rewrite ?filter_app; simpl;
    rewrite ?app_nil_r; auto 10.
Qed.

(** The toasts of a run of [handleRealQuery] are those of the page
    handler: the component raises none of its own. *)
Lemma handleRealQuery_toasts queryText imageId (w : QueryInput.World P) :
  exists imageFile options,
    filter is_toast
      (QueryInput.trace
         (QueryInput.handleRealQuery onQuery env queryText imageId w))
    = (filter is_toast (QueryInput.trace w)
       ++ filter is_toast
            (snd (onQuery queryText imageFile options (QueryInput.page w))))%list.
Proof.
  destruct (handleRealQuery_call onQuery (QueryInput.queryEndpoint env)
              queryText imageId) as (f & o & c & E).
  rewrite (E env w eq_refl). cbv zeta.
  destruct (arrival_frame queryText imageId c w) as (Ep & _ & _ & Et & _).
  exists f, o. unfold QueryInput.callOnQuery. rewrite Ep.
  destruct (onQuery queryText f o (QueryInput.page w)) as [p' es].
  simpl. rewrite filter_app, Et. reflexivity.
Qed.

End Log.

(** C2, as amended.  A submission whose remote call returns an [ok]
    response with a body that parses appends exactly one entry to the
    [queries] store when the store can be opened and accepts the write: the
    entry holds the query text, the parsed body (whatever value it is), the
    ISO timestamp and the language tag, it is stored under the next number
    of the key generator, and the store keeps its key path [id] and its index
    on [timestamp].  When the write fails nothing is appended.  The entry
    holds what the endpoint sent, not the resolved result: a body [null] is
    logged, and the submission is then handed to the page as after a failed
    call, to be resolved by its fallback.  A submission whose remote call
    fails (no response, a status that is not [ok], a body that does not
    parse) is handed to the page in the same way and leaves the storage as
    it was. *)
Theorem log_entry_appended {P : Type}
    (onQuery : string -> option File -> option Options.t -> P -> P * list Effect)
    (env : QueryInput.Env) (queryText : string) (imageId : option string)
    (w : QueryInput.World P) :
  IDB.well_formed (QueryInput.storage w) ->
  let w' := QueryInput.handleRealQuery onQuery env queryText imageId w in
  let before := IDB.entries (QueryInput.storage w) in
  let after := IDB.entries (QueryInput.storage w') in
  IDB.well_formed (QueryInput.storage w')
  /\ match delivered (QueryInput.queryEndpoint env) with
     | Some r =>
         if QueryInput.idbOpens env && QueryInput.idbAccepts env
         then after
              = (before
                 ++ [(IDB.generator (QueryInput.storage w),
                      mkLogEntry queryText r (QueryInput.isoNow env)
                                 (QueryInput.language env))])%list
              /\ IDB.generator (QueryInput.storage w')
                 = (IDB.generator (QueryInput.storage w) + 1)%N
              /\ QueryInput.storage w' <> None
         else after = before
     | None => QueryInput.storage w' = QueryInput.storage w
     end
  /\ (delivered (QueryInput.queryEndpoint env) = None
      \/ delivered (QueryInput.queryEndpoint env) = Some JNull ->
      QueryInput.page w'
      = fst (onQuery queryText
               (if JS.truthy_opt imageId
                then Some (mkFile "image" "" 0) else None)
               None (QueryInput.page w))).
Proof.
  intros WF w' before after. unfold after, before, w'.
  assert (forall f o (w1 : QueryInput.World P),
            QueryInput.page w1 = QueryInput.page w ->
            QueryInput.page (QueryInput.callOnQuery onQuery queryText f o w1)
            = fst (onQuery queryText f o (QueryInput.page w))) as Call.
  { intros f o w1 E. unfold QueryInput.callOnQuery. rewrite E.
    destruct (onQuery queryText f o (QueryInput.page w)). reflexivity. }
  rewrite <- and_assoc. split.
  - destruct (handleRealQuery_call onQuery (QueryInput.queryEndpoint env)
                queryText imageId) as (f & o & c & E).
    rewrite (E env w eq_refl), callOnQuery_storage. cbv zeta.
    destruct (arrival_frame env queryText imageId c w)
      as (_ & _ & _ & _ & _ & Es).
    cbv zeta in Es. rewrite Es. clear Es E.
    destruct (delivered (QueryInput.queryEndpoint env)) as [r | ] eqn:D.
    + pose proof (log_storage env queryText r
                    (QueryInput.emit
                       (QueryInput.request env queryText imageId) w)
                    WF) as [WF' H].
      split; [ exact WF' | ].
      destruct (QueryInput.idbOpens env && QueryInput.idbAccepts env);
        [ exact H | exact (proj1 H) ].
    + split; [ exact WF | reflexivity ].
  - intros [D | D].
    + rewrite (handleRealQuery_failure onQuery env queryText imageId w D).
      apply Call. reflexivity.
    + rewrite (handleRealQuery_null onQuery env queryText imageId w D).
      apply Call.
      destruct (log_frame env queryText JNull
                  (QueryInput.emit (QueryInput.request env queryText imageId) w))
        as (Ep & _).
      simpl in *. exact Ep.
Qed.

Lemma log_entry_appended_witness :
  let r := mkQueryResult "Irrigate at dawn." 0.9 ["Check soil moisture"] [] in
  let env :=
    QueryInput.mkEnv 1723 "2025-08-17T12:18:06.000Z" "en" None
      (fun _ _ _ => None) (fun _ p => p) (Http true (Some (JObject r)))
      true true in
  let w := QueryInput.mkWorld "" false None Index.initial [] in
  IDB.well_formed (QueryInput.storage w)
  /\ IDB.entries
       (QueryInput.storage
          (QueryInput.handleRealQuery Index.handleQuery env
             "When to irrigate?" None w))
     = [(1%N, mkLogEntry "When to irrigate?" (JObject r)
                "2025-08-17T12:18:06.000Z" "en")].
Proof.
  intros r env w. split; [ exact I | ].
  exact (proj1 (proj1 (proj2 (log_entry_appended Index.handleQuery env
                                "When to irrigate?" None w I)))).
Defined.

(** C2, as stated, fails: with the remote endpoint unreachable the
    submission is resolved (the page shows the canned "irrigation" result)
    and no entry has been appended to the log. *)
Lemma log_entry_missing_on_fallback :
  let env :=
    QueryInput.mkEnv 1723 "2025-08-17T12:18:06.000Z" "en" None
      (fun _ _ _ => None) (fun _ p => p) NetworkError true true in
  let w := QueryInput.mkWorld "" false None Index.initial [] in
  let w' :=
    QueryInput.handleRealQuery Index.handleQuery env "When to irrigate?" None w in
  Index.result (QueryInput.page w') = Some (JObject Mock.irrigation)
  /\ ~ (exists k e,
          IDB.entries (QueryInput.storage w')
          = (IDB.entries (QueryInput.storage w) ++ [(k, e)])%list).
Proof.
  intros env w w'. split; [ reflexivity | ].
  intros (k & e & E). discriminate E.
Qed.

(** A response [200] whose body is [null]: the entry that is appended
    holds [null], and the page shows the canned result of its fallback,
    which the log does not hold. *)
Example null_body_logged_then_fallback :
  let env :=
    QueryInput.mkEnv 1723 "2025-08-17T12:18:06.000Z" "en" None
      (fun _ _ _ => None) (fun _ p => p) (Http true (Some JNull)) true true in
  let w := QueryInput.mkWorld "" false None Index.initial [] in
  let w' :=
    QueryInput.handleRealQuery Index.handleQuery env "When to irrigate?" None w in
  Index.result (QueryInput.page w') = Some (JObject Mock.irrigation)
  /\ IDB.entries (QueryInput.storage w')
     = [(1%N, mkLogEntry "When to irrigate?" JNull
                "2025-08-17T12:18:06.000Z" "en")]
  /\ QueryInput.trace w'
     = [ QueryInput.request env "When to irrigate?" None;
         DbAdd "queries" 1
           (mkLogEntry "When to irrigate?" JNull
              "2025-08-17T12:18:06.000Z" "en");
         ConsoleError "Query error:";
         Sleep 1500 ].
Proof. repeat split. Qed.

(** A response [200] whose body is the number [0], for an uploaded image:
    the entry that is appended holds [0]; no error is logged, the page
    handler receives the value as its result and, the value being falsy,
    shows the canned result of its fallback, chosen without the image. *)
Example falsy_body_logged_then_fallback :
  let env :=
    QueryInput.mkEnv 1723 "2025-08-17T12:18:06.000Z" "en" None
      (fun _ _ _ => None) (fun _ p => p) (Http true (Some (JNumber 0)))
      true true in
  let w := QueryInput.mkWorld "" false None Index.initial [] in
  let w' :=
    QueryInput.handleRealQuery Index.handleQuery env
      "Analyzing crop image for diseases and issues..."
      (Some "https://cdn.example/leaf.png") w in
  truthy_value (JNumber 0 : Json QueryResult) = false
  /\ truthy_value (JNumber (-0) : Json QueryResult) = false
  /\ truthy_value (JNumber nan : Json QueryResult) = false
  /\ truthy_value (JNumber 0.5 : Json QueryResult) = true
  /\ Index.result (QueryInput.page w') = Some (JObject Mock.irrigation)
  /\ map (fun kv => response (snd kv)) (IDB.entries (QueryInput.storage w'))
     = [ JNumber 0 ]
  /\ filter (fun e => match e with ConsoleError _ => true | _ => false end)
       (QueryInput.trace w') = [].
Proof. repeat split. Qed.

(** ** A failing write of the log *)

(** C7.  Whether the record store opens and whether it accepts the write
    changes nothing of what the user sees: the page handler ends in the same
    state, the component state is the same and the same toasts (none of them
    from the log) are raised as when the write succeeds; a delivered result
    reaches the page handler as the remote result, not through the
    fallback; and when the page handler raises no toast, the run raises
    none. *)
Theorem log_failure_swallowed {P : Type}
    (onQuery : string -> option File -> option Options.t -> P -> P * list Effect)
    (env : QueryInput.Env) (opens accepts : bool)
    (queryText : string) (imageId : option string) (w : QueryInput.World P) :
  let good :=
    QueryInput.handleRealQuery onQuery (QueryInput.withStore true true env)
      queryText imageId w in
  let bad :=
    QueryInput.handleRealQuery onQuery (QueryInput.withStore opens accepts env)
      queryText imageId w in
  QueryInput.page bad = QueryInput.page good
  /\ QueryInput.text bad = QueryInput.text good
  /\ QueryInput.uploadingImage bad = QueryInput.uploadingImage good
  /\ filter is_toast (QueryInput.trace bad)
     = filter is_toast (QueryInput.trace good)
  /\ filter is_network (QueryInput.trace bad)
     = filter is_network (QueryInput.trace good)
  /\ (forall r, delivered (QueryInput.queryEndpoint env) = Some (JObject r) ->
       QueryInput.page bad
       = fst (onQuery queryText None
                (Some (Options.mk
                         (if String.eqb (answer r) QueryInput.sentinel
                          then Some true else None)
                         (Some (JObject r))))
                (QueryInput.page w)))
  /\ ((forall q f o p, filter is_toast (snd (onQuery q f o p)) = []) ->
      filter is_toast (QueryInput.trace bad)
      = filter is_toast (QueryInput.trace w)).
Proof.
  intros good bad.
  assert ((forall q f o p, filter is_toast (snd (onQuery q f o p)) = []) ->
          filter is_toast (QueryInput.trace bad)
          = filter is_toast (QueryInput.trace w)) as Quiet.
  { intros Q. unfold bad.
    destruct (handleRealQuery_toasts onQuery
                (QueryInput.withStore opens accepts env) queryText imageId w)
      as (f & o & ->).
    rewrite Q, app_nil_r. reflexivity. }
  destruct (handleRealQuery_call onQuery (QueryInput.queryEndpoint env)
              queryText imageId) as (f & o & c & E).
  pose proof (E (QueryInput.withStore true true env) w eq_refl) as Eg.
  pose proof (E (QueryInput.withStore opens accepts env) w eq_refl) as Eb.
  cbv zeta in Eg, Eb. fold good in Eg. fold bad in Eb.
  destruct (arrival_frame (QueryInput.withStore true true env)
              queryText imageId c w) as (Gp & Gx & Gu & Gt & Gn & _).
  destruct (arrival_frame (QueryInput.withStore opens accepts env)
              queryText imageId c w) as (Bp & Bx & Bu & Bt & Bn & _).
  cbv zeta in Gp, Gx, Gu, Gt, Gn, Bp, Bx, Bu, Bt, Bn.
  change (QueryInput.queryEndpoint (QueryInput.withStore true true env))
    with (QueryInput.queryEndpoint env) in *.
  change (QueryInput.queryEndpoint (QueryInput.withStore opens accepts env))
    with (QueryInput.queryEndpoint env) in *.
  change (QueryInput.request (QueryInput.withStore true true env))
    with (QueryInput.request env) in *.
  change (QueryInput.request (QueryInput.withStore opens accepts env))
    with (QueryInput.request env) in *.
  assert (QueryInput.page bad
          = fst (onQuery queryText f o (QueryInput.page w))) as Pb.
  { rewrite Eb. unfold QueryInput.callOnQuery. rewrite Bp.
    destruct (onQuery queryText f o (QueryInput.page w)). reflexivity. }
  split; [ | split; [ | split; [ | split; [ | split; [ | split ] ] ] ] ].
  - rewrite Pb, Eg. unfold QueryInput.callOnQuery. rewrite Gp.
    destruct (onQuery queryText f o (QueryInput.page w)). reflexivity.
  - rewrite Eg, Eb. unfold QueryInput.callOnQuery. rewrite Gp, Bp.
    destruct (onQuery queryText f o (QueryInput.page w)). simpl. congruence.
  - rewrite Eg, Eb. unfold QueryInput.callOnQuery. rewrite Gp, Bp.
    destruct (onQuery queryText f o (QueryInput.page w)). simpl. congruence.
  - rewrite Eg, Eb. unfold QueryInput.callOnQuery. rewrite Gp, Bp.
    destruct (onQuery queryText f o (QueryInput.page w)). simpl.
    rewrite !filter_app. congruence.
  - rewrite Eg, Eb. unfold QueryInput.callOnQuery. rewrite Gp, Bp.
    destruct (onQuery queryText f o (QueryInput.page w)). simpl.
    rewrite !filter_app. congruence.
  - intros r D. unfold bad.
    rewrite (handleRealQuery_success onQuery
               (QueryInput.withStore opens accepts env) queryText imageId r w D).
    unfold QueryInput.callOnQuery.
    destruct (log_frame (QueryInput.withStore opens accepts env) queryText
                (JObject r)
                (QueryInput.emit
                   (QueryInput.request
                      (QueryInput.withStore opens accepts env)
                      queryText imageId) w))
      as (Lp & _).
    cbv zeta in Lp. rewrite Lp. simpl.
    destruct (onQuery queryText None _ (QueryInput.page w)). reflexivity.
  - exact Quiet.
Qed.

(** ** The sentinel answer *)

(** The bytes of the literal of [handleRealQuery]. *)
Lemma sentinel_bytes :
  QueryInput.sentinel
  = "I don't know "
    ++ String "195"%char (String "162"%char (String "226"%char
         (String "130"%char (String "172"%char (String "226"%char
         (String "128"%char (String "157"%char "")))))))
    ++ " please consult a local expert.".
Proof. reflexivity. Qed.

(** The bytes of the same sentence written with an em dash (U+2014, the
    bytes E2 80 94). *)
Lemma em_dash_sentence_bytes :
  "I don't know — please consult a local expert."
  = "I don't know "
    ++ String "226"%char (String "128"%char (String "148"%char ""))
    ++ " please consult a local expert.".
Proof. reflexivity. Qed.

(** The one call that [handleRealQuery] makes for a delivered result: the
    help card option is set exactly when the answer is the literal of the
    source, whatever the confidence. *)
Lemma tagged_iff_source_literal
    (env : QueryInput.Env) (queryText : string) (imageId : option string)
    (r : QueryResult) (w : QueryInput.World (list Recorder.Call)) :
  delivered (QueryInput.queryEndpoint env) = Some (JObject r) ->
  exists flag,
    QueryInput.page
      (QueryInput.handleRealQuery Recorder.onQuery env queryText imageId w)
    = (QueryInput.page w
       ++ [(queryText, None, Some (Options.mk flag (Some (JObject r))))])%list
    /\ (flag = Some true <-> answer r = QueryInput.sentinel)
    /\ (flag = None <-> answer r <> QueryInput.sentinel).
Proof.
  intros D. rewrite (handleRealQuery_success _ _ _ _ _ _ D).
  unfold QueryInput.callOnQuery, Recorder.onQuery. simpl.
  destruct (log_frame env queryText (JObject r)
              (QueryInput.emit (QueryInput.request env queryText imageId) w))
    as (Hp & _).
  simpl in Hp. rewrite Hp.
  destruct (String.eqb_spec (answer r) QueryInput.sentinel) as [E | NE];
    eexists; (split; [ reflexivity | ]); split; split; intros H;
    congruence.
Qed.

(** C4, on the code.  A successful response whose answer is the sentinel
    sentence written with an em dash is passed to the home page without the
    help card option, whatever its confidence: the result is shown and the
    expert help card is not. *)
Theorem em_dash_sentinel_not_tagged (c : float) (queryText : string) :
  let r :=
    mkQueryResult "I don't know — please consult a local expert." c [] [] in
  let env :=
    QueryInput.mkEnv 1723 "2025-08-17T12:18:06.000Z" "en" None
      (fun _ _ _ => None) (fun _ p => p) (Http true (Some (JObject r)))
      true true in
  let w := QueryInput.mkWorld "" false None Index.initial [] in
  let w' := QueryInput.handleRealQuery Index.handleQuery env queryText None w in
  String.eqb (answer r) QueryInput.sentinel = false
  /\ Index.result (QueryInput.page w') = Some (JObject r)
  /\ Index.helpCardVisible (QueryInput.page w') = false.
Proof. repeat split. Qed.

(** The answer that does raise the help card is the byte sequence of the
    source literal. *)
Example source_literal_tagged (c : float) (queryText : string) :
  let r := mkQueryResult QueryInput.sentinel c [] [] in
  let env :=
    QueryInput.mkEnv 1723 "2025-08-17T12:18:06.000Z" "en" None
      (fun _ _ _ => None) (fun _ p => p) (Http true (Some (JObject r)))
      true true in
  let w := QueryInput.mkWorld "" false None Index.initial [] in
  Index.helpCardVisible
    (QueryInput.page
       (QueryInput.handleRealQuery Index.handleQuery env queryText None w))
  = true.
Proof. reflexivity. Qed.

(** ** Escalation *)

Module ViewFacts.

Lemma numbered_items (l : list (N * string)) :
  let items :=
    map (fun entry : N * string =>
           View.Item [ View.Text (JS.showN (fst entry + 1));
                       View.Text (snd entry) ]) l in
  View.allAlerts items = [] /\ View.allAnchors items = [].
Proof.
  induction l as [ | e l [IHa IHn]]; [ split; reflexivity | ].
  split; simpl; assumption.
Qed.

(** The entries of the sources of the result card. *)
Lemma card_sources (t : string -> string) (l : list Source) :
  let items :=
    map (fun source : Source =>
           View.Item
             [ View.Text (title source);
               View.Anchor (url source)
                 [ View.Icon "ExternalLink"; View.Text (t "sources.visit") ];
               View.Text (snippet source) ]) l in
  View.allAlerts items = [] /\ View.allAnchors items = map url l.
Proof.
  induction l as [ | e l [IHa IHn]]; [ split; reflexivity | ].
  split; simpl; [ assumption | f_equal; assumption ].
Qed.

(** The entries of the sources of the recommender. *)
Lemma recommender_sources (l : list Source) :
  let items :=
    map (fun source : Source =>
           View.Item
             [ View.Text (title source);
               View.Text (snippet source);
               View.Anchor (url source) [ View.Icon "Upload" ] ]) l in
  View.allAlerts items = [] /\ View.allAnchors items = map url l.
Proof.
  induction l as [ | e l [IHa IHn]]; [ split; reflexivity | ].
  split; simpl; [ assumption | f_equal; assumption ].
Qed.

(** The result card renders no alert, and its links are those to the
    sources of the result, while the collapsible is open. *)
Lemma card_affordances (t : string -> string) (isSourcesOpen : bool)
    (r : QueryResult) :
  View.allAlerts (ResultCard.render t isSourcesOpen r) = []
  /\ View.allAnchors (ResultCard.render t isSourcesOpen r)
     = (if isSourcesOpen then map url (sources r) else []).
Proof.
  unfold ResultCard.render, View.allAlerts, View.allAnchors.
  rewrite !flat_map_app.
  destruct (numbered_items (View.indexed 0 (actions r))) as [Aa An].
  destruct (card_sources t (sources r)) as [Sa Sn].
  unfold View.allAlerts, View.allAnchors in Aa, An, Sa, Sn. cbv zeta in *.
  rewrite Aa, An.
  destruct isSourcesOpen; [ rewrite Sa, Sn | ]; split; reflexivity.
Qed.

(** The alerts and the links of the block of a recommendation. *)
Lemma block_affordances (showWarning : bool)
    (r : ChemRecommender.ChemRecommendation) :
  View.allAlerts (ChemForm.block showWarning r)
  = ((if showWarning then [ View.amber ] else [])
     ++ [ "border-blue-200 bg-blue-50" ])%list
  /\ View.allAnchors (ChemForm.block showWarning r)
     = ((if showWarning then [ View.helpline ] else [])
        ++ map url (ChemRecommender.sources r))%list.
Proof.
  unfold ChemForm.block, View.allAlerts, View.allAnchors.
  rewrite !flat_map_app.
  destruct (numbered_items (View.indexed 0 (ChemRecommender.next_steps r)))
    as [Ia In].
  destruct (recommender_sources (ChemRecommender.sources r)) as [Sa Sn].
  unfold View.allAlerts, View.allAnchors in Ia, In, Sa, Sn. cbv zeta in *.
  assert (map url (ChemRecommender.sources r)
          = if (0 <? List.length (ChemRecommender.sources r))%nat
            then map url (ChemRecommender.sources r) else []) as E
    by (destruct (ChemRecommender.sources r); reflexivity).
  rewrite E.
  destruct (0 <? List.length (ChemRecommender.next_steps r))%nat,
    (0 <? List.length (ChemRecommender.sources r))%nat, showWarning;
    cbn [flat_map View.alerts View.anchors app];
    rewrite ?Ia, ?In, ?Sa, ?Sn; split; reflexivity.
Qed.

End ViewFacts.

(** C3, as amended.  In the treatment recommender the low-confidence warning
    and the expert call-to-action are rendered exactly when a recommendation
    is present whose confidence is strictly below 0.6: the amber alert is then
    the first of the two alerts (the other is the safety notice) and the link
    to the helpline the first of the links (the others lead to the sources);
    a state without a recommendation renders neither.  On the home page a
    result supplied by the remote branch shows the expert help card exactly
    when it came with the help card option set, whatever its confidence: the
    help card is then the only alert on display and its two links are the
    only links besides those to the sources.  The result card itself renders
    no alert for any result, and no link but those to the sources of the
    result. *)
Theorem escalation_conditions
    (s : ChemRecommender.State)
    (t : string -> string) (isSourcesOpen : bool)
    (text : string) (imageFile : option File) (flag : option bool)
    (r : QueryResult) (st : Index.State) :
  (ChemRecommender.showWarning s = true
   <-> exists reco,
         ChemRecommender.recommendation s = JObject reco
         /\ JS.flt (ChemRecommender.confidence reco) 0.6)
  /\ (forall reco,
        ChemRecommender.recommendation s = JObject reco ->
        exists view,
          ChemForm.results s = Some view
          /\ View.allAlerts view
             = ((if ChemRecommender.showWarning s then [ View.amber ] else [])
                ++ [ "border-blue-200 bg-blue-50" ])%list
          /\ View.allAnchors view
             = ((if ChemRecommender.showWarning s
                 then [ View.helpline ] else [])
                ++ map url (ChemRecommender.sources reco))%list)
  /\ ((forall reco, ChemRecommender.recommendation s <> JObject reco) ->
      forall view,
        ChemForm.results s = Some view ->
        View.allAlerts view = [] /\ View.allAnchors view = [])
  /\ (let st' :=
        fst (Index.handleQuery text imageFile
               (Some (Options.mk flag (Some (JObject r)))) st) in
      Index.result st' = Some (JObject r)
      /\ (Index.helpCardVisible st' = true <-> flag = Some true)
      /\ exists view,
           Index.resultView t isSourcesOpen st' = Some view
           /\ View.allAlerts view
              = (if Index.helpCardVisible st' then [ View.amber ] else [])
           /\ View.allAnchors view
              = ((if Index.helpCardVisible st'
                  then [ View.helpline; "https://farmer.gov.in/kvk" ]
                  else [])
                 ++ (if isSourcesOpen then map url (sources r) else []))%list)
  /\ (View.allAlerts (ResultCard.render t isSourcesOpen r) = []
      /\ View.allAnchors (ResultCard.render t isSourcesOpen r)
         = (if isSourcesOpen then map url (sources r) else [])).
Proof.
  split; [ | split; [ | split; [ | split ] ] ].
  - unfold ChemRecommender.showWarning, JS.flt.
    destruct (ChemRecommender.recommendation s) as [ | b | x | str | reco ];
      try (split; [ discriminate | intros (reco' & E & _); discriminate E ]).
    split; [ intros H; exists reco; auto | ].
    intros (reco' & E & H). injection E as <-. exact H.
  - intros reco E. unfold ChemForm.results. rewrite E. simpl.
    eexists. split; [ reflexivity | ].
    apply ViewFacts.block_affordances.
  - intros NO view. unfold ChemForm.results, View.guarded.
    destruct (ChemRecommender.recommendation s) as [ | b | x | str | reco ];
      simpl.
    + intros E. injection E as <-. split; reflexivity.
    + destruct b; intros E; [ discriminate E | ].
      injection E as <-. split; reflexivity.
    + destruct (negb (x =? 0)%float && (x =? x)%float); intros E;
        [ discriminate E | ].
      injection E as <-. split; reflexivity.
    + destruct (JS.truthy str); intros E; [ discriminate E | ].
      injection E as <-. split; reflexivity.
    + destruct (NO reco eq_refl).
  - simpl. split; [ reflexivity | ]. split.
    + destruct flag as [[ | ] | ]; simpl; split; congruence.
    + unfold Index.resultView, View.guarded. simpl.
      eexists. split; [ reflexivity | ].
      destruct (ViewFacts.card_affordances t isSourcesOpen r) as [A N].
      unfold View.allAlerts, View.allAnchors in *.
      rewrite !flat_map_app, A, N, app_nil_r.
      destruct flag as [[ | ] | ]; split; reflexivity.
  - apply ViewFacts.card_affordances.
Qed.

(** C3, as stated, fails: a result of confidence 0.3 delivered by the remote
    endpoint with an ordinary answer is shown on the home page without the
    help card, although its confidence is below 0.6; what the page renders
    of it holds no alert and no link. *)
Lemma low_confidence_without_help_card :
  let r := mkQueryResult "Possibly rust; inspect the lower leaves." 0.3
             ["Inspect leaves"] [] in
  let env :=
    QueryInput.mkEnv 1723 "2025-08-17T12:18:06.000Z" "en" None
      (fun _ _ _ => None) (fun _ p => p) (Http true (Some (JObject r)))
      true true in
  let w := QueryInput.mkWorld "" false None Index.initial [] in
  let st' :=
    QueryInput.page
      (QueryInput.handleRealQuery Index.handleQuery env "Leaf rust?" None w) in
  Index.result st' = Some (JObject r)
  /\ ~ (Index.helpCardVisible st' = true
        <-> JS.flt (confidence r) 0.6
            \/ answer r = QueryInput.sentinel)
  /\ forall isSourcesOpen,
       exists view,
         Index.resultView (I18n.t "en") isSourcesOpen st' = Some view
         /\ View.allAlerts view = [] /\ View.allAnchors view = [].
Proof.
  intros r env w st'. split; [ reflexivity | ]. split.
  - intros [_ H]. assert (Index.helpCardVisible st' = true) as F.
    { apply H. left. reflexivity. }
    discriminate F.
  - intros [ | ]; eexists; (split; [ reflexivity | ]); split; reflexivity.
Qed.

(** ** The handler of the routed query page *)

(** C9.  Without a remote-supplied result the handler of the query page
    waits 600 ms and shows one fixed result: the answer "Answer for: "
    followed by the text, confidence 0.7, three actions and one source,
    whatever the text contains and whether or not a file comes with it.  The
    help card option of the caller is never read: two calls that differ only
    in that option end in the same state with the same effects. *)
Theorem query_page_fixed_result
    (text : string) (imageFile : option File) (options : option Options.t)
    (st : QueryPage.State) :
  options_result options = None ->
  (exists shown,
     QueryPage.handleQuery text imageFile options st
     = (QueryPage.mkState (Some (JObject shown)) false, [Sleep 600])
     /\ answer shown = "Answer for: " ++ text
     /\ confidence shown = 0.7%float
     /\ actions shown
        = ["Check soil moisture"; "Review weather"; "Plan irrigation"]
     /\ List.length (actions shown) = 3
     /\ List.length (sources shown) = 1)
  /\ (forall (imageFile' : option File) (st' : QueryPage.State),
        QueryPage.handleQuery text imageFile' options st'
        = QueryPage.handleQuery text imageFile options st)
  /\ (forall (flag flag' : option bool) (res : option (Json QueryResult)),
        QueryPage.handleQuery text imageFile (Some (Options.mk flag res)) st
        = QueryPage.handleQuery text imageFile (Some (Options.mk flag' res)) st).
Proof.
  intros E. unfold QueryPage.handleQuery. rewrite E.
  split; [ | split ].
  - eexists. split; [ reflexivity | ]. simpl. repeat split.
  - reflexivity.
  - reflexivity.
Qed.

Lemma query_page_fixed_result_witness :
  options_result (Some (Options.mk (Some true) None)) = None
  /\ exists shown,
       QueryPage.handleQuery "pest on my crop"
         (Some (mkFile "image" "" 0)) (Some (Options.mk (Some true) None))
         (QueryPage.mkState None false)
       = (QueryPage.mkState (Some (JObject shown)) false, [Sleep 600])
       /\ answer shown = "Answer for: pest on my crop"
       /\ confidence shown = 0.7%float
       /\ actions shown
          = ["Check soil moisture"; "Review weather"; "Plan irrigation"]
       /\ List.length (actions shown) = 3
       /\ List.length (sources shown) = 1.
Proof.
  split; [ reflexivity | ].
  exact (proj1 (query_page_fixed_result "pest on my crop"
                  (Some (mkFile "image" "" 0))
                  (Some (Options.mk (Some true) None))
                  (QueryPage.mkState None false) eq_refl)).
Defined.

(** ** The help card flag of the home page *)

(** C10.  The handler of the home page assigns the help card flag only when
    it receives a remote-supplied result (the flag becomes the option, or
    false when the option is absent).  On the fallback branch the flag keeps
    its value: after a response tagged with the help card option, a
    submission resolved by the keyword fallback shows its canned result with
    the help card still visible, and the next remote-supplied result without
    the option hides it. *)
Theorem help_card_flag_frame
    (text : string) (imageFile : option File) (options : option Options.t)
    (st : Index.State) :
  options_result options = None ->
  let fallback := fst (Index.handleQuery text imageFile options st) in
  Index.showHelpCard fallback = Index.showHelpCard st
  /\ Index.result fallback = option_map JObject (Mock.select text imageFile)
  /\ (forall (t1 t2 : string) (f1 f2 : option File) (r1 r2 : QueryResult),
        let tagged :=
          fst (Index.handleQuery t1 f1
                 (Some (Options.mk (Some true) (Some (JObject r1)))) st) in
        let stale := fst (Index.handleQuery text imageFile options tagged) in
        let later :=
          fst (Index.handleQuery t2 f2
                 (Some (Options.mk None (Some (JObject r2)))) stale) in
        Index.helpCardVisible tagged = true
        /\ Index.helpCardVisible stale = true
        /\ Index.result stale = option_map JObject (Mock.select text imageFile)
        /\ Index.helpCardVisible later = false
        /\ Index.result later = Some (JObject r2)).
Proof.
  intros E fallback. unfold fallback.
  destruct options as [[flag [r | ]] | ]; simpl in E; try discriminate E;
    simpl; repeat split.
Qed.

Lemma help_card_flag_frame_witness :
  let st := Index.mkState None false true Index.tab_query in
  options_result None = None
  /\ Index.showHelpCard
       (fst (Index.handleQuery "When to irrigate?" None None st)) = true.
Proof.
  intros st. split; [ reflexivity | ].
  exact (proj1 (help_card_flag_frame "When to irrigate?" None None st eq_refl)).
Defined.

(** ** Traces of the query input *)

Section Traces.

Context {P : Type}.
Variable onQuery :
  string -> option File -> option Options.t -> P -> P * list Effect.
Variable env : QueryInput.Env.

Lemma log_trace query response (w : QueryInput.World P) :
  exists es,
    QueryInput.trace (QueryInput.logQueryToIndexedDB env query response w)
    = (QueryInput.trace w ++ es)%list
    /\ QueryInput.text (QueryInput.logQueryToIndexedDB env query response w)
       = QueryInput.text w.
Proof.
  unfold QueryInput.logQueryToIndexedDB.
  destruct (QueryInput.idbOpens env), (QueryInput.idbAccepts env); simpl;
    try destruct (IDB.add _ _ _) as [[k d'] | ]; simpl;
    eexists; split; reflexivity.
Qed.

(** [handleRealQuery] extends the trace, first by its request, and leaves
    the text of the input as it is. *)
Lemma handleRealQuery_trace queryText imageId (w : QueryInput.World P) :
  exists es,
    QueryInput.trace
      (QueryInput.handleRealQuery onQuery env queryText imageId w)
    = (QueryInput.trace w
       ++ Fetch (QueryInput.apiUrl env ++ "/api/query")
            [ ("user_id", Some "anonymous"); ("text", Some queryText);
              ("lang", Some (QueryInput.language env));
              ("image_id", imageId) ] :: es)%list
    /\ QueryInput.text
         (QueryInput.handleRealQuery onQuery env queryText imageId w)
       = QueryInput.text w.
Proof.
  destruct (handleRealQuery_call onQuery (QueryInput.queryEndpoint env)
              queryText imageId) as (f & o & c & E).
  rewrite (E env w eq_refl). cbv zeta. clear E.
  unfold QueryInput.callOnQuery.
  destruct (delivered (QueryInput.queryEndpoint env)) as [r | ].
  - match goal with
    | |- context [QueryInput.logQueryToIndexedDB env ?q ?r0 ?w0] =>
        destruct (log_trace q r0 w0) as (es & Et & Ex)
    end.
    destruct c; destruct (onQuery _ _ _ _) as [p' es']; simpl in *;
      rewrite Et, Ex, <- !app_assoc; simpl; eexists; split; reflexivity.
  - destruct c; destruct (onQuery _ _ _ _) as [p' es']; simpl;
      rewrite <- !app_assoc; simpl; eexists; split; reflexivity.
Qed.

(** A started upload: the storage request comes first; when the storage
    answers with a path, the query follows with the placeholder text and
    the public URL of that path. *)
Lemma uploadImageToSupabase_trace (file : File) (w : QueryInput.World P) :
  let filePath :=
    "uploads/" ++ JS.showN (QueryInput.now env) ++ "-" ++ name file in
  let w' := QueryInput.uploadImageToSupabase onQuery env file w in
  exists es,
    QueryInput.trace w'
    = (QueryInput.trace w
       ++ StorageUpload "farm-images" filePath file :: es)%list
    /\ forall path,
         QueryInput.upload env "farm-images" filePath file = Some path ->
         QueryInput.text w' = QueryInput.t env "image.analyzing"
         /\ exists es',
              es = Fetch (QueryInput.apiUrl env ++ "/api/query")
                     [ ("user_id", Some "anonymous");
                       ("text", Some (QueryInput.t env "image.analyzing"));
                       ("lang", Some (QueryInput.language env));
                       ("image_id",
                        Some (QueryInput.getPublicUrl env "farm-images" path)) ]
                   :: es'.
Proof.
  intros filePath w'. unfold w', QueryInput.uploadImageToSupabase.
  fold filePath.
  destruct (QueryInput.upload env "farm-images" filePath file) as [p | ].
  - match goal with
    | |- context [QueryInput.handleRealQuery onQuery env ?q ?i ?w0] =>
        destruct (handleRealQuery_trace q i w0) as (es & Et & Ex)
    end.
    simpl in *. rewrite Et, Ex, <- !app_assoc. simpl.
    eexists. split; [ reflexivity | ].
    intros path E. injection E as <-. split; [ reflexivity | ].
    eexists. reflexivity.
  - simpl. rewrite <- !app_assoc. simpl.
    eexists. split; [ reflexivity | ]. intros path E. discriminate E.
Qed.

End Traces.

(** ** Traces of the treatment recommender *)

Section ChemTraces.

Variable crop : string.
Variable userId : option string.
Variable env : ChemRecommender.Env.

Lemma getRecommendation_trace symptomText imageId (s : ChemRecommender.State) :
  let s' :=
    ChemRecommender.getRecommendation crop userId env symptomText imageId s in
  exists es,
    ChemRecommender.trace s'
    = (ChemRecommender.trace s
       ++ Fetch (ChemRecommender.apiUrl env ++ "/api/chem-reco")
            [ ("crop", Some (ChemRecommender.crop_or_general crop));
              ("symptom", Some symptomText);
              ("image_id", imageId);
              ("user_id", userId) ] :: es)%list
    /\ ChemRecommender.imageUrl s' = ChemRecommender.imageUrl s.
Proof.
  unfold ChemRecommender.getRecommendation.
  destruct (ChemRecommender.chemEndpoint env) as [ | [ | ] [data | ]];
    simpl; rewrite <- ?app_assoc; simpl; eexists; split; reflexivity.
Qed.

(** The storage path of the recommender: the user identifier when there
    is a non-empty one, else [anonymous]. *)
Lemma handleImageUpload_valid (file : File) (s : ChemRecommender.State) :
  JS.startsWith (type file) "image/" = true ->
  (size file <= 5 * 1024 * 1024)%N ->
  let namespace :=
    match userId with
    | Some u => if JS.truthy u then u else "anonymous"
    | None => "anonymous"
    end in
  let filePath :=
    namespace ++ "/" ++ JS.showN (ChemRecommender.now env) ++ "-" ++ name file in
  let s' := ChemRecommender.handleImageUpload crop userId env file s in
  exists es,
    ChemRecommender.trace s'
    = (ChemRecommender.trace s
       ++ StorageUpload "farm-images" filePath file :: es)%list
    /\ forall path,
         ChemRecommender.upload env "farm-images" filePath file = Some path ->
         let publicUrl :=
           ChemRecommender.getPublicUrl env "farm-images" path in
         ChemRecommender.imageUrl s' = Some publicUrl
         /\ exists es',
              es = Fetch (ChemRecommender.apiUrl env ++ "/api/chem-reco")
                     [ ("crop", Some (ChemRecommender.crop_or_general crop));
                       ("symptom",
                        Some "Image analysis for crop disease detection");
                       ("image_id", Some publicUrl);
                       ("user_id", userId) ] :: es'.
Proof.
  intros T S namespace filePath s'.
  unfold s', ChemRecommender.handleImageUpload. rewrite T. simpl negb.
  assert ((5 * 1024 * 1024 <? size file)%N = false) as -> by
    (apply N.ltb_ge; exact S).
  cbv iota.
  assert (match userId with
          | Some u =>
              if JS.truthy u
              then u ++ "/" ++ JS.showN (ChemRecommender.now env) ++ "-" ++ name file
              else "anonymous/" ++ JS.showN (ChemRecommender.now env) ++ "-" ++ name file
          | None =>
              "anonymous/" ++ JS.showN (ChemRecommender.now env) ++ "-" ++ name file
          end = filePath) as ->.
  { unfold filePath, namespace.
    destruct userId as [u | ]; [ destruct (JS.truthy u) | ]; reflexivity. }
  destruct (ChemRecommender.upload env "farm-images" filePath file) as [p | ].
  - match goal with
    | |- context [ChemRecommender.getRecommendation crop userId env ?q ?i ?s0] =>
        destruct (getRecommendation_trace q i s0) as (es & Et & Eu)
    end.
    simpl in *. rewrite Et, Eu, <- !app_assoc. simpl.
    eexists. split; [ reflexivity | ].
    intros path E. injection E as <-. split; [ reflexivity | ].
    eexists. reflexivity.
  - simpl. rewrite <- !app_assoc. simpl.
    eexists. split; [ reflexivity | ]. intros path E. discriminate E.
Qed.

End ChemTraces.

(** ** Validation of a selected image *)

(** C6.  In the query input and in the treatment recommender alike, a
    selected file whose MIME type does not start with [image/], or whose
    size exceeds 5 * 1024 * 1024 bytes, is rejected with one toast and
    nothing else: no storage upload and no request is added to the trace,
    and the state is otherwise unchanged.  The message for a wrong type
    differs from the message for an oversized file.  A file of an image type
    of at most 5 * 1024 * 1024 bytes proceeds to the storage upload, which is
    the first effect that follows. *)
Theorem image_validation {P : Type}
    (onQuery : string -> option File -> option Options.t -> P -> P * list Effect)
    (env : QueryInput.Env)
    (crop : string) (userId : option string) (cenv : ChemRecommender.Env)
    (file : File) (w : QueryInput.World P) (s : ChemRecommender.State) :
  let w' := QueryInput.handleImageUpload onQuery env (Some file) w in
  let s' := ChemRecommender.handleImageUpload crop userId cenv file s in
  let t := I18n.t (QueryInput.language env) in
  let limit := (5 * 1024 * 1024)%N in
  (JS.startsWith (type file) "image/" = false ->
     w' = QueryInput.emit
            (Toast (t "image.error") (t "image.invalidType") true) w
     /\ s' = ChemRecommender.emit
               (Toast "Invalid file" "Please upload an image file" true) s)
  /\ (JS.startsWith (type file) "image/" = true -> (limit < size file)%N ->
        w' = QueryInput.emit
               (Toast (t "image.error") (t "image.tooLarge") true) w
        /\ s' = ChemRecommender.emit
                  (Toast "File too large"
                         "Please upload an image smaller than 5MB" true) s)
  /\ (JS.startsWith (type file) "image/" = false \/ (limit < size file)%N ->
        filter is_network (QueryInput.trace w')
        = filter is_network (QueryInput.trace w)
        /\ filter is_network (ChemRecommender.trace s')
           = filter is_network (ChemRecommender.trace s))
  /\ t "image.invalidType" <> t "image.tooLarge"
  /\ "Please upload an image file" <> "Please upload an image smaller than 5MB"
  /\ (JS.startsWith (type file) "image/" = true -> (size file <= limit)%N ->
        exists path path' es es',
          QueryInput.trace w'
          = (QueryInput.trace w
             ++ StorageUpload "farm-images" path file :: es)%list
          /\ ChemRecommender.trace s'
             = (ChemRecommender.trace s
                ++ StorageUpload "farm-images" path' file :: es')%list).
Proof.
  intros w' s' t limit.
  assert (JS.startsWith (type file) "image/" = false ->
          w' = QueryInput.emit
                 (Toast (t "image.error") (t "image.invalidType") true) w
          /\ s' = ChemRecommender.emit
                    (Toast "Invalid file" "Please upload an image file" true) s)
    as Invalid.
  { intros T. unfold w', s', QueryInput.handleImageUpload,
      ChemRecommender.handleImageUpload. rewrite T. split; reflexivity. }
  assert (JS.startsWith (type file) "image/" = true -> (limit < size file)%N ->
          w' = QueryInput.emit
                 (Toast (t "image.error") (t "image.tooLarge") true) w
          /\ s' = ChemRecommender.emit
                    (Toast "File too large"
                           "Please upload an image smaller than 5MB" true) s)
    as Large.
  { intros T S. unfold w', s', QueryInput.handleImageUpload,
      ChemRecommender.handleImageUpload. rewrite T. simpl negb. cbv iota.
    apply N.ltb_lt in S. unfold limit in S. rewrite S. split; reflexivity. }
  split; [ exact Invalid | ]. split; [ exact Large | ].
  split; [ | split; [ apply StringFacts.image_messages_distinct | split ] ].
  - intros R.
    assert ((w' = QueryInput.emit
                    (Toast (t "image.error") (t "image.invalidType") true) w
             /\ s' = ChemRecommender.emit
                       (Toast "Invalid file" "Please upload an image file" true) s)
            \/ (w' = QueryInput.emit
                       (Toast (t "image.error") (t "image.tooLarge") true) w
                /\ s' = ChemRecommender.emit
                          (Toast "File too large"
                                 "Please upload an image smaller than 5MB" true)
                          s)) as [[-> ->] | [-> ->]].
    { destruct (JS.startsWith (type file) "image/") eqn:T.
      - destruct R as [R | R]; [ discriminate R | right; auto ].
      - left; auto. }
    + simpl. rewrite !filter_app. simpl. rewrite !app_nil_r. auto.
    + simpl. rewrite !filter_app. simpl. rewrite !app_nil_r. auto.
  - discriminate.
  - intros T S.
    destruct (uploadImageToSupabase_trace onQuery env file w) as (es & E & _).
    destruct (handleImageUpload_valid crop userId cenv file s T S)
      as (es' & E' & _).
    do 2 eexists. exists es, es'. split; [ | exact E' ].
    unfold w', QueryInput.handleImageUpload. rewrite T. simpl negb. cbv iota.
    assert ((5 * 1024 * 1024 <? size file)%N = false) as -> by
      (apply N.ltb_ge; exact S).
    exact E.
Qed.

Lemma image_validation_witness :
  let file := mkFile "field.jpg" "image/jpeg" (6 * 1024 * 1024) in
  let env :=
    QueryInput.mkEnv 1723 "2025-08-17T12:18:06.000Z" "en" None
      (fun _ p _ => Some p) (fun _ p => p) NetworkError true true in
  let w := QueryInput.mkWorld "" false None Index.initial [] in
  JS.startsWith (type file) "image/" = true
  /\ (5 * 1024 * 1024 < size file)%N
  /\ QueryInput.handleImageUpload Index.handleQuery env (Some file) w
     = QueryInput.emit
         (Toast "Image upload error" "Image file too large (max 5MB)" true) w.
Proof.
  intros file env w.
  assert (JS.startsWith (type file) "image/" = true) as T by reflexivity.
  assert (5 * 1024 * 1024 < size file)%N as S by reflexivity.
  split; [ exact T | ]. split; [ exact S | ].
  exact (proj1 (proj1 (proj2
           (image_validation Index.handleQuery env "tomato" None
              (ChemRecommender.mkEnv 1723 None (fun _ p _ => Some p)
                 (fun _ p => p) NetworkError)
              file w
              (ChemRecommender.mkState "" JNull false 0 None [])))
           T S)).
Defined.

(** ** The storage path of an uploaded image *)

(** C8, as amended.  After a successful upload the public URL of the stored
    path becomes the image reference of the request that follows.  The
    treatment recommender stores the file under the user identifier, or under
    [anonymous] when the identifier is absent or empty, keeps the URL as its
    image and asks for a recommendation with the fixed text "Image analysis
    for crop disease detection".  The query input stores the file under the
    fixed folder [uploads], sets its text to the translated placeholder
    [image.analyzing] and submits that text. *)
Theorem upload_then_submit {P : Type}
    (onQuery : string -> option File -> option Options.t -> P -> P * list Effect)
    (env : QueryInput.Env)
    (crop : string) (userId : option string) (cenv : ChemRecommender.Env)
    (file : File) (stored stored' : string)
    (w : QueryInput.World P) (s : ChemRecommender.State) :
  let namespace :=
    match userId with
    | Some u => if JS.truthy u then u else "anonymous"
    | None => "anonymous"
    end in
  let chemPath :=
    namespace ++ "/" ++ JS.showN (ChemRecommender.now cenv) ++ "-" ++ name file in
  let inputPath :=
    "uploads/" ++ JS.showN (QueryInput.now env) ++ "-" ++ name file in
  JS.startsWith (type file) "image/" = true ->
  (size file <= 5 * 1024 * 1024)%N ->
  ChemRecommender.upload cenv "farm-images" chemPath file = Some stored ->
  QueryInput.upload env "farm-images" inputPath file = Some stored' ->
  let s' := ChemRecommender.handleImageUpload crop userId cenv file s in
  let w' := QueryInput.handleImageUpload onQuery env (Some file) w in
  let chemUrl := ChemRecommender.getPublicUrl cenv "farm-images" stored in
  let inputUrl := QueryInput.getPublicUrl env "farm-images" stored' in
  (exists es,
     ChemRecommender.trace s'
     = (ChemRecommender.trace s
        ++ StorageUpload "farm-images" chemPath file
           :: Fetch (ChemRecommender.apiUrl cenv ++ "/api/chem-reco")
                [ ("crop", Some (ChemRecommender.crop_or_general crop));
                  ("symptom", Some "Image analysis for crop disease detection");
                  ("image_id", Some chemUrl);
                  ("user_id", userId) ]
           :: es)%list)
  /\ ChemRecommender.imageUrl s' = Some chemUrl
  /\ (exists es,
        QueryInput.trace w'
        = (QueryInput.trace w
           ++ StorageUpload "farm-images" inputPath file
              :: Fetch (QueryInput.apiUrl env ++ "/api/query")
                   [ ("user_id", Some "anonymous");
                     ("text", Some (I18n.t (QueryInput.language env)
                                      "image.analyzing"));
                     ("lang", Some (QueryInput.language env));
                     ("image_id", Some inputUrl) ]
              :: es)%list)
  /\ QueryInput.text w' = I18n.t (QueryInput.language env) "image.analyzing".
Proof.
  intros namespace chemPath inputPath T S U U' s' w' chemUrl inputUrl.
  destruct (handleImageUpload_valid crop userId cenv file s T S)
    as (es & E & K).
  destruct (K stored U) as (Ei & es' & ->).
  destruct (uploadImageToSupabase_trace onQuery env file w) as (fs & F & L).
  destruct (L stored' U') as (Ft & fs' & ->).
  assert (w' = QueryInput.uploadImageToSupabase onQuery env file w) as ->.
  { unfold w', QueryInput.handleImageUpload. rewrite T. simpl negb. cbv iota.
    assert ((5 * 1024 * 1024 <? size file)%N = false) as -> by
      (apply N.ltb_ge; exact S).
    reflexivity. }
  split; [ exists es'; exact E | ]. split; [ exact Ei | ].
  split; [ exists fs'; exact F | exact Ft ].
Qed.

Lemma upload_then_submit_witness :
  let file := mkFile "leaf.png" "image/png" 2048 in
  let env :=
    QueryInput.mkEnv 1723 "2025-08-17T12:18:06.000Z" "en" None
      (fun _ p _ => Some p) (fun b p => "https://cdn.example/" ++ b ++ "/" ++ p)
      NetworkError true true in
  let cenv :=
    ChemRecommender.mkEnv 1723 None (fun _ p _ => Some p)
      (fun b p => "https://cdn.example/" ++ b ++ "/" ++ p) NetworkError in
  let s := ChemRecommender.mkState "" JNull false 0 None [] in
  let w := QueryInput.mkWorld "" false None Index.initial [] in
  JS.startsWith (type file) "image/" = true
  /\ (size file <= 5 * 1024 * 1024)%N
  /\ ChemRecommender.imageUrl
       (ChemRecommender.handleImageUpload "tomato" (Some "farmer-7") cenv file s)
     = Some "https://cdn.example/farm-images/farmer-7/1723-leaf.png".
Proof.
  intros file env cenv s w.
  assert (JS.startsWith (type file) "image/" = true) as T by reflexivity.
  assert (size file <= 5 * 1024 * 1024)%N as S by (vm_compute; discriminate).
  split; [ exact T | ]. split; [ exact S | ].
  exact (proj1 (proj2
           (upload_then_submit Index.handleQuery env "tomato" (Some "farmer-7")
              cenv file "farmer-7/1723-leaf.png" "uploads/1723-leaf.png" w s
              T S eq_refl eq_refl))).
Defined.

(** C8, as stated, fails: the query input stores an uploaded image under
    [uploads/], which is neither the anonymous namespace nor the user
    identifier that the component sends (the constant "anonymous"). *)
Lemma query_input_upload_not_namespaced :
  let file := mkFile "leaf.png" "image/png" 2048 in
  let env :=
    QueryInput.mkEnv 1723 "2025-08-17T12:18:06.000Z" "en" None
      (fun _ p _ => Some p) (fun b p => "https://cdn.example/" ++ b ++ "/" ++ p)
      NetworkError true true in
  let w := QueryInput.mkWorld "" false None Index.initial [] in
  let w' := QueryInput.handleImageUpload Index.handleQuery env (Some file) w in
  In (StorageUpload "farm-images" "uploads/1723-leaf.png" file)
     (QueryInput.trace w')
  /\ ~ (exists path,
          In (StorageUpload "farm-images" path file) (QueryInput.trace w')
          /\ JS.startsWith path "anonymous/" = true).
Proof.
  intros file env w w'. split; [ left; reflexivity | ].
  intros (path & I & N). vm_compute in I.
  destruct I as [I | [I | [I | [I | []]]]]; try discriminate I.
  injection I as <-. discriminate N.
Qed.

(** * The rest of the components: properties *)

(** ** Facts about [trim] and [split] *)

Module TextFacts.

Import Text.

Lemma length_ind (Q : string -> Prop) :
  (forall s,
     (forall s', (String.length s' < String.length s)%nat -> Q s') -> Q s) ->
  forall s, Q s.
Proof.
  intros H s. remember (String.length s) as n eqn:E. revert s E.
  induction n as [n IH] using lt_wf_ind. intros s ->.
  apply H. intros s' L. exact (IH _ L s' eq_refl).
Qed.

Lemma append_assoc (s1 s2 s3 : string) : (s1 ++ s2) ++ s3 = s1 ++ s2 ++ s3.
Proof. induction s1 as [ | c s1 IH]; simpl; [ | rewrite IH ]; reflexivity. Qed.

Lemma append_empty_r (s : string) : s ++ "" = s.
Proof. induction s as [ | c s IH]; simpl; [ | rewrite IH ]; reflexivity. Qed.

Lemma reverse_onto_app (s acc : string) :
  reverse_onto s acc = reverse s ++ acc.
Proof.
  unfold reverse. revert acc.
  induction s as [ | c s IH]; intros acc; simpl; [ reflexivity | ].
  rewrite (IH (String c acc)), (IH (String c "")).
  rewrite append_assoc. reflexivity.
Qed.

Lemma reverse_app (s1 s2 : string) :
  reverse (s1 ++ s2) = reverse s2 ++ reverse s1.
Proof.
  induction s1 as [ | c s1 IH]; simpl.
  - rewrite append_empty_r. reflexivity.
  - unfold reverse at 1 3. simpl. rewrite !reverse_onto_app, IH.
    rewrite append_assoc. reflexivity.
Qed.

Lemma reverse_involutive (s : string) : reverse (reverse s) = s.
Proof.
  induction s as [ | c s IH]; [ reflexivity | ].
  unfold reverse at 2. simpl. rewrite reverse_onto_app, reverse_app, IH.
  reflexivity.
Qed.

Section Strip.

Variable w1 : ascii -> bool.
Variable w2 : ascii -> ascii -> bool.
Variable w3 : ascii -> ascii -> ascii -> bool.

(** What [strip] returns is the end of its argument. *)
Lemma strip_suffix (s : string) : exists pre, s = pre ++ strip w1 w2 w3 s.
Proof.
  induction s as [s IH] using length_ind.
  destruct s as [ | a [ | b [ | c s3]]]; simpl.
  - exists "". reflexivity.
  - destruct (w1 a); [ exists (String a ""); reflexivity | exists ""; reflexivity ].
  - destruct (w1 a).
    + destruct (IH (String b "")) as [pre E]; [ simpl; lia | ].
      exists (String a pre). simpl. f_equal. exact E.
    + destruct (w2 a b); [ exists (String a (String b "")) | exists "" ];
        reflexivity.
  - destruct (w1 a).
    + destruct (IH (String b (String c s3))) as [pre E]; [ simpl; lia | ].
      exists (String a pre). simpl. f_equal. exact E.
    + destruct (w2 a b).
      * destruct (IH (String c s3)) as [pre E]; [ simpl; lia | ].
        exists (String a (String b pre)). simpl. do 2 f_equal. exact E.
      * destruct (w3 a b c).
        -- destruct (IH s3) as [pre E]; [ simpl; lia | ].
           exists (String a (String b (String c pre))). simpl.
           do 3 f_equal. exact E.
        -- exists "". reflexivity.
Qed.

(** What [strip] returns starts with none of the characters. *)
Lemma strip_clean (s : string) : leading w1 w2 w3 (strip w1 w2 w3 s) = false.
Proof.
  induction s as [s IH] using length_ind.
  destruct s as [ | a [ | b [ | c s3]]]; simpl.
  - reflexivity.
  - destruct (w1 a) eqn:A; simpl; [ reflexivity | rewrite A; reflexivity ].
  - destruct (w1 a) eqn:A.
    + apply (IH (String b "")). simpl; lia.
    + destruct (w2 a b) eqn:B; simpl; [ reflexivity | ].
      rewrite A, B. reflexivity.
  - destruct (w1 a) eqn:A.
    + apply (IH (String b (String c s3))). simpl; lia.
    + destruct (w2 a b) eqn:B.
      * apply (IH (String c s3)). simpl; lia.
      * destruct (w3 a b c) eqn:C.
        -- apply (IH s3). simpl; lia.
        -- simpl. rewrite A, B, C. reflexivity.
Qed.

(** A string that starts with none of the characters is kept. *)
Lemma strip_kept (s : string) :
  leading w1 w2 w3 s = false -> strip w1 w2 w3 s = s.
Proof.
  destruct s as [ | a [ | b [ | c s3]]]; simpl; intros L;
    repeat match goal with
      | H : (_ || _)%bool = false |- _ =>
          apply orb_false_iff in H; destruct H
      end;
    repeat match goal with H : _ = false |- _ => rewrite H end;
    reflexivity.
Qed.

Lemma strip_idempotent (s : string) :
  strip w1 w2 w3 (strip w1 w2 w3 s) = strip w1 w2 w3 s.
Proof. apply strip_kept, strip_clean. Qed.

(** A start of a string that begins with one of the characters begins the
    string with it. *)
Lemma leading_prefix (p q : string) :
  leading w1 w2 w3 p = true -> leading w1 w2 w3 (p ++ q) = true.
Proof.
  destruct p as [ | a [ | b [ | c p3]]]; simpl; intros L.
  - discriminate L.
  - rewrite orb_false_r in L. rewrite L. reflexivity.
  - rewrite orb_false_r in L.
    apply orb_true_iff in L as [-> | L]; [ reflexivity | ].
    destruct q; rewrite L; simpl; rewrite ?orb_true_r; reflexivity.
  - exact L.
Qed.

End Strip.

(** The start patterns exclude one another. *)
Lemma white2_lead (a b : ascii) : white2 a b = true -> white1 a = false.
Proof.
  unfold white2, white1. intros H.
  apply andb_true_iff in H as [H _]. apply N.eqb_eq in H. rewrite H.
  reflexivity.
Qed.

Lemma white3_lead (a b c : ascii) :
  white3 a b c = true -> white1 a = false /\ white2 a b = false.
Proof.
  unfold white3, white2, white1. intros H.
  assert (N_of_ascii a = 225 \/ N_of_ascii a = 226 \/ N_of_ascii a = 227
          \/ N_of_ascii a = 239)%N as X.
  { repeat (apply orb_true_iff in H; destruct H as [H | H]);
      repeat (apply andb_true_iff in H; destruct H as [H _]);
      apply N.eqb_eq in H; auto. }
  destruct X as [-> | [-> | [-> | ->]]]; split; reflexivity.
Qed.

Lemma blank_app (s1 s2 : string) : blank s1 -> blank s2 -> blank (s1 ++ s2).
Proof.
  intros B1 B2. induction B1; simpl; [ exact B2 | | | ].
  - apply blank_one; assumption.
  - apply blank_two; assumption.
  - apply blank_three; assumption.
Qed.

Lemma blank_leading (s : string) :
  blank s -> s <> "" -> leading white1 white2 white3 s = true.
Proof.
  intros B N. destruct B; simpl.
  - congruence.
  - rewrite H. reflexivity.
  - rewrite H, orb_true_r. reflexivity.
  - rewrite H, !orb_true_r. reflexivity.
Qed.

(** White space at the start is removed entirely. *)
Lemma trimStart_blank (s : string) : blank s -> trimStart s = "".
Proof.
  unfold trimStart. intros B. induction B; simpl.
  - reflexivity.
  - rewrite H. exact IHB.
  - rewrite (white2_lead _ _ H), H. exact IHB.
  - destruct (white3_lead _ _ _ H) as [-> ->]. rewrite H. exact IHB.
Qed.

Lemma trimStart_empty (s : string) : trimStart s = "" -> blank s.
Proof.
  unfold trimStart. induction s as [s IH] using length_ind.
  destruct s as [ | a [ | b [ | c s3]]]; simpl.
  - intros _. constructor.
  - destruct (white1 a) eqn:A; [ | discriminate ].
    intros _. apply blank_one; [ exact A | constructor ].
  - destruct (white1 a) eqn:A.
    + intros E. apply blank_one; [ exact A | ].
      apply IH; [ simpl; lia | exact E ].
    + destruct (white2 a b) eqn:B; [ | discriminate ].
      intros _. apply blank_two; [ exact B | constructor ].
  - destruct (white1 a) eqn:A.
    + intros E. apply blank_one; [ exact A | ].
      apply IH; [ simpl; lia | exact E ].
    + destruct (white2 a b) eqn:B.
      * intros E. apply blank_two; [ exact B | ].
        apply IH; [ simpl; lia | exact E ].
      * destruct (white3 a b c) eqn:C; [ | discriminate ].
        intros E. apply blank_three; [ exact C | ].
        apply IH; [ simpl; lia | exact E ].
Qed.

(** Read backwards, a string that is removed entirely is white space. *)
Lemma strip_backwards_empty (r : string) :
  strip white1 (fun a b => white2 b a) (fun a b c => white3 c b a) r = "" ->
  blank (reverse r).
Proof.
  induction r as [r IH] using length_ind.
  assert (forall a, white1 a = true -> blank (String a "")) as One
    by (intros; apply blank_one; [ assumption | constructor ]).
  assert (forall a b, white2 b a = true -> blank (String b (String a "")))
    as Two by (intros; apply blank_two; [ assumption | constructor ]).
  assert (forall a b c, white3 c b a = true ->
                        blank (String c (String b (String a ""))))
    as Three by (intros; apply blank_three; [ assumption | constructor ]).
  destruct r as [ | a [ | b [ | c r3]]]; simpl.
  - intros _. constructor.
  - destruct (white1 a) eqn:A; [ | discriminate ]. intros _. exact (One a A).
  - destruct (white1 a) eqn:A.
    + intros E. change (String a (String b "")) with (String a "" ++ String b "").
      rewrite reverse_app. apply blank_app; [ | exact (One a A) ].
      apply IH; [ simpl; lia | exact E ].
    + destruct (white2 b a) eqn:B; [ | discriminate ]. intros _.
      exact (Two a b B).
  - destruct (white1 a) eqn:A.
    + intros E.
      change (String a (String b (String c r3)))
        with (String a "" ++ String b (String c r3)).
      rewrite reverse_app. apply blank_app; [ | exact (One a A) ].
      apply IH; [ simpl; lia | exact E ].
    + destruct (white2 b a) eqn:B.
      * intros E.
        change (String a (String b (String c r3)))
          with (String a (String b "") ++ String c r3).
        rewrite reverse_app. apply blank_app; [ | exact (Two a b B) ].
        apply IH; [ simpl; lia | exact E ].
      * destruct (white3 c b a) eqn:C; [ | discriminate ].
        intros E.
        change (String a (String b (String c r3)))
          with (String a (String b (String c "")) ++ r3).
        rewrite reverse_app. apply blank_app; [ | exact (Three a b c C) ].
        apply IH; [ simpl; lia | exact E ].
Qed.

(** What [trimEnd] returns is the start of its argument. *)
Lemma trimEnd_prefix (s : string) : exists post, s = trimEnd s ++ post.
Proof.
  unfold trimEnd.
  destruct (strip_suffix white1 (fun a b => white2 b a)
              (fun a b c => white3 c b a) (reverse s)) as [pre E].
  exists (reverse pre).
  rewrite <- reverse_app, <- E, reverse_involutive. reflexivity.
Qed.

Lemma trimEnd_idempotent (s : string) : trimEnd (trimEnd s) = trimEnd s.
Proof.
  unfold trimEnd. rewrite reverse_involutive, strip_idempotent. reflexivity.
Qed.

(** [trim] leaves no white space at the start. *)
Lemma trim_clean_start (s : string) :
  leading white1 white2 white3 (trim s) = false.
Proof.
  unfold trim.
  destruct (trimEnd_prefix (trimStart s)) as [post E].
  destruct (leading white1 white2 white3 (trimEnd (trimStart s))) eqn:L;
    [ | reflexivity ].
  pose proof (leading_prefix white1 white2 white3 _ post L) as L'.
  rewrite <- E in L'. unfold trimStart in L'.
  rewrite strip_clean in L'. discriminate L'.
Qed.

Lemma trim_idempotent (s : string) : trim (trim s) = trim s.
Proof.
  unfold trim at 1. unfold trimStart at 1.
  rewrite (strip_kept _ _ _ _ (trim_clean_start s)).
  unfold trim. apply trimEnd_idempotent.
Qed.

(** [trim] returns the empty string exactly on white space. *)
Lemma trim_empty_iff (s : string) : trim s = "" <-> blank s.
Proof.
  split.
  - intros E. apply trimStart_empty.
    pose proof (trim_clean_start s) as C. unfold trim in C, E.
    assert (blank (trimStart s)) as B.
    { rewrite <- (reverse_involutive (trimStart s)).
      apply strip_backwards_empty.
      unfold trimEnd in E.
      rewrite <- (reverse_involutive
                    (strip white1 (fun a b => white2 b a)
                       (fun a b c => white3 c b a) (reverse (trimStart s)))).
      rewrite E. reflexivity. }
    destruct (trimStart s) as [ | a x] eqn:X; [ reflexivity | exfalso ].
    assert (leading white1 white2 white3 (String a x) = true) as L
      by (apply blank_leading; [ exact B | discriminate ]).
    unfold trimStart in X.
    pose proof (strip_clean white1 white2 white3 s) as K.
    rewrite X in K. congruence.
  - intros B. unfold trim. rewrite (trimStart_blank s B). reflexivity.
Qed.

(** [split] always returns a piece. *)
Lemma split_nonempty (sep : ascii) (s : string) : split sep s <> [].
Proof.
  induction s as [ | c s IH]; simpl; [ discriminate | ].
  destruct (Ascii.eqb c sep); [ discriminate | ].
  destruct (split sep s); discriminate.
Qed.

Example trim_examples :
  trim "  Leaf spots on tomato " = "Leaf spots on tomato"
  /\ trim (String "009" (String "010" " ")) = ""
  /\ trim (String "194" (String "160" "a b" ++ String "226" (String "128"
            (String "168" "")))) = "a b"
  /\ split "," "tomato, karnataka,,planting"
     = ["tomato"; " karnataka"; ""; "planting"]
  /\ split "," "" = [""].
Proof. repeat split. Qed.

End TextFacts.

(** ** Submitting a text *)

Section Requests.

Context {P : Type}.
Variable onQuery :
  string -> option File -> option Options.t -> P -> P * list Effect.
Variable env : QueryInput.Env.

(** The requests of a run of [handleRealQuery] are its own request and
    those of the page handler. *)
Lemma handleRealQuery_network queryText imageId (w : QueryInput.World P) :
  exists imageFile options,
    filter is_network
      (QueryInput.trace
         (QueryInput.handleRealQuery onQuery env queryText imageId w))
    = (filter is_network (QueryInput.trace w)
       ++ QueryInput.request env queryText imageId
          :: filter is_network
               (snd (onQuery queryText imageFile options (QueryInput.page w))))%list.
Proof.
  destruct (handleRealQuery_call onQuery (QueryInput.queryEndpoint env)
              queryText imageId) as (f & o & c & E).
  rewrite (E env w eq_refl). cbv zeta.
  destruct (arrival_frame env queryText imageId c w)
    as (Ep & _ & _ & _ & En & _).
  exists f, o. unfold QueryInput.callOnQuery. rewrite Ep.
  destruct (onQuery queryText f o (QueryInput.page w)) as [p' es].
  simpl. rewrite filter_app, En, <- app_assoc. reflexivity.
Qed.

(** The storage after a run of [handleRealQuery]. *)
Lemma handleRealQuery_storage queryText imageId (w : QueryInput.World P) :
  IDB.well_formed (QueryInput.storage w) ->
  let w' := QueryInput.handleRealQuery onQuery env queryText imageId w in
  let stored :=
    match delivered (QueryInput.queryEndpoint env) with
    | Some _ => QueryInput.idbOpens env && QueryInput.idbAccepts env
    | None => false
    end in
  IDB.well_formed (QueryInput.storage w')
  /\ exists added,
       IDB.entries (QueryInput.storage w')
       = (IDB.entries (QueryInput.storage w) ++ added)%list
       /\ map fst added
          = (if stored then [IDB.generator (QueryInput.storage w)] else [])
       /\ IDB.generator (QueryInput.storage w')
          = (IDB.generator (QueryInput.storage w)
             + N.of_nat (List.length added))%N
       /\ map snd added
          = match delivered (QueryInput.queryEndpoint env) with
            | Some v =>
                if QueryInput.idbOpens env && QueryInput.idbAccepts env
                then [ mkLogEntry queryText v (QueryInput.isoNow env)
                         (QueryInput.language env) ]
                else []
            | None => []
            end.
Proof.
  intros WF w' stored. unfold w', stored.
  destruct (handleRealQuery_call onQuery (QueryInput.queryEndpoint env)
              queryText imageId) as (f & o & c & E).
  rewrite (E env w eq_refl), callOnQuery_storage. cbv zeta.
  destruct (arrival_frame env queryText imageId c w)
    as (_ & _ & _ & _ & _ & Es).
  cbv zeta in Es. rewrite Es. clear Es E.
  destruct (delivered (QueryInput.queryEndpoint env)) as [r | ] eqn:D.
  - destruct (log_storage env queryText r
                (QueryInput.emit (QueryInput.request env queryText imageId) w)
                WF) as [WF' H].
    split; [ exact WF' | ].
    destruct (QueryInput.idbOpens env && QueryInput.idbAccepts env).
    + destruct H as (E & G & _). eexists. split; [ exact E | ].
      split; [ reflexivity | ]. simpl in *. rewrite G.
      split; reflexivity.
    + destruct H as (E & G). exists []. rewrite app_nil_r.
      split; [ exact E | ]. split; [ reflexivity | ].
      simpl in *. rewrite G. split; [ lia | reflexivity ].
  - split; [ exact WF | ]. exists []. rewrite app_nil_r. simpl.
    repeat split. lia.
Qed.

End Requests.

(** None of the three page handlers sends a request. *)
Lemma page_handlers_send_nothing :
  (forall q f o p, filter is_network (snd (Index.handleQuery q f o p)) = [])
  /\ (forall q f o p, filter is_network (snd (IndexSimple.onQuery q f o p)) = [])
  /\ (forall q f o p, filter is_network (snd (QueryPage.handleQuery q f o p)) = []).
Proof.
  split; [ | split ]; intros q f o p.
  - unfold Index.handleQuery.
    destruct o as [[flag [r | ]] | ]; simpl;
      try destruct (truthy_value r); reflexivity.
  - reflexivity.
  - unfold QueryPage.handleQuery.
    destruct (options_result o) as [r | ];
      try destruct (truthy_value r); reflexivity.
Qed.

(** X1.  The submit handler of the query input does nothing when the text
    is white space only (or empty), while the page is loading or while an
    image is being uploaded; otherwise it runs the query on the trimmed
    text, without an image, and the text it sends has no white space at
    either end.  A key other than Enter, or Enter with Shift, submits
    nothing. *)
Theorem submit_guard {P : Type} (isLoading : P -> bool)
    (onQuery : string -> option File -> option Options.t -> P -> P * list Effect)
    (env : QueryInput.Env) (w : QueryInput.World P) :
  let w' := QueryForm.handleSubmit isLoading onQuery env w in
  let sent := Text.trim (QueryInput.text w) in
  (Text.blank (QueryInput.text w) \/ isLoading (QueryInput.page w) = true
   \/ QueryInput.uploadingImage w = true -> w' = w)
  /\ (~ Text.blank (QueryInput.text w) ->
      isLoading (QueryInput.page w) = false ->
      QueryInput.uploadingImage w = false ->
      w' = QueryInput.handleRealQuery onQuery env sent None w
      /\ sent <> "" /\ Text.trim sent = sent
      /\ exists es,
           QueryInput.trace w'
           = (QueryInput.trace w
              ++ QueryInput.request env sent None :: es)%list)
  /\ (forall key shiftKey,
        key <> "Enter" \/ shiftKey = true ->
        QueryForm.handleKeyPress isLoading onQuery env key shiftKey w = w)
  /\ QueryForm.handleKeyPress isLoading onQuery env "Enter" false w = w'.
Proof.
  intros w' sent. unfold w', QueryForm.handleSubmit. fold sent.
  split; [ | split; [ | split ] ].
  - intros [B | [L | U]].
    + apply TextFacts.trim_empty_iff in B. unfold sent. rewrite B. reflexivity.
    + rewrite L, andb_false_r. reflexivity.
    + rewrite U, andb_false_r. reflexivity.
  - intros NB L U. rewrite L, U.
    assert (sent <> "") as NE
      by (intros E; apply NB, TextFacts.trim_empty_iff; exact E).
    destruct sent as [ | a x] eqn:S; [ congruence | ]. simpl.
    split; [ reflexivity | ]. split; [ discriminate | ].
    split; [ rewrite <- S; apply TextFacts.trim_idempotent | ].
    destruct (handleRealQuery_trace onQuery env (String a x) None w)
      as (es & E & _).
    exists es. exact E.
  - intros key shiftKey H. unfold QueryForm.handleKeyPress.
    destruct H as [H | ->]; [ | rewrite andb_false_r; reflexivity ].
    destruct (String.eqb_spec key "Enter"); [ contradiction | reflexivity ].
  - reflexivity.
Qed.

Lemma submit_guard_witness :
  let env :=
    QueryInput.mkEnv 1723 "2025-08-17T12:18:06.000Z" "en" None
      (fun _ _ _ => None) (fun _ p => p) NetworkError true true in
  let w := QueryInput.mkWorld "  When to irrigate? " false None Index.initial [] in
  ~ Text.blank (QueryInput.text w)
  /\ QueryForm.handleSubmit Index.isLoading Index.handleQuery env w
     = QueryInput.handleRealQuery Index.handleQuery env "When to irrigate?"
         None w.
Proof.
  intros env w.
  assert (~ Text.blank (QueryInput.text w)) as NB.
  { intros B. apply TextFacts.trim_empty_iff in B. discriminate B. }
  split; [ exact NB | ].
  exact (proj1 (proj1 (proj2 (submit_guard Index.isLoading Index.handleQuery
                                env w)) NB eq_refl eq_refl)).
Defined.

(** X2.  A run of [handleRealQuery] sends exactly one request, the POST to
    [/api/query], whether the remote call succeeds or fails: there is no
    second attempt.  (The page handler is assumed to send nothing, as the
    three page handlers do.) *)
Theorem one_request_per_submission {P : Type}
    (onQuery : string -> option File -> option Options.t -> P -> P * list Effect)
    (env : QueryInput.Env) (queryText : string) (imageId : option string)
    (w : QueryInput.World P) :
  (forall q f o p, filter is_network (snd (onQuery q f o p)) = []) ->
  filter is_network
    (QueryInput.trace
       (QueryInput.handleRealQuery onQuery env queryText imageId w))
  = (filter is_network (QueryInput.trace w)
     ++ [Fetch (QueryInput.apiUrl env ++ "/api/query")
           [ ("user_id", Some "anonymous"); ("text", Some queryText);
             ("lang", Some (QueryInput.language env));
             ("image_id", imageId) ]])%list.
Proof.
  intros Q.
  destruct (handleRealQuery_network onQuery env queryText imageId w)
    as (f & o & ->).
  rewrite Q. reflexivity.
Qed.

Lemma one_request_per_submission_witness :
  let r := mkQueryResult "Irrigate at dawn." 0.9 ["Check soil moisture"] [] in
  let env :=
    QueryInput.mkEnv 1723 "2025-08-17T12:18:06.000Z" "hi"
      (Some "https://api.example") (fun _ _ _ => None) (fun _ p => p)
      (Http false (Some (JObject r))) true true in
  let w := QueryInput.mkWorld "" false None Index.initial [] in
  (forall q f o p, filter is_network (snd (Index.handleQuery q f o p)) = [])
  /\ filter is_network
       (QueryInput.trace
          (QueryInput.handleRealQuery Index.handleQuery env "pest?" None w))
     = [Fetch "https://api.example/api/query"
          [ ("user_id", Some "anonymous"); ("text", Some "pest?");
            ("lang", Some "hi"); ("image_id", None) ]].
Proof.
  intros r env w. split; [ exact (proj1 page_handlers_send_nothing) | ].
  exact (one_request_per_submission Index.handleQuery env "pest?" None w
           (proj1 page_handlers_send_nothing)).
Defined.

(** ** The log over a session *)

(** X3.  Over any sequence of submissions the log only grows at its end:
    the entries present before are kept, in order; the entries added carry
    consecutive keys that continue the key generator, so no key is used
    twice; and there is one added entry for each submission whose remote
    call returned an [ok] response with a body that parsed while the store
    opened and accepted the write, holding the text and the parsed body of
    that submission, and none for the others.  A submission answered with
    the body [null] is among the logged ones, although the fallback
    resolves it. *)
Theorem session_log_append_only {P : Type}
    (onQuery : string -> option File -> option Options.t -> P -> P * list Effect)
    (l : list QueryForm.Submission) (w : QueryInput.World P) :
  IDB.well_formed (QueryInput.storage w) ->
  let w' := QueryForm.session onQuery l w in
  let first := IDB.generator (QueryInput.storage w) in
  let stored (s : QueryForm.Submission) :=
    match delivered (QueryInput.queryEndpoint (fst (fst s))) with
    | Some _ => QueryInput.idbOpens (fst (fst s))
                && QueryInput.idbAccepts (fst (fst s))
    | None => false
    end in
  let logged (s : QueryForm.Submission) :=
    match delivered (QueryInput.queryEndpoint (fst (fst s))) with
    | Some v =>
        if QueryInput.idbOpens (fst (fst s))
           && QueryInput.idbAccepts (fst (fst s))
        then [ mkLogEntry (snd (fst s)) v (QueryInput.isoNow (fst (fst s)))
                 (QueryInput.language (fst (fst s))) ]
        else []
    | None => []
    end in
  IDB.well_formed (QueryInput.storage w')
  /\ exists added,
       IDB.entries (QueryInput.storage w')
       = (IDB.entries (QueryInput.storage w) ++ added)%list
       /\ List.length added = List.length (filter stored l)
       /\ map fst added
          = map (fun i => (first + N.of_nat i)%N) (seq 0 (List.length added))
       /\ IDB.generator (QueryInput.storage w')
          = (first + N.of_nat (List.length added))%N
       /\ map snd added = flat_map logged l.
Proof.
  intros WF. cbv zeta. revert w WF.
  induction l as [ | [[e queryText] imageId] l IH]; intros w WF.
  - simpl. split; [ exact WF | ]. exists []. rewrite app_nil_r. simpl.
    repeat split. rewrite N.add_0_r. reflexivity.
  - simpl.
    destruct (handleRealQuery_storage onQuery e queryText imageId w WF)
      as (WF1 & a1 & E1 & K1 & G1 & S1).
    destruct (IH _ WF1) as (WF2 & a2 & E2 & L2 & K2 & G2 & S2).
    split; [ exact WF2 | ]. exists (a1 ++ a2)%list.
    split; [ rewrite E2, E1, <- app_assoc; reflexivity | ].
    rewrite G2, length_app, !map_app, K2, S1, S2. clear E1 E2 G2 K2 IH S1 S2.
    destruct (match delivered (QueryInput.queryEndpoint e) with
              | Some _ => QueryInput.idbOpens e && QueryInput.idbAccepts e
              | None => false
              end).
    + destruct a1 as [ | x [ | y a1]]; try discriminate K1.
      simpl in K1, G1. injection K1 as K1. rewrite G1.
      cbn [map List.length app seq filter]. rewrite K1, L2.
      split; [ reflexivity | ]. split; [ | split; [ lia | reflexivity ] ].
      cbn [Nat.add seq map]. f_equal; [ lia | ].
      rewrite <- seq_shift, map_map. apply map_ext. intros i. lia.
    + destruct a1 as [ | x a1]; try discriminate K1.
      simpl in G1. rewrite G1. simpl.
      split; [ exact L2 | ]. split; [ | split; [ lia | reflexivity ] ].
      apply map_ext. intros i. lia.
Qed.

Lemma session_log_append_only_witness :
  let r := mkQueryResult "Irrigate at dawn." 0.9 ["Check soil moisture"] [] in
  let ok :=
    QueryInput.mkEnv 1723 "2025-08-17T12:18:06.000Z" "en" None
      (fun _ _ _ => None) (fun _ p => p) (Http true (Some (JObject r)))
      true true in
  let down := QueryInput.withStore false true ok in
  let w := QueryInput.mkWorld "" false None Index.initial [] in
  IDB.well_formed (QueryInput.storage w)
  /\ IDB.well_formed
       (QueryInput.storage
          (QueryForm.session Index.handleQuery
             [ (ok, "a", None); (down, "b", None); (ok, "c", None) ] w)).
Proof.
  intros r ok down w. split; [ exact I | ].
  exact (proj1 (session_log_append_only Index.handleQuery
                  [ (ok, "a", None); (down, "b", None); (ok, "c", None) ] w I)).
Defined.

Example session_keys :
  let r := mkQueryResult "Irrigate at dawn." 0.9 ["Check soil moisture"] [] in
  let ok :=
    QueryInput.mkEnv 1723 "2025-08-17T12:18:06.000Z" "en" None
      (fun _ _ _ => None) (fun _ p => p) (Http true (Some (JObject r)))
      true true in
  let down := QueryInput.withStore false true ok in
  let null :=
    QueryInput.mkEnv 1724 "2025-08-17T12:18:07.000Z" "en" None
      (fun _ _ _ => None) (fun _ p => p) (Http true (Some JNull)) true true in
  let lost :=
    QueryInput.mkEnv 1725 "2025-08-17T12:18:08.000Z" "en" None
      (fun _ _ _ => None) (fun _ p => p) NetworkError true true in
  let w := QueryInput.mkWorld "" false None Index.initial [] in
  map (fun kv => (fst kv, query (snd kv), response (snd kv)))
    (IDB.entries
       (QueryInput.storage
          (QueryForm.session Index.handleQuery
             [ (ok, "a", None); (down, "b", None); (null, "c", None);
               (lost, "d", None); (ok, "e", None) ] w)))
  = [ (1%N, "a", JObject r); (2%N, "c", JNull); (3%N, "e", JObject r) ].
Proof. reflexivity. Qed.

(** ** A failed upload *)

Section UploadFailure.

Context {P : Type}.
Variable onQuery :
  string -> option File -> option Options.t -> P -> P * list Effect.

(** The world after a valid image whose upload fails. *)
Lemma handleImageUpload_failure (env : QueryInput.Env) (file : File)
    (w : QueryInput.World P) :
  let filePath :=
    "uploads/" ++ JS.showN (QueryInput.now env) ++ "-" ++ name file in
  JS.startsWith (type file) "image/" = true ->
  (size file <= 5 * 1024 * 1024)%N ->
  QueryInput.upload env "farm-images" filePath file = None ->
  QueryInput.handleImageUpload onQuery env (Some file) w
  = QueryInput.mkWorld (QueryInput.text w) false (QueryInput.storage w)
      (QueryInput.page w)
      (QueryInput.trace w
       ++ [ StorageUpload "farm-images" filePath file;
            ConsoleError "Image upload error:";
            Toast (I18n.t (QueryInput.language env) "image.error")
                  "Failed to upload image. Please try again." true ])%list.
Proof.
  intros filePath T S U.
  unfold QueryInput.handleImageUpload. rewrite T. simpl negb. cbv iota.
  assert ((5 * 1024 * 1024 <? size file)%N = false) as -> by
    (apply N.ltb_ge; exact S).
  unfold QueryInput.uploadImageToSupabase. fold filePath. rewrite U.
  unfold QueryInput.emit, QueryInput.setUploadingImage, QueryInput.t. simpl.
  rewrite <- !app_assoc. reflexivity.
Qed.

End UploadFailure.

(** X4.  When the storage refuses an image that passed the validation, the
    query input reports it with one toast and stops there: the upload is
    the only request made (no query is submitted, so no fallback result
    appears), the page, the text and the log are as before, and the
    uploading flag is off again. *)
Theorem upload_failure_reported {P : Type}
    (onQuery : string -> option File -> option Options.t -> P -> P * list Effect)
    (env : QueryInput.Env) (file : File) (w : QueryInput.World P) :
  let filePath :=
    "uploads/" ++ JS.showN (QueryInput.now env) ++ "-" ++ name file in
  JS.startsWith (type file) "image/" = true ->
  (size file <= 5 * 1024 * 1024)%N ->
  QueryInput.upload env "farm-images" filePath file = None ->
  let w' := QueryInput.handleImageUpload onQuery env (Some file) w in
  QueryInput.page w' = QueryInput.page w
  /\ QueryInput.text w' = QueryInput.text w
  /\ QueryInput.storage w' = QueryInput.storage w
  /\ QueryInput.uploadingImage w' = false
  /\ QueryInput.trace w'
     = (QueryInput.trace w
        ++ [ StorageUpload "farm-images" filePath file;
             ConsoleError "Image upload error:";
             Toast (I18n.t (QueryInput.language env) "image.error")
                   "Failed to upload image. Please try again." true ])%list.
Proof.
  intros filePath T S U w'. unfold w'.
  rewrite (handleImageUpload_failure onQuery env file w T S U).
  repeat split.
Qed.

Lemma upload_failure_reported_witness :
  let file := mkFile "leaf.png" "image/png" 2048 in
  let env :=
    QueryInput.mkEnv 1723 "2025-08-17T12:18:06.000Z" "en" None
      (fun _ _ _ => None) (fun _ p => p) NetworkError true true in
  let w := QueryInput.mkWorld "" false None Index.initial [] in
  JS.startsWith (type file) "image/" = true
  /\ (size file <= 5 * 1024 * 1024)%N
  /\ QueryInput.page
       (QueryInput.handleImageUpload Index.handleQuery env (Some file) w)
     = Index.initial.
Proof.
  intros file env w.
  assert (JS.startsWith (type file) "image/" = true) as T by reflexivity.
  assert (size file <= 5 * 1024 * 1024)%N as S by (vm_compute; discriminate).
  split; [ exact T | ]. split; [ exact S | ].
  exact (proj1 (upload_failure_reported Index.handleQuery env file w
                  T S eq_refl)).
Defined.

(** X5.  When one of the two Supabase variables is missing or empty, the
    client is the stub, and every image that passes the validation of the
    query input ends in the upload error toast: no query is submitted for
    it and the page is left as it was, whatever client [createClient]
    would have made. *)
Theorem unconfigured_storage_refuses {P : Type}
    (onQuery : string -> option File -> option Options.t -> P -> P * list Effect)
    (url key : option string) (created : SupabaseClient.Client)
    (env : QueryInput.Env) (file : File) (w : QueryInput.World P) :
  JS.truthy_opt url = false \/ JS.truthy_opt key = false ->
  JS.startsWith (type file) "image/" = true ->
  (size file <= 5 * 1024 * 1024)%N ->
  let client := SupabaseClient.supabase url key created in
  let w' :=
    QueryInput.handleImageUpload onQuery
      (SupabaseClient.withClient client env) (Some file) w in
  client = SupabaseClient.stub
  /\ QueryInput.page w' = QueryInput.page w
  /\ filter is_toast (QueryInput.trace w')
     = (filter is_toast (QueryInput.trace w)
        ++ [ Toast (I18n.t (QueryInput.language env) "image.error")
                   "Failed to upload image. Please try again." true ])%list
  /\ forall endpoint body,
       In (Fetch endpoint body) (QueryInput.trace w') ->
       In (Fetch endpoint body) (QueryInput.trace w).
Proof.
  intros C T S client w'.
  assert (client = SupabaseClient.stub) as E.
  { unfold client, SupabaseClient.supabase.
    destruct C as [-> | ->]; [ | rewrite andb_false_r ]; reflexivity. }
  split; [ exact E | ]. unfold w'. rewrite E.
  rewrite (handleImageUpload_failure onQuery
             (SupabaseClient.withClient SupabaseClient.stub env) file w T S
             eq_refl).
  simpl. split; [ reflexivity | ]. split.
  - rewrite filter_app. reflexivity.
  - intros endpoint body I. apply in_app_or in I as [I | I]; [ exact I | ].
    simpl in I. destruct I as [I | [I | [I | []]]]; discriminate I.
Qed.

Lemma unconfigured_storage_refuses_witness :
  let file := mkFile "leaf.png" "image/png" 2048 in
  let env :=
    QueryInput.mkEnv 1723 "2025-08-17T12:18:06.000Z" "en" None
      (fun _ p _ => Some p) (fun _ p => p) NetworkError true true in
  let created := SupabaseClient.mkClient (fun _ p _ => Some p) (fun _ p => p) in
  let w := QueryInput.mkWorld "" false None Index.initial [] in
  (JS.truthy_opt (Some "https://x.supabase.co") = false
   \/ JS.truthy_opt (Some "") = false)
  /\ SupabaseClient.supabase (Some "https://x.supabase.co") (Some "") created
     = SupabaseClient.stub.
Proof.
  intros file env created w.
  assert (JS.truthy_opt (Some "https://x.supabase.co") = false
          \/ JS.truthy_opt (Some "") = false) as C by (right; reflexivity).
  split; [ exact C | ].
  refine (proj1 (unconfigured_storage_refuses Index.handleQuery
                   (Some "https://x.supabase.co") (Some "") created env file w
                   C eq_refl _)).
  vm_compute; discriminate.
Defined.

(** ** What the pages show for a delivered result *)

(** The log function and the request add no delay. *)
Lemma logged_request_sleeps {P : Type} (env : QueryInput.Env)
    (queryText : string) (imageId : option string) (r : Json QueryResult)
    (w : QueryInput.World P) :
  filter is_sleep
    (QueryInput.trace
       (QueryInput.logQueryToIndexedDB env queryText r
          (QueryInput.emit (QueryInput.request env queryText imageId) w)))
  = filter is_sleep (QueryInput.trace w).
Proof.
  unfold QueryInput.logQueryToIndexedDB.
  destruct (QueryInput.idbOpens env), (QueryInput.idbAccepts env); simpl;
    try destruct (IDB.add _ _ _) as [[k d'] | ]; simpl;
    rewrite !filter_app; simpl; rewrite ?app_nil_r; reflexivity.
Qed.

(** X6.  A result delivered by the remote endpoint is shown as it is, and
    without the simulated delay, by the home page whose handler takes
    options and by the query page.  The home page of [src/pages/Index.tsx],
    whose handler takes the text and the file only, never shows it: it
    waits and shows the canned result chosen from the text, as if no image
    had been sent. *)
Theorem delivered_result_display
    (env : QueryInput.Env) (queryText : string) (imageId : option string)
    (r : QueryResult)
    (w : QueryInput.World Index.State)
    (wq : QueryInput.World QueryPage.State)
    (ws : QueryInput.World IndexSimple.State) :
  delivered (QueryInput.queryEndpoint env) = Some (JObject r) ->
  let w' := QueryInput.handleRealQuery Index.handleQuery env queryText imageId w in
  let wq' :=
    QueryInput.handleRealQuery QueryPage.handleQuery env queryText imageId wq in
  let ws' :=
    QueryInput.handleRealQuery IndexSimple.onQuery env queryText imageId ws in
  Index.result (QueryInput.page w') = Some (JObject r)
  /\ filter is_sleep (QueryInput.trace w')
     = filter is_sleep (QueryInput.trace w)
  /\ QueryPage.result (QueryInput.page wq') = Some (JObject r)
  /\ filter is_sleep (QueryInput.trace wq')
     = filter is_sleep (QueryInput.trace wq)
  /\ IndexSimple.result (QueryInput.page ws') = Mock.select queryText None
  /\ filter is_sleep (QueryInput.trace ws')
     = (filter is_sleep (QueryInput.trace ws) ++ [Sleep 1500])%list.
Proof.
  intros D w' wq' ws'. unfold w', wq', ws'.
  rewrite !(handleRealQuery_success _ _ _ _ _ _ D).
  unfold QueryInput.callOnQuery. simpl.
  rewrite !filter_app, !logged_request_sleeps. simpl.
  rewrite !app_nil_r. repeat split.
Qed.

Lemma delivered_result_display_witness :
  let r := mkQueryResult "Irrigate at dawn." 0.9 ["Check soil moisture"] [] in
  let env :=
    QueryInput.mkEnv 1723 "2025-08-17T12:18:06.000Z" "en" None
      (fun _ _ _ => None) (fun _ p => p) (Http true (Some (JObject r)))
      true true in
  delivered (QueryInput.queryEndpoint env) = Some (JObject r)
  /\ Index.result
       (QueryInput.page
          (QueryInput.handleRealQuery Index.handleQuery env
             "When to irrigate?" None
             (QueryInput.mkWorld "" false None Index.initial [])))
     = Some (JObject r).
Proof.
  intros r env. split; [ reflexivity | ].
  exact (proj1 (delivered_result_display env "When to irrigate?" None r
                  (QueryInput.mkWorld "" false None Index.initial [])
                  (QueryInput.mkWorld "" false None
                     (QueryPage.mkState None false) [])
                  (QueryInput.mkWorld "" false None
                     (IndexSimple.mkState None false) [])
                  eq_refl)).
Defined.

(** ** What a fallback result looks like *)

(** X7.  Whatever the text and the file, the fallback of the home page
    fills the result slot with one of the three canned results: three
    actions, two sources and a confidence of 0.65 at least, so the result
    card never shows the "low" label or the cross icon for it.  The
    fallback of the query page always gets the "high" label. *)
Theorem fallback_results_presentable
    (text : string) (imageFile : option File) (lng : string)
    (st : QueryPage.State) :
  (exists r,
     Mock.select text imageFile = Some r
     /\ In r [ Mock.pest; Mock.fertilizer; Mock.irrigation ]
     /\ List.length (actions r) = 3
     /\ List.length (sources r) = 2
     /\ JS.fle 0.65 (confidence r)
     /\ ResultCard.getConfidenceText (I18n.t lng) (confidence r)
        <> I18n.t lng "confidence.low"
     /\ ResultCard.getConfidenceIcon (confidence r) <> ResultCard.XCircle)
  /\ (exists r,
        QueryPage.result (fst (QueryPage.handleQuery text imageFile None st))
        = Some (JObject r)
        /\ ResultCard.getConfidenceText (I18n.t lng) (confidence r)
           = I18n.t lng "confidence.high"
        /\ ResultCard.getConfidenceIcon (confidence r)
           = ResultCard.CheckCircle).
Proof.
  destruct (StringFacts.confidence_labels_distinct lng) as (HM & HL & ML).
  split.
  - rewrite select_cases. cbv zeta.
    destruct (JS.includes (JS.toLowerCase text) "pest"
              || JS.includes (JS.toLowerCase text) "insect"
              || JS.includes (JS.toLowerCase text) "bug"
              || match imageFile with Some _ => true | None => false end);
      [ exists Mock.pest
      | destruct (JS.includes (JS.toLowerCase text) "fertilizer"
                  || JS.includes (JS.toLowerCase text) "nutrient"
                  || JS.includes (JS.toLowerCase text) "nitrogen");
        [ exists Mock.fertilizer | exists Mock.irrigation ] ];
      (split; [ reflexivity | ]); (split; [ simpl; tauto | ]);
      (split; [ reflexivity | ]); (split; [ reflexivity | ]);
      (split; [ reflexivity | ]); (split; [ | discriminate ]).
    + change (I18n.t lng "confidence.medium" <> I18n.t lng "confidence.low").
      exact ML.
    + change (I18n.t lng "confidence.high" <> I18n.t lng "confidence.low").
      exact HL.
    + change (I18n.t lng "confidence.high" <> I18n.t lng "confidence.low").
      exact HL.
  - eexists. split; [ reflexivity | ]. split; reflexivity.
Qed.

(** ** The treatment recommender without its backend *)

Section ChemFacts.

Variable crop : string.
Variable userId : option string.
Variable env : ChemRecommender.Env.


End ChemFacts.



(** An answer [200] with the body [null] replaces a recommendation on
    display by nothing. *)
Example null_recommendation_shows_nothing :
  let env :=
    ChemRecommender.mkEnv 1723 None (fun _ _ _ => None) (fun _ p => p)
      (Http true (Some JNull)) in
  let shown :=
    ChemRecommender.mkState "yellow spots"
      (JObject (ChemRecommender.mockRecommendation "tomato" None))
      false 0 None [] in
  let s' :=
    ChemRecommender.getRecommendation "tomato" None env "yellow spots" None
      shown in
  ChemForm.results shown <> Some []
  /\ ChemForm.results s' = Some []
  /\ filter is_toast (ChemRecommender.trace s') = [].
Proof. repeat split. discriminate. Qed.

(** X9.  The submit handler of the recommender asks for nothing, and says
    so in a toast, when the symptom text is white space only and no image
    has been uploaded.  Otherwise it sends one request: the symptom text as
    typed, without trimming (the placeholder "Image-based analysis" only
    when the text is empty), and the uploaded image if there is one. *)
Theorem recommender_submit
    (crop : string) (userId : option string) (env : ChemRecommender.Env)
    (s : ChemRecommender.State) :
  let s' := ChemForm.handleSubmit crop userId env s in
  let symptom := ChemRecommender.symptom s in
  let image := ChemRecommender.imageUrl s in
  (Text.blank symptom -> JS.truthy_opt image = false ->
     s' = ChemRecommender.emit
            (Toast "Input required"
                   "Please describe symptoms or upload an image" true) s)
  /\ (~ Text.blank symptom \/ JS.truthy_opt image = true ->
      exists es,
        ChemRecommender.trace s'
        = (ChemRecommender.trace s
           ++ Fetch (ChemRecommender.apiUrl env ++ "/api/chem-reco")
                [ ("crop", Some (if JS.truthy crop then crop else "general"));
                  ("symptom",
                   Some (if JS.truthy symptom then symptom
                         else "Image-based analysis"));
                  ("image_id", if JS.truthy_opt image then image else None);
                  ("user_id", userId) ] :: es)%list
        /\ filter is_network es = []
        /\ filter is_toast es = []).
Proof.
  intros s' symptom image. unfold s', ChemForm.handleSubmit.
  fold symptom. fold image. split.
  - intros B I. apply TextFacts.trim_empty_iff in B. rewrite B, I. reflexivity.
  - intros H.
    assert (negb (JS.truthy (Text.trim symptom)) && negb (JS.truthy_opt image)
            = false) as ->.
    { destruct H as [NB | ->]; [ | apply andb_false_r ].
      destruct (Text.trim symptom) eqn:E; [ | reflexivity ].
      exfalso. apply NB, TextFacts.trim_empty_iff. exact E. }
    unfold ChemRecommender.getRecommendation.
    destruct (ChemRecommender.chemEndpoint env) as [ | [ | ] [data | ]];
      simpl; rewrite <- ?app_assoc; simpl; eexists;
      (split; [ reflexivity | split; reflexivity ]).
Qed.

Lemma recommender_submit_witness :
  let env :=
    ChemRecommender.mkEnv 1723 None (fun _ _ _ => None) (fun _ p => p)
      NetworkError in
  let s :=
    ChemRecommender.mkState "   " JNull false 0
      (Some "https://cdn.example/leaf.png") [] in
  (~ Text.blank (ChemRecommender.symptom s)
   \/ JS.truthy_opt (ChemRecommender.imageUrl s) = true)
  /\ exists es,
       ChemRecommender.trace (ChemForm.handleSubmit "tomato" None env s)
       = Fetch "/api/chem-reco"
           [ ("crop", Some "tomato"); ("symptom", Some "   ");
             ("image_id", Some "https://cdn.example/leaf.png");
             ("user_id", None) ] :: es
       /\ filter is_network es = []
       /\ filter is_toast es = [].
Proof.
  intros env s.
  assert (~ Text.blank (ChemRecommender.symptom s)
          \/ JS.truthy_opt (ChemRecommender.imageUrl s) = true) as H
    by (right; reflexivity).
  split; [ exact H | ].
  exact (proj2 (recommender_submit "tomato" None env s) H).
Defined.

(** X10.  When the storage refuses an image that passed the validation of
    the recommender, the upload is reported with one toast and nothing is
    asked of the recommendation endpoint: the recommendation on display,
    the image and the symptom text are as before, loading is over and the
    progress is back at zero. *)
Theorem recommender_upload_failure
    (crop : string) (userId : option string) (env : ChemRecommender.Env)
    (file : File) (s : ChemRecommender.State) :
  let namespace :=
    match userId with
    | Some u => if JS.truthy u then u else "anonymous"
    | None => "anonymous"
    end in
  let filePath :=
    namespace ++ "/" ++ JS.showN (ChemRecommender.now env) ++ "-" ++ name file in
  JS.startsWith (type file) "image/" = true ->
  (size file <= 5 * 1024 * 1024)%N ->
  ChemRecommender.upload env "farm-images" filePath file = None ->
  ChemRecommender.handleImageUpload crop userId env file s
  = ChemRecommender.mkState (ChemRecommender.symptom s)
      (ChemRecommender.recommendation s) false 0 (ChemRecommender.imageUrl s)
      (ChemRecommender.trace s
       ++ [ StorageUpload "farm-images" filePath file;
            ConsoleError "Upload error:";
            Toast "Upload failed" "Failed to upload image. Please try again."
                  true ])%list.
Proof.
  intros namespace filePath T S U.
  unfold ChemRecommender.handleImageUpload. rewrite T. simpl negb.
  assert ((5 * 1024 * 1024 <? size file)%N = false) as -> by
    (apply N.ltb_ge; exact S).
  cbv iota.
  assert (match userId with
          | Some u =>
              if JS.truthy u
              then u ++ "/" ++ JS.showN (ChemRecommender.now env) ++ "-" ++ name file
              else "anonymous/" ++ JS.showN (ChemRecommender.now env) ++ "-" ++ name file
          | None =>
              "anonymous/" ++ JS.showN (ChemRecommender.now env) ++ "-" ++ name file
          end = filePath) as ->.
  { unfold filePath, namespace.
    destruct userId as [u | ]; [ destruct (JS.truthy u) | ]; reflexivity. }
  rewrite U. unfold ChemRecommender.emit, ChemRecommender.setLoading,
    ChemRecommender.setUploadProgress. simpl.
  rewrite <- !app_assoc. reflexivity.
Qed.

Lemma recommender_upload_failure_witness :
  let file := mkFile "leaf.png" "image/png" 2048 in
  let env :=
    ChemRecommender.mkEnv 1723 None (fun _ _ _ => None) (fun _ p => p)
      NetworkError in
  let s := ChemRecommender.mkState "spots" JNull false 0 None [] in
  JS.startsWith (type file) "image/" = true
  /\ (size file <= 5 * 1024 * 1024)%N
  /\ ChemRecommender.handleImageUpload "tomato" (Some "anonymous") env file s
     = ChemRecommender.mkState "spots" JNull false 0 None
         [ StorageUpload "farm-images" "anonymous/1723-leaf.png" file;
           ConsoleError "Upload error:";
           Toast "Upload failed" "Failed to upload image. Please try again."
                 true ].
Proof.
  intros file env s.
  assert (JS.startsWith (type file) "image/" = true) as T by reflexivity.
  assert (size file <= 5 * 1024 * 1024)%N as S by (vm_compute; discriminate).
  split; [ exact T | ]. split; [ exact S | ].
  exact (recommender_upload_failure "tomato" (Some "anonymous") env file s
           T S eq_refl).
Defined.

(** ** The badges of the three cards *)

(** X11.  The recommender and the scheme card colour their badge by the
    same bands as the result card (0.7 and 0.4, lower bound included), for
    every double.  In the recommender a green badge never comes with the
    low-confidence warning, a red badge on a number always does, and an
    amber badge may go either way (the warning starts below 0.6). *)
Theorem badge_colours_agree (c c' : float) :
  ChemForm.getConfidenceColor c = PolicyCard.getConfidenceColor c
  /\ (ChemForm.getConfidenceColor c = ChemForm.getConfidenceColor c'
      <-> ResultCard.getConfidenceColor c = ResultCard.getConfidenceColor c')
  /\ (forall (s : ChemRecommender.State) (reco : ChemRecommender.ChemRecommendation),
        ChemRecommender.recommendation s = JObject reco ->
        ChemRecommender.confidence reco = c ->
        (ChemForm.getConfidenceColor c = "bg-emerald-100 text-emerald-800" ->
         ChemRecommender.showWarning s = false)
        /\ (Double.is_number c ->
            ChemForm.getConfidenceColor c = "bg-rose-100 text-rose-800" ->
            ChemRecommender.showWarning s = true))
  /\ (exists lo hi : float,
        ChemForm.getConfidenceColor lo = "bg-amber-100 text-amber-800"
        /\ ChemForm.getConfidenceColor hi = "bg-amber-100 text-amber-800"
        /\ (lo <? 0.6)%float = true /\ (hi <? 0.6)%float = false).
Proof.
  split; [ reflexivity | ]. split; [ | split ].
  - unfold ChemForm.getConfidenceColor, ResultCard.getConfidenceColor.
    destruct (0.7 <=? c)%float, (0.4 <=? c)%float,
             (0.7 <=? c')%float, (0.4 <=? c')%float;
      split; intros E; try reflexivity; discriminate E.
  - intros s reco R C. unfold ChemRecommender.showWarning. rewrite R, C.
    unfold ChemForm.getConfidenceColor. split.
    + destruct (0.7 <=? c)%float eqn:H7;
        [ | destruct (0.4 <=? c)%float; discriminate ].
      intros _. destruct (c <? 0.6)%float eqn:L; [ | reflexivity ].
      assert ((c <? 0.7)%float = true) as L7
        by (apply (FloatOrder.ltb_trans c 0.6 0.7 L); reflexivity).
      rewrite (FloatOrder.ltb_excludes_leb _ _ L7) in H7. discriminate H7.
    + intros N.
      destruct (0.7 <=? c)%float; [ discriminate | ].
      destruct (0.4 <=? c)%float eqn:H4; [ discriminate | ].
      intros _.
      assert (Double.is_number 0.4) as N4 by Double.literal.
      assert ((c <? 0.4)%float = true) as L4
        by (rewrite (FloatOrder.ltb_negb_leb c 0.4 N N4), H4; reflexivity).
      apply (FloatOrder.ltb_trans c 0.4 0.6 L4). reflexivity.
  - exists 0.45%float, 0.65%float. repeat split.
Qed.

Example red_badge_without_warning :
  ChemForm.getConfidenceColor nan = "bg-rose-100 text-rose-800"
  /\ ChemRecommender.showWarning
       (ChemRecommender.mkState "" 
          (JObject (ChemRecommender.mkReco "" nan [] [] ""
                      (ChemRecommender.mkMeta "" "" None)))
          false 0 None []) = false.
Proof. split; reflexivity. Qed.

(** ** The post form of the community feed *)

Module FeedFacts.

Import CommunityFeed.

(** Removing the posts of an identifier that no post has changes
    nothing. *)
Lemma filter_absent (i : string) (l : list CommunityPost) :
  (forall p, In p l -> id p <> i) ->
  filter (fun p => negb (String.eqb (id p) i)) l = l.
Proof.
  induction l as [ | q l IH]; intros A; simpl; [ reflexivity | ].
  destruct (String.eqb_spec (id q) i) as [E | _].
  - exfalso. exact (A q (or_introl eq_refl) E).
  - simpl. rewrite IH; [ reflexivity | ].
    intros p I. apply A. right. exact I.
Qed.


(** The guard of [createPost] on a form with a title and a body, for a
    user. *)
Lemma guard_passed (form : NewPost.t) :
  ~ Text.blank (NewPost.title form) -> ~ Text.blank (NewPost.body form) ->
  negb (JS.truthy (Text.trim (NewPost.title form)))
  || negb (JS.truthy (Text.trim (NewPost.body form))) = false.
Proof.
  intros T B.
  destruct (Text.trim (NewPost.title form)) eqn:ET;
    [ exfalso; apply T, TextFacts.trim_empty_iff; exact ET | ].
  destruct (Text.trim (NewPost.body form)) eqn:EB;
    [ exfalso; apply B, TextFacts.trim_empty_iff; exact EB | ].
  reflexivity.
Qed.

End FeedFacts.

(** X12.  When the request of a new post fails, the post that was shown at
    once is taken out again: the list of posts is the one from before the
    submission (provided none of them carried the temporary identifier
    [temp-<clock>], which is removed with it), and the failure is reported
    in a toast.  The form is not restored: it stays closed and empty. *)
Theorem post_failure_rolls_back
    (userId userState : option string) (env : CommunityFeed.Env)
    (s : CommunityFeed.State) (user : string) :
  userId = Some user -> JS.truthy user = true ->
  ~ Text.blank (CommunityFeed.NewPost.title (CommunityFeed.newPost s)) ->
  ~ Text.blank (CommunityFeed.NewPost.body (CommunityFeed.newPost s)) ->
  delivered (CommunityFeed.postEndpoint env) = None ->
  let form := CommunityFeed.newPost s in
  let temp := "temp-" ++ JS.showN (CommunityFeed.now env) in
  let s' := CommunityFeed.createPost userId userState env s in
  CommunityFeed.posts s'
  = filter (fun p => negb (String.eqb (CommunityFeed.id p) temp))
      (CommunityFeed.posts s)
  /\ ((forall p, In p (CommunityFeed.posts s) -> CommunityFeed.id p <> temp) ->
      CommunityFeed.posts s' = CommunityFeed.posts s)
  /\ CommunityFeed.newPost s' = CommunityFeed.NewPost.mk "" "" ""
  /\ CommunityFeed.showCreateForm s' = false
  /\ CommunityFeed.submitting s' = false
  /\ CommunityFeed.trace s'
     = (CommunityFeed.trace s
        ++ [ CommunityFeed.Post
               (CommunityFeed.apiUrl env ++ "/api/community/post") user
               (CommunityFeed.NewPost.title form)
               (CommunityFeed.NewPost.body form)
               (CommunityFeed.parseTags (CommunityFeed.NewPost.tags form));
             CommunityFeed.ConsoleError "Post creation error:";
             CommunityFeed.Toast "Failed to create post"
               "Please try again later" true ])%list.
Proof.
  intros -> U T B D form temp s'.
  assert (CommunityFeed.posts s'
          = filter (fun p => negb (String.eqb (CommunityFeed.id p) temp))
              (CommunityFeed.posts s)
          /\ CommunityFeed.newPost s' = CommunityFeed.NewPost.mk "" "" ""
          /\ CommunityFeed.showCreateForm s' = false
          /\ CommunityFeed.submitting s' = false
          /\ CommunityFeed.trace s'
             = (CommunityFeed.trace s
                ++ [ CommunityFeed.Post
                       (CommunityFeed.apiUrl env ++ "/api/community/post") user
                       (CommunityFeed.NewPost.title form)
                       (CommunityFeed.NewPost.body form)
                       (CommunityFeed.parseTags
                          (CommunityFeed.NewPost.tags form));
                     CommunityFeed.ConsoleError "Post creation error:";
                     CommunityFeed.Toast "Failed to create post"
                       "Please try again later" true ])%list) as H.
  { unfold s', CommunityFeed.createPost.
    rewrite (FeedFacts.guard_passed _ T B), U, D. simpl.
    fold temp. rewrite String.eqb_refl. simpl.
    rewrite <- !app_assoc. repeat split. }
  destruct H as (Hp & Hn & Hf & Hs & Ht).
  split; [ exact Hp | ]. split; [ | auto ].
  intros A. rewrite Hp. apply FeedFacts.filter_absent. exact A.
Qed.

Lemma post_failure_rolls_back_witness :
  let old :=
    CommunityFeed.mkPost "7" "Rust on wheat" "Any advice?" ["wheat"]
      "2025-08-16T10:00:00.000Z"
      (CommunityFeed.mkAuthor "Ravi Kumar" (Some "Karnataka") None) in
  let env := CommunityFeed.mkEnv 1723 "2025-08-17T12:18:06.000Z" None NetworkError in
  let s :=
    CommunityFeed.mkState [old] true
      (CommunityFeed.NewPost.mk "Neem oil" "Does it work?" "neem, aphids")
      false [] in
  ~ Text.blank (CommunityFeed.NewPost.title (CommunityFeed.newPost s))
  /\ ~ Text.blank (CommunityFeed.NewPost.body (CommunityFeed.newPost s))
  /\ CommunityFeed.posts
       (CommunityFeed.createPost (Some "anonymous") (Some "Karnataka") env s)
     = [old].
Proof.
  intros old env s.
  assert (~ Text.blank (CommunityFeed.NewPost.title (CommunityFeed.newPost s)))
    as T by (intros B; apply TextFacts.trim_empty_iff in B; discriminate B).
  assert (~ Text.blank (CommunityFeed.NewPost.body (CommunityFeed.newPost s)))
    as B by (intros B; apply TextFacts.trim_empty_iff in B; discriminate B).
  split; [ exact T | ]. split; [ exact B | ].
  exact (proj1 (post_failure_rolls_back (Some "anonymous") (Some "Karnataka")
                  env s "anonymous" eq_refl eq_refl T B eq_refl)).
Defined.



Example post_created :
  let env :=
    CommunityFeed.mkEnv 1723 "2025-08-17T12:18:06.000Z" None
      (Http true (Some (CommunityFeed.mkReply true "42" false))) in
  let s :=
    CommunityFeed.mkState [] true
      (CommunityFeed.NewPost.mk "Neem oil" "Does it work?" "neem, , aphids ")
      false [] in
  CommunityFeed.posts (CommunityFeed.createPost (Some "anonymous") None env s)
  = [ CommunityFeed.mkPost "42" "Neem oil" "Does it work?" ["neem"; "aphids"]
        "2025-08-17T12:18:06.000Z" (CommunityFeed.mkAuthor "You" None None) ].
Proof. reflexivity. Qed.

(** X14.  A form whose title or body is white space only, and a form
    submitted without a user identifier, post nothing: the only effect is
    the toast that says what is missing, and the posts and the form are
    left as they are. *)
Theorem post_refused
    (userId userState : option string) (env : CommunityFeed.Env)
    (s : CommunityFeed.State) :
  let form := CommunityFeed.newPost s in
  let s' := CommunityFeed.createPost userId userState env s in
  (Text.blank (CommunityFeed.NewPost.title form)
   \/ Text.blank (CommunityFeed.NewPost.body form) ->
     s' = CommunityFeed.emit
            (CommunityFeed.Toast "Missing information"
               "Please fill in both title and description" true) s)
  /\ (~ Text.blank (CommunityFeed.NewPost.title form) ->
      ~ Text.blank (CommunityFeed.NewPost.body form) ->
      JS.truthy_opt userId = false ->
      s' = CommunityFeed.emit
             (CommunityFeed.Toast "Login required"
                "Please log in to create posts" true) s).
Proof.
  intros form s'. unfold s', CommunityFeed.createPost. fold form. split.
  - intros [B | B]; apply TextFacts.trim_empty_iff in B; rewrite B;
      [ | rewrite orb_true_r ]; reflexivity.
  - intros T B U. rewrite (FeedFacts.guard_passed _ T B).
    destruct userId as [user | ]; [ | reflexivity ].
    simpl in U. rewrite U. reflexivity.
Qed.

Lemma post_refused_witness :
  let env := CommunityFeed.mkEnv 1723 "2025-08-17T12:18:06.000Z" None NetworkError in
  let s :=
    CommunityFeed.mkState [] true
      (CommunityFeed.NewPost.mk "Neem oil" (String "009" "  ") "neem")
      false [] in
  (Text.blank (CommunityFeed.NewPost.title (CommunityFeed.newPost s))
   \/ Text.blank (CommunityFeed.NewPost.body (CommunityFeed.newPost s)))
  /\ CommunityFeed.createPost (Some "anonymous") None env s
     = CommunityFeed.emit
         (CommunityFeed.Toast "Missing information"
            "Please fill in both title and description" true) s.
Proof.
  intros env s.
  assert (Text.blank (CommunityFeed.NewPost.title (CommunityFeed.newPost s))
          \/ Text.blank (CommunityFeed.NewPost.body (CommunityFeed.newPost s)))
    as H by (right; apply TextFacts.trim_empty_iff; reflexivity).
  split; [ exact H | ].
  exact (proj1 (post_refused (Some "anonymous") None env s) H).
Defined.

(** X15.  The tags of a post, read from the comma-separated field: none is
    empty and none has white space at either end; a field whose pieces are
    all white space gives no tag. *)
Theorem tags_normalized (field : string) :
  Forall (fun tag => tag <> "" /\ Text.trim tag = tag)
         (CommunityFeed.parseTags field)
  /\ ((forall piece, In piece (Text.split "," field) -> Text.blank piece) ->
      CommunityFeed.parseTags field = []).
Proof.
  unfold CommunityFeed.parseTags. split.
  - apply Forall_forall. intros tag I.
    apply filter_In in I as [I N]. apply in_map_iff in I as (piece & <- & _).
    split.
    + intros E. rewrite E in N. discriminate N.
    + apply TextFacts.trim_idempotent.
  - intros A. induction (Text.split "," field) as [ | piece l IH];
      [ reflexivity | ].
    simpl.
    rewrite (proj2 (TextFacts.trim_empty_iff piece) (A piece (or_introl eq_refl))).
    simpl. apply IH. intros q I. apply A. right. exact I.
Qed.

Lemma tags_normalized_witness :
  (forall piece, In piece (Text.split "," " , ,") -> Text.blank piece)
  /\ CommunityFeed.parseTags " , ," = [].
Proof.
  assert (forall piece, In piece (Text.split "," " , ,") -> Text.blank piece)
    as A.
  { intros piece I. apply TextFacts.trim_empty_iff.
    simpl in I. destruct I as [<- | [<- | [<- | []]]]; reflexivity. }
  split; [ exact A | ].
  exact (proj2 (tags_normalized " , ,") A).
Defined.

(** ** The voice input *)

Section VoiceFacts.

Context {P : Type}.
Variable lng : string.

Lemma last_transcript_from (evs : list Voice.Event) (before : option string) :
  Voice.last_transcript evs before
  = match Voice.last_transcript evs None with
    | Some transcript => Some transcript
    | None => before
    end.
Proof.
  revert before. induction evs as [ | ev evs IH]; intros before; simpl;
    [ reflexivity | ].
  destruct ev; try apply IH.
  rewrite (IH (Some transcript)).
  destruct (Voice.last_transcript evs None); reflexivity.
Qed.

(** What one event of the voice input leaves alone. *)
Lemma step_frame (ev : Voice.Event) (st : Voice.State P) :
  let st' := Voice.step lng ev st in
  QueryInput.page (Voice.world st') = QueryInput.page (Voice.world st)
  /\ QueryInput.storage (Voice.world st') = QueryInput.storage (Voice.world st)
  /\ QueryInput.uploadingImage (Voice.world st')
     = QueryInput.uploadingImage (Voice.world st)
  /\ filter is_network (QueryInput.trace (Voice.world st'))
     = filter is_network (QueryInput.trace (Voice.world st))
  /\ QueryInput.text (Voice.world st')
     = match ev with
       | Voice.Result transcript => transcript
       | _ => QueryInput.text (Voice.world st)
       end
  /\ exists new,
       Voice.calls st' = (Voice.calls st ++ new)%list
       /\ Forall (fun c => c = Voice.Stop
                           \/ c = Voice.Start
                                  (Voice.mkRecognizer false false
                                     (Voice.t lng "voice.lang"))) new.
Proof.
  destruct ev as [supported | | transcript | | ]; simpl.
  - unfold Voice.click, Voice.stopRecording, Voice.startRecording.
    destruct (Voice.isRecording st); simpl.
    + repeat split.
      destruct (Voice.recognition st).
      * exists [Voice.Stop]. split; [ reflexivity | ].
        apply Forall_cons; [ left; reflexivity | constructor ].
      * exists []. rewrite app_nil_r. split; [ reflexivity | constructor ].
    + destruct supported; simpl; rewrite ?filter_app; simpl;
        rewrite ?app_nil_r; repeat split.
      * eexists. split; [ reflexivity | ].
        apply Forall_cons; [ right; reflexivity | constructor ].
      * exists []. rewrite app_nil_r. split; [ reflexivity | constructor ].
  - repeat split. exists []. rewrite app_nil_r.
    split; [ reflexivity | constructor ].
  - rewrite filter_app. simpl. rewrite app_nil_r. repeat split.
    exists []. rewrite app_nil_r. split; [ reflexivity | constructor ].
  - rewrite !filter_app. simpl. rewrite !app_nil_r. repeat split.
    exists []. rewrite app_nil_r. split; [ reflexivity | constructor ].
  - repeat split. exists []. rewrite app_nil_r.
    split; [ reflexivity | constructor ].
Qed.

End VoiceFacts.

(** X16.  Whatever the clicks on the microphone and the events of the
    recognizer, and in whatever order, the voice input only fills the text
    box: the text is the transcript of the last result (the text from
    before when there was none), no request is sent, and the page, the log
    and the upload flag are untouched.  Every recognizer it starts is
    single-shot, without interim results, in the language of the
    interface.  After an error or the end of the recognition the recording
    flag is off. *)
Theorem voice_fills_text_only {P : Type} (lng : string)
    (evs : list Voice.Event) (st : Voice.State P) :
  let st' := Voice.run lng evs st in
  QueryInput.page (Voice.world st') = QueryInput.page (Voice.world st)
  /\ QueryInput.storage (Voice.world st') = QueryInput.storage (Voice.world st)
  /\ QueryInput.uploadingImage (Voice.world st')
     = QueryInput.uploadingImage (Voice.world st)
  /\ filter is_network (QueryInput.trace (Voice.world st'))
     = filter is_network (QueryInput.trace (Voice.world st))
  /\ QueryInput.text (Voice.world st')
     = match Voice.last_transcript evs None with
       | Some transcript => transcript
       | None => QueryInput.text (Voice.world st)
       end
  /\ (exists new,
        Voice.calls st' = (Voice.calls st ++ new)%list
        /\ Forall (fun c => c = Voice.Stop
                            \/ c = Voice.Start
                                   (Voice.mkRecognizer false false
                                      (Voice.t lng "voice.lang"))) new)
  /\ (forall before last,
        evs = (before ++ [last])%list ->
        last = Voice.Failed \/ last = Voice.Ended ->
        Voice.isRecording st' = false).
Proof.
  cbv zeta. revert st. induction evs as [ | ev evs IH]; intros st.
  - simpl. do 5 (split; [ reflexivity | ]). split.
    + exists []. split; [ symmetry; apply app_nil_r | constructor ].
    + intros [ | x before] last E; discriminate E.
  - simpl Voice.run.
    destruct (step_frame lng ev st) as (Sp & Ss & Su & Sn & St & n1 & Sc & Sf).
    destruct (IH (Voice.step lng ev st))
      as (Ip & Is & Iu & In' & It & (n2 & Ic & If') & Ir).
    rewrite Ip, Is, Iu, In', It, Sp, Ss, Su, Sn, St.
    do 4 (split; [ reflexivity | ]). split; [ | split ].
    + simpl. destruct ev; try reflexivity.
      rewrite (last_transcript_from evs (Some transcript)).
      destruct (Voice.last_transcript evs None); reflexivity.
    + exists (n1 ++ n2)%list. rewrite Ic, Sc, <- app_assoc.
      split; [ reflexivity | ]. apply Forall_app. split; assumption.
    + intros before last E H. destruct before as [ | x before].
      * simpl in E. injection E as E1 E2. subst ev evs. simpl.
        destruct H as [-> | ->]; reflexivity.
      * simpl in E. injection E as _ E. exact (Ir before last E H).
Qed.

(** ** The language of the interface *)

(** X17.  The language toggle moves between "en" and "hi": toggling twice
    gives the language back exactly when it was one of the two, and any
    other language is left for "en".  Starting from "en", the language
    after a number of toggles depends on its parity only, the button is
    labelled with the other language, and a recognizer started then listens
    in "en-IN" or "hi-IN" accordingly. *)
Theorem toggle_language_cycle (language : string) (n : nat) :
  (LanguageToggle.toggleLanguage (LanguageToggle.toggleLanguage language)
   = language <-> language = "en" \/ language = "hi")
  /\ (language <> "en" -> LanguageToggle.toggleLanguage language = "en")
  /\ LanguageToggle.toggles n "en" = (if Nat.even n then "en" else "hi")
  /\ LanguageToggle.label (LanguageToggle.toggles n "en")
     = (if Nat.even n then "हिंदी" else "English")
  /\ Voice.t (LanguageToggle.toggles n "en") "voice.lang"
     = (if Nat.even n then "en-IN" else "hi-IN").
Proof.
  assert (LanguageToggle.toggles n "en" = (if Nat.even n then "en" else "hi")
          /\ LanguageToggle.toggles n "hi" = (if Nat.even n then "hi" else "en"))
    as [E _].
  { induction n as [ | n [IHe IHh]]; [ split; reflexivity | ].
    change (LanguageToggle.toggles (S n) "en")
      with (LanguageToggle.toggles n "hi").
    change (LanguageToggle.toggles (S n) "hi")
      with (LanguageToggle.toggles n "en").
    rewrite IHe, IHh, Nat.even_succ, <- Nat.negb_even.
    destruct (Nat.even n); split; reflexivity. }
  split; [ | split; [ | split; [ exact E | ] ] ].
  - unfold LanguageToggle.toggleLanguage.
    destruct (String.eqb_spec language "en") as [-> | NE]; simpl.
    + split; auto.
    + split.
      * intros <-. right. reflexivity.
      * intros [-> | ->]; [ contradiction | reflexivity ].
  - intros NE. unfold LanguageToggle.toggleLanguage.
    destruct (String.eqb_spec language "en"); [ contradiction | reflexivity ].
  - rewrite E. destruct (Nat.even n); split; reflexivity.
Qed.

(** ** The service worker *)

Module WorkerFacts.

Import ServiceWorker.





Lemma without_last {A : Type} (l : list A) (x : A) :
  nth_error (l ++ [x]) (List.length l) = Some x
  /\ without (List.length l) (l ++ [x]) = l.
Proof.
  induction l as [ | a l [IHn IHw]]; [ split; reflexivity | ].
  split; simpl; [ exact IHn | rewrite IHw; reflexivity ].
Qed.

(** A storage in which no cache answers a request. *)
Lemma cachesMatch_none (cs : CacheStorage) (request : Request) :
  cachesMatch cs request = None <->
  forall name c, In (name, c) cs -> cacheMatch c request = None.
Proof.
  induction cs as [ | [n c] cs IH]; simpl.
  - split; [ intros _ name c [] | reflexivity ].
  - destruct (cacheMatch c request) eqn:M.
    + split; [ discriminate | ].
      intros H. rewrite (H n c (or_introl eq_refl)) in M. discriminate M.
    + rewrite IH. split.
      * intros H name c' [E | I]; [ injection E as <- <-; exact M | ].
        exact (H name c' I).
      * intros H name c' I. exact (H name c' (or_intror I)).
Qed.

Lemma cacheMatch_none (c : Cache) (request : Request) :
  cacheMatch c request = None <->
  forall x, In x c -> matches request x = false.
Proof.
  unfold cacheMatch. split.
  - intros E x I. destruct (find (matches request) c) eqn:F;
      [ discriminate E | ].
    exact (find_none _ _ F x I).
  - intros H. destruct (find (matches request) c) as [x | ] eqn:F;
      [ | reflexivity ].
    apply find_some in F as [I M]. rewrite (H x I) in M. discriminate M.
Qed.











(** A put that stores nothing leaves the answers of the storage. *)
Lemma openAndPut_nothing (request any : Request) (response : Response)
    (accepted : bool) (cs : CacheStorage) :
  (if accepted then cachePut request response
                      match JS.get CACHE_NAME cs with
                      | Some c => c
                      | None => []
                      end
   else None) = None ->
  cachesMatch (openAndPut CACHE_NAME request response accepted cs) any
  = cachesMatch cs any.
Proof.
  intros E. unfold openAndPut. rewrite E. clear E.
  induction cs as [ | [n c] cs IH]; [ reflexivity | ].
  cbn [JS.get store]. destruct (String.eqb CACHE_NAME n); cbn [cachesMatch];
    [ reflexivity | ].
  rewrite IH. reflexivity.
Qed.

(** The map [responseCache] is never written. *)
Lemma responseCache_step (ev : Event) (w : Worker) :
  responseCache (step ev w) = responseCache w.
Proof.
  destruct ev as [request network | n accepted | ]; [ | | reflexivity ].
  - unfold step, onFetch.
    destruct (cachesMatch (caches w) request); [ reflexivity | ].
    destruct network as [response | ]; [ | reflexivity ].
    destruct (negb (status response =? 200)%N
              || negb (String.eqb (kind response) "basic")); reflexivity.
  - unfold step, onSettled.
    destruct (nth_error (pending w) n) as [[request response] | ];
      reflexivity.
Qed.

Lemma responseCache_run (evs : list Event) (w : Worker) :
  responseCache (run evs w) = responseCache w.
Proof.
  revert w. induction evs as [ | ev evs IH]; intros w; simpl;
    [ reflexivity | ].
  rewrite IH. apply responseCache_step.
Qed.

End WorkerFacts.



(** X19.  A request that is not a GET, such as the POST of a query, always
    goes to the network and is never stored: the listener sends it, hands
    the network's response back unchanged, and every request is answered
    by the caches as it was before, after the listener and after the put
    that it may have started has settled. *)
Theorem post_requests_reach_network (w : ServiceWorker.Worker)
    (request : ServiceWorker.Request) (r : ServiceWorker.Response)
    (any : ServiceWorker.Request) (accepted : bool) :
  ServiceWorker.isGet request = false ->
  let w1 := fst (fst (ServiceWorker.onFetch request (Some r) w)) in
  let w2 :=
    ServiceWorker.step
      (ServiceWorker.Settled (List.length (ServiceWorker.pending w)) accepted)
      w1 in
  snd (ServiceWorker.onFetch request (Some r) w)
  = [ ServiceWorker.Network request ]
  /\ snd (fst (ServiceWorker.onFetch request (Some r) w)) = Some r
  /\ ServiceWorker.cachesMatch (ServiceWorker.caches w1) any
     = ServiceWorker.cachesMatch (ServiceWorker.caches w) any
  /\ ServiceWorker.cachesMatch (ServiceWorker.caches w2) any
     = ServiceWorker.cachesMatch (ServiceWorker.caches w) any.
Proof.
  intros G w1 w2.
  assert (ServiceWorker.cachesMatch (ServiceWorker.caches w) request = None)
    as M.
  { apply WorkerFacts.cachesMatch_none. intros name c _.
    apply WorkerFacts.cacheMatch_none. intros x _.
    unfold ServiceWorker.matches. rewrite G. reflexivity. }
  unfold w2, w1, ServiceWorker.onFetch. rewrite M.
  destruct (negb (ServiceWorker.status r =? 200)%N
            || negb (String.eqb (ServiceWorker.kind r) "basic"));
    simpl; (split; [ reflexivity | ]); (split; [ reflexivity | ]);
    (split; [ reflexivity | ]); unfold ServiceWorker.onSettled; simpl.
  - rewrite (proj2 (nth_error_None _ _)) by apply Nat.le_refl. reflexivity.
  - destruct (WorkerFacts.without_last (ServiceWorker.pending w) (request, r))
      as [-> _].
    simpl. apply WorkerFacts.openAndPut_nothing.
    unfold ServiceWorker.cachePut. rewrite G.
    destruct accepted; reflexivity.
Qed.

Lemma post_requests_reach_network_witness :
  let request :=
    ServiceWorker.mkRequest "https://farmguru.app/api/query" "POST"
      [ ("content-type", "application/json") ] in
  let r := ServiceWorker.mkResponse 200 "basic" [] "{}" in
  let w := ServiceWorker.start [] in
  let w1 := fst (fst (ServiceWorker.onFetch request (Some r) w)) in
  let w2 := ServiceWorker.step (ServiceWorker.Settled 0 true) w1 in
  snd (ServiceWorker.onFetch request (Some r) w)
  = [ ServiceWorker.Network request ]
  /\ snd (fst (ServiceWorker.onFetch request (Some r) w)) = Some r
  /\ ServiceWorker.cachesMatch (ServiceWorker.caches w1) request
     = ServiceWorker.cachesMatch (ServiceWorker.caches w) request
  /\ ServiceWorker.cachesMatch (ServiceWorker.caches w2) request
     = ServiceWorker.cachesMatch (ServiceWorker.caches w) request.
Proof.
  intros request r w w1 w2.
  apply (post_requests_reach_network w request r request true). reflexivity.
Defined.

(** X20.  The offline answer for [/api/] requests never comes: the map
    [responseCache] is created empty and no listener writes to it, so
    after any sequence of requests, settlements and activations a request
    that the caches do not hold and the network cannot answer gets no
    response, whatever its URL. *)
Theorem offline_miss_unanswered (cs : ServiceWorker.CacheStorage)
    (evs : list ServiceWorker.Event) (request : ServiceWorker.Request) :
  let w := ServiceWorker.run evs (ServiceWorker.start cs) in
  ServiceWorker.cachesMatch (ServiceWorker.caches w) request = None ->
  ServiceWorker.responseCache w = []
  /\ ServiceWorker.onFetch request None w
     = (w, None, [ ServiceWorker.Network request ]).
Proof.
  intros w M.
  assert (ServiceWorker.responseCache w = []) as E.
  { unfold w. rewrite WorkerFacts.responseCache_run. reflexivity. }
  split; [ exact E | ].
  unfold ServiceWorker.onFetch. rewrite M, E. simpl.
  destruct (JS.includes (ServiceWorker.url request) "/api/"); reflexivity.
Qed.

Lemma offline_miss_unanswered_witness :
  let request :=
    ServiceWorker.mkRequest "https://farmguru.app/api/weather" "GET" [] in
  let w :=
    ServiceWorker.run
      [ ServiceWorker.Fetched request None; ServiceWorker.Activated ]
      (ServiceWorker.start []) in
  ServiceWorker.responseCache w = []
  /\ ServiceWorker.onFetch request None w
     = (w, None, [ ServiceWorker.Network request ]).
Proof.
  intros request w.
  apply (offline_miss_unanswered []
           [ ServiceWorker.Fetched request None; ServiceWorker.Activated ]
           request).
  reflexivity.
Defined.
